(** * Butterfly: the OpenFOAM case lifecycle

    A shallow embedding of [butterfly/case.py] (class [Case]) and of
    [TunnelParameters] and [WindTunnel.__init__] from
    [butterfly/windtunnel.py], with the properties of the case
    specification stated and proved over it.

    Layout of the development:
    - [Py], [PyStr], [Re], [PySplit]: the fragment of Python the methods
      rely on (exceptions and a state-and-exception monad; [isdigit],
      [endswith], [replace], [int] and [str]; the patterns of [re.match];
      [split] and [find]);
    - [OS]: the file tree below the project directory and the system
      calls the methods issue on it;
    - [Case], [CaseRest]: the methods of [Case];
    - [Tunnel], [WindTunnel]: [TunnelParameters] and the constructor of
      [WindTunnel];
    - [SpecRunManager], [Samples], [Samples2], [Props], [Props2]: the run
      manager as the specification describes it, sample states, and the
      vocabulary of the statements;
    - the properties, one section per group of methods; the further
      properties cover what the methods leave on disk, the construction of
      the objects and the reading of the checkMesh log. *)

From Stdlib Require String Ascii.
From Stdlib Require Import NArith ZArith DecimalString DecimalN SpecFloat.
From stdpp Require Import gmap strings list fin_maps sorting.

#[local] Set Warnings "-register-all,-clear-no-such-hyp".

(** ** Python: exceptions and effects *)

Module Py.

(** The exception classes the modelled methods raise or let through. All of
    them derive from [Exception], so [except Exception] catches each. *)
Inductive exn : Set :=
  | AssertionError
  | ValueError
  | TypeError
  | OverflowError
  | NameError
  | OSError
  | IOError
  | Exception.

#[global] Instance exn_eq_dec : EqDecision exn.
Proof. solve_decision. Defined.

(** A call either returns a value or raises. *)
Inductive outcome (A : Type) : Type :=
  | Ok (a : A)
  | Raised (e : exn).
Arguments Ok {A} a.
Arguments Raised {A} e.

(** Methods mutate the object or the disk in place: what was done before an
    exception stays done, so the state is returned on both branches. *)
Definition M (S A : Type) : Type := S → outcome A * S.

Definition ret {S A} (a : A) : M S A := λ s, (Ok a, s).

Definition bind {S A B} (m : M S A) (k : A → M S B) : M S B :=
  λ s, match m s with
       | (Ok a, s') => k a s'
       | (Raised e, s') => (Raised e, s')
       end.

Definition raise {S A} (e : exn) : M S A := λ s, (Raised e, s).

Definition get_state {S} : M S S := λ s, (Ok s, s).

Definition modify {S} (f : S → S) : M S unit := λ s, (Ok tt, f s).

(** [try: body except Exception as e: handler e]. *)
Definition try_except {S A} (body : M S A) (handler : exn → M S A) : M S A :=
  λ s, match body s with
       | (Ok a, s') => (Ok a, s')
       | (Raised e, s') => handler e s'
       end.

(** [for x in l: body x]. *)
Fixpoint for_each {S A} (l : list A) (body : A → M S unit) : M S unit :=
  match l with
  | [] => ret tt
  | x :: l' => bind (body x) (λ _, for_each l' body)
  end.

End Py.
Export Py.

Declare Scope py_scope.
Delimit Scope py_scope with py.
Notation "x <- m ;; k" := (bind m (λ x, k))
  (at level 100, m at next level, k at level 200, right associativity,
   only parsing) : py_scope.
Notation "m ;;; k" := (bind m (λ _, k))
  (at level 100, k at level 200, right associativity, only parsing) : py_scope.
#[local] Open Scope py_scope.

(** ** Python: byte strings *)

Module PyStr.

Definition chars (s : string) : list Ascii.ascii := String.list_ascii_of_string s.
Definition of_chars (l : list Ascii.ascii) : string := String.string_of_list_ascii l.

Definition is_digit_char (c : Ascii.ascii) : bool :=
  (48 <=? Ascii.nat_of_ascii c)%nat && (Ascii.nat_of_ascii c <=? 57)%nat.

(** [s.isdigit()] on a byte string: at least one character, all of them
    decimal digits. *)
Definition isdigit (s : string) : bool :=
  match chars s with
  | [] => false
  | cs => forallb is_digit_char cs
  end.

(** [int(s)] for a string of decimal digits, the only strings the methods
    below convert (every call is guarded by [isdigit]); leading zeros are
    accepted and dropped. *)
Definition int (s : string) : N :=
  match NilEmpty.uint_of_string s with
  | Some d => N.of_uint d
  | None => 0%N
  end.

(** [str(n)] for a non-negative integer. *)
Definition str (n : N) : string := NilZero.string_of_uint (N.to_uint n).

(** The digit strings that are the decimal numeral of their value: no
    leading zero, except for ["0"] itself. *)
Definition is_numeral (s : string) : bool :=
  isdigit s && bool_decide (str (int s) = s).

Fixpoint is_prefix (p l : list Ascii.ascii) : bool :=
  match p, l with
  | [], _ => true
  | a :: p', b :: l' => bool_decide (a = b) && is_prefix p' l'
  | _ :: _, [] => false
  end.

(** [s.endswith(suffix)]. *)
Definition endswith (s suffix : string) : bool :=
  is_prefix (reverse (chars suffix)) (reverse (chars s)).

(** [s.replace(old, new)] for a non-empty [old]: every occurrence of [old],
    found left to right without overlap, becomes [new]. [skip] counts the
    characters of the occurrence just replaced that are still to be dropped. *)
Fixpoint replace_go (old new : list Ascii.ascii) (skip : nat)
    (l : list Ascii.ascii) : list Ascii.ascii :=
  match l with
  | [] => []
  | c :: l' =>
      match skip with
      | S k => replace_go old new k l'
      | O =>
          if is_prefix old l
          then new ++ replace_go old new (pred (length old)) l'
          else c :: replace_go old new 0 l'
      end
  end.

Definition replace (s old new : string) : string :=
  of_chars (replace_go (chars old) (chars new) 0 (chars s)).

End PyStr.

(** ** Python: the regular expressions of [re.match] *)

Module Re.

(** The constructs the project-name pattern uses. *)
Inductive item : Type :=
  | Bol                                   (* ^ *)
  | Eol                                   (* $ *)
  | ClassStar (cls : Ascii.ascii → bool). (* [...]* *)

Definition newline : Ascii.ascii := Ascii.ascii_of_nat 10.

(** [$] without [re.MULTILINE]: at the end of the string, or just before a
    newline that is the last character. *)
Definition at_eol (rest : list Ascii.ascii) : bool :=
  match rest with
  | [] => true
  | [c] => bool_decide (c = newline)
  | _ => false
  end.

(** Greedy [cls*] followed by the continuation [k]: take a character when
    the class allows it, and fall back to stopping here if the rest of the
    pattern then fails. *)
Fixpoint star (cls : Ascii.ascii → bool)
    (k : bool → list Ascii.ascii → bool) (at_start : bool)
    (rest : list Ascii.ascii) : bool :=
  match rest with
  | c :: rest' =>
      (cls c && star cls k false rest') || k at_start rest
  | [] => k at_start rest
  end.

(** Backtracking match of a sequence of items at the current position;
    [at_start] tells whether that position is the start of the string. *)
Fixpoint matches (p : list item) (at_start : bool)
    (rest : list Ascii.ascii) : bool :=
  match p with
  | [] => true
  | Bol :: p' => at_start && matches p' at_start rest
  | Eol :: p' => at_eol rest && matches p' at_start rest
  | ClassStar cls :: p' => star cls (matches p') at_start rest
  end.

(** [re.match(p, s)] is truthy: [p] matches at the start of [s]. *)
Definition re_match (p : list item) (s : string) : bool :=
  matches p true (PyStr.chars s).

Definition in_range (lo hi : nat) (c : Ascii.ascii) : bool :=
  (lo <=? Ascii.nat_of_ascii c)%nat && (Ascii.nat_of_ascii c <=? hi)%nat.

(** The class [[a-zA-Z0-9_]]. *)
Definition word_char (c : Ascii.ascii) : bool :=
  in_range 97 122 c || in_range 65 90 c || in_range 48 57 c
  || bool_decide (c = Ascii.ascii_of_nat 95).

End Re.

(** ** The operating system below the project directory *)

Module OS.

(** [case.py] is written for OpenFOAM on Windows (back-slash separators in
    [SUBFOLDERS], batch files); where the two families of systems differ
    the model follows the platform it is run on. *)
Inductive platform : Set := Windows | Posix.

(** The tree rooted at [self.projectDir]. *)
Inductive entry : Type :=
  | File (content : string)
  | Dir (children : gmap string entry).

(** A path relative to the project directory, one component per element;
    [[]] is the project directory itself. *)
Abbreviation path := (list string).

(** The calls that change the tree or open a file, as issued. *)
Inductive syscall : Type :=
  | Rmtree (p : path) (ignore_errors : bool)
  | Makedirs (p : path)
  | Rename (src dst : string)
  | Remove (p : path)
  | Open (p : path).

#[global] Instance syscall_eq_dec : EqDecision syscall.
Proof. solve_decision. Defined.

(** [root] is [None] when the project directory does not exist. [locked]
    holds the names directly under the project directory that the system
    refuses to remove (in use, or protected). [stdout] collects what is
    printed and [calls] the system calls, oldest first. *)
Record world : Type := World {
  platform_of : platform;
  root : option entry;
  locked : gset string;
  stdout : list string;
  calls : list syscall
}.

Definition set_root (r : option entry) (w : world) : world :=
  World (platform_of w) r (locked w) (stdout w) (calls w).

Definition log_call (c : syscall) (w : world) : world :=
  World (platform_of w) (root w) (locked w) (stdout w) (calls w ++ [c]).

(** [print s]. *)
Definition print (s : string) : M world unit :=
  modify (λ w, World (platform_of w) (root w) (locked w) (stdout w ++ [s]) (calls w)).

Fixpoint resolve (p : path) (e : entry) : option entry :=
  match p with
  | [] => Some e
  | c :: p' =>
      match e with
      | Dir m => m !! c ≫= resolve p'
      | File _ => None
      end
  end.

Definition lookup_path (p : path) (w : world) : option entry :=
  root w ≫= resolve p.

(** [os.path.exists], [os.path.isdir]: neither raises. *)
Definition os_path_exists (p : path) (w : world) : bool :=
  match lookup_path p w with Some _ => true | None => false end.

Definition os_path_isdir (p : path) (w : world) : bool :=
  match lookup_path p w with Some (Dir _) => true | _ => false end.

Definition os_path_isfile (p : path) (w : world) : bool :=
  match lookup_path p w with Some (File _) => true | _ => false end.

(** [os.listdir] of a folder below the project directory. *)
Definition os_listdir_at (p : path) : M world (list string) :=
  λ w, match lookup_path p w with
       | Some (Dir m) => (Ok (map_to_list m).*1, w)
       | _ => (Raised OSError, w)
       end.

(** [os.listdir(self.projectDir)]. The order of the names is the system's
    choice; here it is the enumeration order of the map. *)
Definition os_listdir : M world (list string) :=
  λ w, match root w with
       | Some (Dir m) => (Ok (map_to_list m).*1, w)
       | _ => (Raised OSError, w)
       end.

(** Whether renaming [src] onto the existing [dst] silently replaces it.
    Windows never does; POSIX replaces a file by a file and an empty
    directory by a directory. *)
Definition replaceable (pf : platform) (src dst : entry) : bool :=
  match pf with
  | Windows => false
  | Posix =>
      match src, dst with
      | File _, File _ => true
      | Dir _, Dir m => bool_decide (size m = 0)
      | _, _ => false
      end
  end.

(** [os.rename(join(projectDir, src), join(projectDir, dst))] for two names
    directly under the project directory. An empty [dst] names the project
    directory itself, onto which nothing below it can be renamed. *)
Definition os_rename (src dst : string) : M world unit :=
  λ w,
    let w' := log_call (Rename src dst) w in
    match root w with
    | Some (Dir m) =>
        match m !! src with
        | None => (Raised OSError, w')
        | Some e =>
            if bool_decide (dst = "") then (Raised OSError, w')
            else if bool_decide (src = dst) then (Ok tt, w')
            else
              let moved := set_root (Some (Dir (<[dst := e]> (delete src m)))) w' in
              match m !! dst with
              | None => (Ok tt, moved)
              | Some d =>
                  if replaceable (platform_of w) e d
                  then (Ok tt, moved)
                  else (Raised OSError, w')
              end
        end
    | _ => (Raised OSError, w')
    end.

(** The tree without what is at the path [p]; [None] when nothing is. *)
Fixpoint remove_in (p : path) (e : entry) : option entry :=
  match p, e with
  | [name], Dir m =>
      match m !! name with
      | Some _ => Some (Dir (delete name m))
      | None => None
      end
  | name :: p', Dir m =>
      c ← m !! name; c' ← remove_in p' c; Some (Dir (<[name := c']> m))
  | _, _ => None
  end.

(** [os.remove(join(projectDir, p))]: removes a file, and raises on
    anything else. *)
Definition os_remove (p : path) : M world unit :=
  λ w,
    let w' := log_call (Remove p) w in
    match lookup_path p w with
    | Some (File _) =>
        match root w ≫= remove_in p with
        | Some e => (Ok tt, set_root (Some e) w')
        | None => (Raised OSError, w')
        end
    | _ => (Raised OSError, w')
    end.

(** The system refuses to remove what is at [p]. *)
Definition refused (p : path) (w : world) : bool :=
  match p with
  | [name] => bool_decide (name ∈ locked w)
  | _ => false
  end.

(** [shutil.rmtree(join(projectDir, p))] for a path below the project
    directory: removes the directory with all it holds, and raises when
    there is no directory at [p] or the system refuses the removal. The
    library removes entry by entry and stops at the first failure, so a
    folder it was refused may have lost part of its content; the model
    keeps such a folder whole. The theorems about the methods therefore
    say of a refused folder only that it is still a directory, and what it
    holds is carried by the lemmas on the way alone. *)
Definition rmtree (p : path) : M world unit :=
  λ w,
    let w' := log_call (Rmtree p false) w in
    match lookup_path p w with
    | Some (Dir _) =>
        if refused p w
        then (Raised OSError, w')
        else match root w ≫= remove_in p with
             | Some e => (Ok tt, set_root (Some e) w')
             | None => (Raised OSError, w')
             end
    | _ => (Raised OSError, w')
    end.

(** [shutil.rmtree(projectDir, ignore_errors=True)]: removes what can be
    removed and never raises; the project directory itself goes only when
    nothing is left in it. *)
Definition rmtree_ignore_errors : M world unit :=
  λ w,
    let w' := log_call (Rmtree [] true) w in
    match root w with
    | Some (Dir m) =>
        let kept := filter (λ kv, kv.1 ∈ locked w) m in
        (Ok tt,
         set_root (if bool_decide (size kept = 0) then None else Some (Dir kept)) w')
    | _ => (Ok tt, w')
    end.

(** The tree after [os.makedirs] of the path [p] below the entry [e]
    ([None]: nothing there yet); [None] as a result is the [OSError] of a
    leaf that exists or of a file met on the way. *)
Fixpoint makedirs_in (p : path) (e : option entry) : option entry :=
  match p with
  | [] =>
      match e with
      | None => Some (Dir ∅)
      | Some _ => None
      end
  | c :: p' =>
      match e with
      | None => d ← makedirs_in p' None; Some (Dir {[c := d]})
      | Some (Dir m) => d ← makedirs_in p' (m !! c); Some (Dir (<[c := d]> m))
      | Some (File _) => None
      end
  end.

(** [os.makedirs(join(projectDir, p))]. *)
Definition os_makedirs (p : path) : M world unit :=
  λ w,
    let w' := log_call (Makedirs p) w in
    match makedirs_in p (root w) with
    | Some e => (Ok tt, set_root (Some e) w')
    | None => (Raised OSError, w')
    end.

(** [open(p).read()]. *)
Definition read_file (p : path) : M world string :=
  λ w,
    let w' := log_call (Open p) w in
    match lookup_path p w with
    | Some (File c) => (Ok c, w')
    | _ => (Raised IOError, w')
    end.

(** The tree after [p] has been opened for writing and [c] written to it:
    the file is created or truncated; a directory in its place, or a
    missing parent, is an error ([None]). *)
Fixpoint write_in (p : path) (c : string) (e : option entry) : option entry :=
  match p with
  | [] =>
      match e with
      | Some (Dir _) => None
      | _ => Some (File c)
      end
  | n :: p' =>
      match e with
      | Some (Dir m) => f ← write_in p' c (m !! n); Some (Dir (<[n := f]> m))
      | _ => None
      end
  end.

(** [open(p, 'w').write(c)]. *)
Definition write_file (p : path) (c : string) : M world unit :=
  λ w,
    let w' := log_call (Open p) w in
    match write_in p c (root w) with
    | Some e => (Ok tt, set_root (Some e) w')
    | None => (Raised IOError, w')
    end.

Definition is_sep (pf : platform) (c : Ascii.ascii) : bool :=
  match pf with
  | Windows => bool_decide (c = Ascii.ascii_of_nat 92) || bool_decide (c = Ascii.ascii_of_nat 47)
  | Posix => bool_decide (c = Ascii.ascii_of_nat 47)
  end.

Fixpoint components_go (pf : platform) (cur : list Ascii.ascii)
    (l : list Ascii.ascii) : list string :=
  match l with
  | [] => match cur with [] => [] | _ => [PyStr.of_chars (reverse cur)] end
  | c :: l' =>
      if is_sep pf c
      then match cur with
           | [] => components_go pf [] l'
           | _ => PyStr.of_chars (reverse cur) :: components_go pf [] l'
           end
      else components_go pf (c :: cur) l'
  end.

(** The components of [os.path.join(projectDir, rel)] below the project
    directory, for a relative [rel]. *)
Definition components (pf : platform) (rel : string) : path :=
  components_go pf [] (PyStr.chars rel).

End OS.
Export OS.

(** ** [butterfly/case.py]: folders of the case *)

Module Case.

(** The names bound at module level in [case.py] (imports and the class). *)
Definition module_globals : list string :=
  ["os"; "re"; "rmtree"; "copy_tree"; "namedtuple"; "deepcopy"; "Version";
   "mkdir"; "wfile"; "runbatchfile"; "readLastLine"; "loadSkippedProbes";
   "loadCaseFiles"; "bfGeometryFromStlFile"; "calculateMinMaxFromBFGeometries";
   "refinementRegionsFromStlFile"; "MeshingParameters"; "FoamFile";
   "TurbulenceProperties"; "RASProperties"; "TransportProperties"; "G"; "U";
   "K"; "P"; "Nut"; "Epsilon"; "T"; "Alphat"; "P_rgh"; "ABLConditions";
   "InitialConditions"; "BlockMeshDict"; "ControlDict"; "SnappyHexMeshDict";
   "FvSchemes"; "FvSolution"; "Probes"; "DecomposeParDict"; "RunManager";
   "Case"].

(** The value a name evaluates to inside a method: a local is looked up in
    the frame, a module global stands for itself, anything else is unbound. *)
Definition load {S} (frame : list (string * string)) (x : string) : M S string :=
  match list_find (λ kv, kv.1 = x) frame with
  | Some (_, (_, v)) => ret v
  | None => if bool_decide (x ∈ module_globals) then ret x else raise NameError
  end.

(** [str(e)] as the handlers print it, reduced to the name of the class
    of [e]: the message the system words is not modelled. *)
Definition exn_text (e : exn) : string :=
  match e with
  | AssertionError => "AssertionError"
  | ValueError => "ValueError"
  | TypeError => "TypeError"
  | OverflowError => "OverflowError"
  | NameError => "NameError"
  | OSError => "OSError"
  | IOError => "IOError"
  | Exception => "Exception"
  end.

Definition nl : string := String.String Re.newline String.EmptyString.

Definition SUBFOLDERS : list string :=
  ["0"; "constant"; "constant\polyMesh"; "constant\triSurface"; "system"; "log"].

(** The condition of the comprehension in [getSnappyHexMeshFolders]. *)
Definition is_mesh_name (w : world) (name : string) : bool :=
  PyStr.isdigit name && os_path_isdir [name; "polyMesh"] w.

(** The condition of the comprehension in [getResultFolders]. *)
Definition is_result_name (w : world) (name : string) : bool :=
  negb (bool_decide (name = "0")) && PyStr.isdigit name
  && os_path_isdir [name] w && negb (os_path_isdir [name; "polyMesh"] w).

Definition getSnappyHexMeshFolders : M world (list string) :=
  names <- os_listdir ;;
  w <- get_state ;;
  let _f := PyStr.int <$> filter (λ name, Is_true (is_mesh_name w name)) names in
  let _f := merge_sort N.le _f in
  ret (PyStr.str <$> _f).

Definition getResultFolders : M world (list string) :=
  names <- os_listdir ;;
  w <- get_state ;;
  let _f := PyStr.int <$> filter (λ name, Is_true (is_result_name w name)) names in
  let _f := merge_sort N.le _f in
  ret (PyStr.str <$> _f).

(** One round of the loop of [renameSnappyHexMeshFolders(add=False)]. The
    folders of that branch are a generator over the listing taken at the
    start: the condition on a name is evaluated when the loop reaches it,
    after the renames before it. The rename is not guarded by a [try]. *)
Definition restore_one (name : string) : M world unit :=
  w <- get_state ;;
  if PyStr.endswith name ".org" && os_path_isdir [name; "polyMesh"] w
  then os_rename name (PyStr.replace name ".org" "")
  else ret tt.

(** One round of the loop of [renameSnappyHexMeshFolders(add=True)]. *)
Definition freeze_one (f : string) : M world unit :=
  try_except (os_rename f (f +:+ ".org")) (λ e, raise Exception).

(** [renameSnappyHexMeshFolders(add)]. *)
Definition renameSnappyHexMeshFolders (add : bool) : M world unit :=
  if negb add then
    names <- os_listdir ;;
    for_each names restore_one
  else
    _folders <- getSnappyHexMeshFolders ;;
    for_each _folders freeze_one.

(** The statement of both removal handlers,
    [print 'Failed to remove {}:\n{}'.format(_f, e)], evaluated in the
    frame of the method it stands in. *)
Definition failed_to_remove (frame : list (string * string)) (e : exn) : M world unit :=
  v <- load frame "_f" ;;
  print ("Failed to remove " +:+ v +:+ ":" +:+ nl +:+ exn_text e).

(** One round of the loop of [removeSnappyHexMeshFolders]; the loop
    variable of this method is [f]. *)
Definition remove_snapshot (f : string) : M world unit :=
  try_except (rmtree [f])
    (λ e, failed_to_remove [("f", f); ("e", exn_text e)] e).

Definition removeSnappyHexMeshFolders : M world unit :=
  renameSnappyHexMeshFolders false ;;;
  _folders <- getSnappyHexMeshFolders ;;
  for_each _folders remove_snapshot.

(** One round of the loop of [removeResultFolders]; the loop variable of
    this method is [_f]. *)
Definition remove_result (_f : string) : M world unit :=
  try_except (rmtree [_f])
    (λ e, failed_to_remove [("_f", _f); ("e", exn_text e)] e).

Definition removeResultFolders : M world unit :=
  _folders <- getResultFolders ;;
  for_each _folders remove_result.

Definition removePostProcessingFolder : M world unit :=
  w <- get_state ;;
  if negb (os_path_isdir ["postProcessing"] w) then ret tt
  else
    try_except (rmtree ["postProcessing"])
      (λ e, print ("Failed to remove postProcessing folder:" +:+ nl +:+ exn_text e)).

(** [self.polyMeshFolder] below the project directory. *)
Definition polyMeshFolder (w : world) : path :=
  components (platform_of w) "constant\polyMesh".

Definition removePolyMeshContent : M world unit :=
  w <- get_state ;;
  names <- os_listdir_at (polyMeshFolder w) ;;
  for_each names (λ _f,
    if negb (bool_decide (_f = "blockMeshDict")) then
      w <- get_state ;;
      let _fp := polyMeshFolder w ++ [_f] in
      if os_path_isfile _fp w then os_remove _fp
      else if os_path_isdir _fp w then rmtree _fp
      else ret tt
    else ret tt).

Definition purge (removePolyMeshContent_ removeSnappyHexMeshFolders_
    removeResultFolders_ removePostProcessingFolder_ : bool) : M world unit :=
  (if removePolyMeshContent_ then removePolyMeshContent else ret tt) ;;;
  (if removeSnappyHexMeshFolders_ then removeSnappyHexMeshFolders else ret tt) ;;;
  (if removeResultFolders_ then removeResultFolders else ret tt) ;;;
  (if removePostProcessingFolder_ then removePostProcessingFolder else ret tt).

(** The body of the loop over [SUBFOLDERS] in [save]: the folder is created
    unless its path exists, and a failure of [os.makedirs] is raised again
    as [IOError]. *)
Definition create_subfolder (f : string) : M world unit :=
  w <- get_state ;;
  let p := components (platform_of w) f in
  if negb (os_path_exists p w)
  then try_except (os_makedirs p) (λ e, raise IOError)
  else ret tt.

(** [save(overwrite)]. [write_contents] stands for the rest of the method
    after the folders are there: it writes the foam files and the STL files
    through objects defined outside [case.py] and prints where the case was
    saved. *)
Definition save (write_contents : M world unit) (overwrite : bool) : M world unit :=
  w <- get_state ;;
  (if overwrite && os_path_exists [] w then rmtree_ignore_errors else ret tt) ;;;
  for_each SUBFOLDERS create_subfolder ;;;
  write_contents.

(** *** Running OpenFOAM commands *)

(** The interface of [runmanager.RunManager], which lives outside
    [case.py]: [rm_command] builds the command lines, [rm_run] starts the
    process, waits for it when asked to, and returns the process with the
    log and error file names relative to the project directory.
    [mute_default] is the default of the [mute] argument of
    [checkFileContents]. *)
Class RunManager : Type := {
  cmdlog : Type;
  Popen : Type;
  decomposition : Type;
  mute_default : bool;
  rm_command : string → list string → option decomposition → M world cmdlog;
  rm_run : string → list string → option decomposition → bool →
           M world (Popen * list string * list string)
}.

(** The contents of the given files, one after the other. *)
Definition read_all (files : list path) : M world string :=
  foldr (λ f rest, c <- read_file f ;; cs <- rest ;; ret (c +:+ cs)) (ret "") files.

(** Modelled from the spec: [RunManager.checkFileContents], whose source is
    not in [case.py]. It inspects the given files and returns whether they
    hold anything together with what they hold; the content is shown unless
    [mute] is set. *)
Definition checkFileContents (files : list path) (mute : bool) : M world (bool * string) :=
  content <- read_all files ;;
  let hascontent := negb (bool_decide (content = "")) in
  (if hascontent && negb mute then print content else ret tt) ;;;
  ret (hascontent, content).

(** The named tuple [log] returned when the command is run. *)
Record log `{RunManager} : Type := Log {
  success : bool;
  error : option string;
  process : option Popen;
  logfiles : list path;
  errorfiles : list path
}.

Inductive command_result `{RunManager} : Type :=
  | CommandLines (c : cmdlog)
  | Run (l : log).

(** [os.path.normpath(os.path.join(self.projectDir, f))]. *)
Definition fullpath (w : world) (f : string) : path :=
  components (platform_of w) f.

Definition command `{RunManager} (cmd : string) (args : list string)
    (decomposeParDict : option decomposition) (run wait : bool)
    : M world command_result :=
  if negb run then
    cmdlog <- rm_command cmd args decomposeParDict ;;
    ret (CommandLines cmdlog)
  else
    r <- rm_run cmd args decomposeParDict wait ;;
    let '(p, logfiles, errfiles) := r in
    w <- get_state ;;
    let logfiles := fullpath w <$> logfiles in
    let errfiles := fullpath w <$> errfiles in
    if wait then
      checkFileContents logfiles false ;;;
      r <- checkFileContents errfiles mute_default ;;
      let '(hascontent, content) := r in
      ret (Run (Log _ (negb hascontent) (Some content) (Some p) logfiles errfiles))
    else
      ret (Run (Log _ true None None logfiles errfiles)).

(** *** The case object *)

Record region : Type := Region {
  region_name : string;
  isRefinementRegion : bool   (* hasattr(region, 'isRefinementRegion') *)
}.

Record geometry : Type := Geometry {
  geometry_name : string;
  isBFMesh : bool             (* hasattr(geo, 'isBFMesh') *)
}.

(** What [Case] asks of the foam-file objects, whose classes are defined in
    other modules: a name, the [isFoamFile] marker, and for the one named
    [snappyHexMeshDict] the method [addRefinementRegion]. *)
Class FoamFile (F : Type) : Type := {
  ff_name : F → string;
  ff_isFoamFile : F → bool;
  ff_addRefinementRegion : region → M F unit
}.

(** The attributes of a [Case] the modelled methods touch. [foamfiles]
    holds the objects; [attrs] records the attributes installed by
    [setattr(self, ff.name, ff)] as positions in [foamfiles], so an
    attribute and the tuple share the object. *)
Record case (F : Type) : Type := CaseObj {
  projectName : option string;
  foamfiles : list (option F);
  attrs : gmap string nat;
  geometries : list geometry;
  refinementRegions : list region
}.
Arguments CaseObj {F}.
Arguments projectName {F}.
Arguments foamfiles {F}.
Arguments attrs {F}.
Arguments geometries {F}.
Arguments refinementRegions {F}.

Definition py_assert {S} (b : bool) : M S unit :=
  if b then ret tt else raise AssertionError.

(** The pattern ["^[a-zA-Z0-9_]*$"]. *)
Definition projectName_pattern : list Re.item :=
  [Re.Bol; Re.ClassStar Re.word_char; Re.Eol].

(** The setter of the property [projectName]. *)
Definition projectName_setter {F} (name : string) : M (case F) unit :=
  py_assert (Re.re_match projectName_pattern name) ;;;
  modify (λ c, CaseObj (Some name) (foamfiles c) (attrs c) (geometries c)
                 (refinementRegions c)).

Definition checkInputGeometries {S} (geos : list geometry) : M S (list geometry) :=
  for_each geos (λ geo, py_assert (isBFMesh geo)) ;;;
  ret geos.

(** The object before [__init__] has run. *)
Definition blank {F} : case F := CaseObj None [] ∅ [] [].

(** [Case.__init__(name, foamfiles, geometries)], leaving out the attributes
    no modelled method reads (version, working directory, run manager).
    [setattr(self, ff.name, ff)] is modelled for the names it simply binds
    on the object. A foam file named like a property of the class (a setter
    would run, or the assignment would fail), or like an attribute the
    constructor sets itself, is outside the model; the statements about the
    constructor are made for foam files with other names. *)
Definition init_body `{FoamFile F} (name : string) (ffs : list (option F))
    (geos : list geometry) : M (case F) unit :=
  projectName_setter name ;;;
  modify (λ c, CaseObj (projectName c) ffs (attrs c) (geometries c)
                 (refinementRegions c)) ;;;
  for_each (imap (λ i ff, (i, ff)) ffs) (λ iff,
    match iff.2 with
    | None => ret tt
    | Some ff =>
        py_assert (ff_isFoamFile ff) ;;;
        modify (λ c, CaseObj (projectName c) (foamfiles c)
                       (<[ff_name ff := iff.1]> (attrs c)) (geometries c)
                       (refinementRegions c))
    end) ;;;
  geos <- checkInputGeometries geos ;;
  modify (λ c, CaseObj (projectName c) (foamfiles c) (attrs c) geos []).

Definition init `{FoamFile F} (name : string) (ffs : list (option F))
    (geos : list geometry) : outcome (case F) :=
  match init_body name ffs geos blank with
  | (Ok _, c) => Ok c
  | (Raised e, _) => Raised e
  end.

(** [hasattr(self, x)] for an attribute installed from the foam files. *)
Definition hasattr {F} (c : case F) (x : string) : bool :=
  bool_decide (is_Some (attrs c !! x)).

(** [addRefinementRegion(refinementRegion)]. Past the second assertion the
    attribute is there and points at a foam file, so the two branches that
    raise after it are never taken. *)
Definition addRefinementRegion `{FoamFile F} (refinementRegion : region)
    : M (case F) unit :=
  py_assert (isRefinementRegion refinementRegion) ;;;
  modify (λ c, CaseObj (projectName c) (foamfiles c) (attrs c) (geometries c)
                 (refinementRegions c ++ [refinementRegion])) ;;;
  c <- get_state ;;
  py_assert (hasattr c "snappyHexMeshDict") ;;;
  match attrs c !! "snappyHexMeshDict" with
  | Some i =>
      match mjoin (foamfiles c !! i) with
      | Some d =>
          λ c, let '(r, d') := ff_addRefinementRegion refinementRegion d in
               (r, CaseObj (projectName c) (<[i := Some d']> (foamfiles c))
                     (attrs c) (geometries c) (refinementRegions c))
      | None => raise AssertionError
      end
  | None => raise AssertionError
  end.

End Case.

(** ** [butterfly/windtunnel.py]: [TunnelParameters] *)

Module Tunnel.

(** The arguments the constructor is given: integers, floats (IEEE binary64,
    as [spec_float] with 53 bits of precision), or [None]. Arguments of
    other types (strings, tuples, ...) are outside the model. *)
Inductive pyval : Type :=
  | PyInt (z : Z)
  | PyFloat (f : spec_float)
  | PyNone.

Definition prec : Z := 53.
Definition emax : Z := 1024.

(** [float(v)]: an integer is rounded to the nearest float and is refused
    when it is beyond the range of floats; [None] is a [TypeError]. *)
Definition float (v : pyval) : outcome spec_float :=
  match v with
  | PyInt z =>
      match binary_normalize prec emax z 0 false with
      | S754_infinity _ => Raised OverflowError
      | f => Ok f
      end
  | PyFloat f => Ok f
  | PyNone => Raised TypeError
  end.

(** [TunnelParameters.__check_input]. *)
Definition check_input (input : pyval) : outcome spec_float :=
  match float input with
  | Raised TypeError => Raised ValueError
  | Raised e => Raised e
  | Ok _inp =>
      if SFltb (S754_zero false) _inp then Ok _inp else Raised AssertionError
  end.

Record TunnelParameters : Type := Build {
  windward : spec_float;
  top : spec_float;
  side : spec_float;
  leeward : spec_float
}.

(** [TunnelParameters.__init__(windward, top, side, leeward)]. *)
Definition init (windward top side leeward : pyval) : outcome TunnelParameters :=
  match check_input windward with
  | Raised e => Raised e
  | Ok ww =>
      match check_input top with
      | Raised e => Raised e
      | Ok t =>
          match check_input side with
          | Raised e => Raised e
          | Ok s =>
              match check_input leeward with
              | Raised e => Raised e
              | Ok lw => Ok (Build ww t s lw)
              end
          end
      end
  end.

(** A number that is zero or below: an integer, or a float that compares
    less than or equal to zero. *)
Definition nonpositive (v : pyval) : Prop :=
  match v with
  | PyInt z => (z ≤ 0)%Z
  | PyFloat f => SFleb f (S754_zero false) = true
  | PyNone => False
  end.

End Tunnel.

(** ** The run manager of the specification *)

Module SpecRunManager.
Import Case.

Definition logfile (cmd : string) : string := "log/" +:+ cmd +:+ ".log".
Definition errfile (cmd : string) : string := "log/" +:+ cmd +:+ ".err".

(** Modelled from the spec: [RunManager.run], whose source is not in
    [case.py]. The external command is given by what it writes to its
    output and to its error stream; [run] starts it with both redirected to
    files named after the command under the log folder and, when waiting,
    returns once it has exited. Without waiting the files are there but the
    process has written nothing yet. *)
Definition run (behaviour : string → string * string) (cmd : string)
    (args : list string) (decomposeParDict : option nat) (wait : bool)
    : M world (nat * list string * list string) :=
  w <- get_state ;;
  let out := if wait then behaviour cmd else ("", "") in
  write_file (fullpath w (logfile cmd)) out.1 ;;;
  write_file (fullpath w (errfile cmd)) out.2 ;;;
  ret (1, [logfile cmd], [errfile cmd]).

(** Modelled from the spec: [RunManager.command], which only builds the
    command line. *)
Definition command_lines (cmd : string) (args : list string)
    (decomposeParDict : option nat) : M world (list string) :=
  ret [foldl (λ acc a, acc +:+ " " +:+ a) cmd args].

Definition manager (behaviour : string → string * string) : RunManager :=
  {| cmdlog := list string;
     Popen := nat;
     decomposition := nat;
     mute_default := false;
     rm_command := command_lines;
     rm_run := run behaviour |}.

End SpecRunManager.

(** ** Sample states *)

Module Samples.
Import Case.

Definition mesh_folder : entry := Dir {[ "polyMesh" := Dir {[ "points" := File "" ]} ]}.
Definition result_folder : entry := Dir {[ "U" := File "" ]}.

Definition on_disk (pf : platform) (l : list (string * entry)) (locked : list string) : world :=
  World pf (Some (Dir (list_to_map l))) (list_to_set locked) [] [].

(** Mesh snapshots 3, 10 and 2, results 20 and 4, and the initial folder. *)
Definition numbered : world :=
  on_disk Windows
    [("3", mesh_folder); ("10", mesh_folder); ("2", mesh_folder);
     ("20", result_folder); ("4", result_folder); ("0", result_folder);
     ("constant", Dir ∅); ("system", Dir ∅)] [].

(** A mesh written into the initial folder. *)
Definition mesh_in_zero : world :=
  on_disk Windows [("0", mesh_folder); ("1", result_folder)] [].

(** Two mesh snapshots, the first of which cannot be removed. *)
Definition first_locked : world :=
  on_disk Windows [("1", mesh_folder); ("2", mesh_folder)] ["1"].

(** A meshed case with two mesh snapshots, the first of which cannot be
    removed, and a result folder. *)
Definition meshed_first_locked : world :=
  on_disk Windows
    [("constant", Dir {[ "polyMesh" := Dir {[ "blockMeshDict" := File ""; "points" := File "" ]} ]});
     ("1", mesh_folder); ("2", mesh_folder); ("5", result_folder)] ["1"].

(** Two result folders, the first of which cannot be removed. *)
Definition first_result_locked : world :=
  on_disk Windows [("1", result_folder); ("2", result_folder)] ["1"].

(** A snapshot frozen earlier next to a fresh one. *)
Definition frozen_and_fresh : world :=
  on_disk Windows [("1.org", mesh_folder); ("2", mesh_folder)] [].

(** A frozen snapshot whose original name is taken again. *)
Definition restore_collision : world :=
  on_disk Windows [("1.org", mesh_folder); ("1", result_folder)] [].

(** A protected file where the [constant] folder should be. *)
Definition constant_is_a_file : world :=
  on_disk Windows [("constant", File "x"); ("0", Dir ∅)] ["constant"].

(** An empty case with its log folder. *)
Definition saved : world :=
  on_disk Windows [("0", Dir ∅); ("constant", Dir ∅); ("system", Dir ∅); ("log", Dir ∅)] [].

(** blockMesh complains on its error stream, checkMesh does not. *)
Definition behaviour (cmd : string) : string * string :=
  if bool_decide (cmd = "blockMesh") then ("Create time", "FOAM FATAL ERROR")
  else ("Mesh OK.", "").

(** Foam files reduced to their name. *)
#[export] Instance named_files : FoamFile string :=
  {| ff_name := id; ff_isFoamFile := λ _, true; ff_addRefinementRegion := λ _, ret tt |}.

Definition without_meshing : case string :=
  CaseObj (Some "duct") [Some "controlDict"] {[ "controlDict" := 0 ]} [] [].

Definition box : region := Region "box" true.

Definition name_with_newline : string := "abc" +:+ nl.

End Samples.

(** ** Vocabulary of the properties *)

Module Props.
Import Case.

(** The names directly under the project directory. *)
Definition listing (w : world) : list string :=
  match root w with
  | Some (Dir m) => (map_to_list m).*1
  | _ => []
  end.

(** The names the two listings select. *)
Definition mesh_names (w : world) : list string :=
  filter (λ name, Is_true (is_mesh_name w name)) (listing w).

Definition result_names (w : world) : list string :=
  filter (λ name, Is_true (is_result_name w name)) (listing w).

(** Every integer-named entry is named by the decimal numeral of its
    number, as the folders OpenFOAM writes are. *)
Definition numeral_names (w : world) : Prop :=
  Forall (λ name, PyStr.isdigit name = true → PyStr.is_numeral name = true)
         (listing w).

(** A numbered folder of the project directory. *)
Definition numbered_folder (w : world) (name : string) : Prop :=
  name ∈ listing w ∧ PyStr.isdigit name = true ∧ os_path_isdir [name] w = true.

(** The partition of the numbered folders as the specification words it:
    no numbered folder but ["0"] is in both lists or in neither, and ["0"]
    is in neither. *)
Definition partition_as_stated (w : world) : Prop :=
  ∀ ms rs,
    getSnappyHexMeshFolders w = (Ok ms, w) →
    getResultFolders w = (Ok rs, w) →
    (∀ name, numbered_folder w name → name ≠ "0" →
       (name ∈ ms ∨ name ∈ rs) ∧ ¬ (name ∈ ms ∧ name ∈ rs))
    ∧ ("0" ∉ ms) ∧ ("0" ∉ rs).

(** The state [save(overwrite=True)] creates the folders in: the one left
    by the removal of the project directory when there was one. *)
Definition after_delete (w : world) : world :=
  if os_path_exists [] w then (rmtree_ignore_errors w).2 else w.

(** The calls issued since the state [w0]. *)
Definition calls_since (w0 w : world) : list syscall :=
  drop (length (calls w0)) (calls w).

(** A project name of word characters only. *)
Definition word_name (name : string) : Prop :=
  forallb Re.word_char (PyStr.chars name) = true.

(** The frozen name of a snapshot, and the snapshot of a frozen name. *)
Definition org (f : string) : string := f +:+ ".org".

Definition unorg (name : string) : option string :=
  if PyStr.endswith name ".org"
  then Some (PyStr.of_chars (take (length (PyStr.chars name) - 4) (PyStr.chars name)))
  else None.

(** What is found under [name] when the snapshots in [U] of the directory
    [m] are frozen and the others are not. *)
Definition frozen_view (U : gset string) (m : gmap string entry)
    (name : string) : option entry :=
  if bool_decide (name ∈ U) then None
  else match unorg name with
       | Some f => if bool_decide (f ∈ U) then m !! f else m !! name
       | None => m !! name
       end.

(** The platform does not let a directory take the place of [d]. *)
Definition refuses_directory (pf : platform) (d : entry) : Prop :=
  ∀ m, replaceable pf (Dir m) d = false.

(** A frozen snapshot of [w] whose original name is taken. *)
Definition restore_target_taken (w : world) : Prop :=
  Exists (λ name, PyStr.endswith name ".org" = true
                  ∧ os_path_isdir [name; "polyMesh"] w = true
                  ∧ PyStr.replace name ".org" "" ∈ listing w)
         (listing w).

(** Freezing and restoring as the specification words it: the restore
    fails when a target name is taken, and otherwise the names are those
    before the freeze. *)
Definition freeze_restore_as_stated (w : world) : Prop :=
  ∀ w1 r w2,
    renameSnappyHexMeshFolders true w = (Ok tt, w1) →
    renameSnappyHexMeshFolders false w1 = (r, w2) →
    (restore_target_taken w1 → ∃ e, r = Raised e) ∧
    (¬ restore_target_taken w1 → r = Ok tt ∧ listing w2 ≡ₚ listing w).

(** The directory [mk] is [m] with the snapshots in [U] frozen. *)
Definition Frozen (U : gset string) (m mk : gmap string entry) : Prop :=
  ∀ name, mk !! name = frozen_view U m name.

(** The entry is a directory with a [polyMesh] directory in it. *)
Definition has_mesh (e : option entry) : bool :=
  match e ≫= resolve ["polyMesh"] with
  | Some (Dir _) => true
  | _ => false
  end.

(** What the freeze and the restore need of a snapshot [f] of [m]: a
    numbered folder with a mesh whose frozen name is free. *)
Definition freezable (m : gmap string entry) (f : string) : Prop :=
  PyStr.isdigit f = true ∧ has_mesh (m !! f) = true ∧ m !! org f = None.

(** Two states with the same tree, seen from the same platform. *)
Definition same_disk (w w' : world) : Prop :=
  root w' = root w ∧ platform_of w' = platform_of w.

End Props.

(** ** [butterfly/case.py]: the other methods *)

Module PySplit.
Import PyStr.

(** [s.split(sep)] for a non-empty [sep]: the pieces between the
    occurrences of [sep], found left to right without overlap. [cur] holds
    the piece in progress, last character first, and [skip] counts the
    characters of the occurrence just met that are still to be dropped. *)
Fixpoint split_go (sep : list Ascii.ascii) (skip : nat) (cur : list Ascii.ascii)
    (l : list Ascii.ascii) : list string :=
  match l with
  | [] => [of_chars (reverse cur)]
  | c :: l' =>
      match skip with
      | S k => split_go sep k cur l'
      | O =>
          if is_prefix sep l
          then of_chars (reverse cur) :: split_go sep (pred (length sep)) [] l'
          else split_go sep 0 (c :: cur) l'
      end
  end.

Definition split (s sep : string) : list string :=
  split_go (chars sep) 0 [] (chars s).

(** [s.find(sep)]: where [sep] first occurs, if it does. *)
Fixpoint find (sep l : list Ascii.ascii) : option nat :=
  if is_prefix sep l then Some 0
  else match l with
       | [] => None
       | _ :: l' => S <$> find sep l'
       end.

(** The text before the first occurrence of [sep], all of it when there is
    none. *)
Definition until (sep l : list Ascii.ascii) : list Ascii.ascii :=
  match find sep l with
  | Some i => take i l
  | None => l
  end.

End PySplit.

Module CaseRest.
Import Case.

(** [self.logFolder]: the folder [bash\log] below the project directory. *)
Definition logFolder (w : world) : path :=
  components (platform_of w) "bash\log".

(** The property [isPolyMeshSnappyHexMesh]: more than five entries in the
    [polyMesh] folder. *)
Definition isPolyMeshSnappyHexMesh : M world bool :=
  w <- get_state ;;
  names <- os_listdir_at (polyMeshFolder w) ;;
  ret (bool_decide (5 < length names)).

(** What [getFoamFileByName] comes to: it returns a foam file or [None],
    or it fails with [AttributeError] on reading [.name] of a [None] in the
    tuple of foam files. *)
Inductive lookup_outcome (F : Type) : Type :=
  | Returned (f : option F)
  | AttributeError.
Arguments Returned {F} f.
Arguments AttributeError {F}.

(** [__getFoamFileByName(name, foamfiles)]: the loop returns at the first
    foam file of that name and falls off its end with [None]. *)
Fixpoint getFoamFileByName_in `{FoamFile F} (name : string)
    (foamfiles : list (option F)) : lookup_outcome F :=
  match foamfiles with
  | [] => Returned None
  | None :: _ => AttributeError
  | Some f :: rest =>
      if bool_decide (ff_name f = name) then Returned (Some f)
      else getFoamFileByName_in name rest
  end.

(** [getFoamFileByName(name)]. *)
Definition getFoamFileByName `{FoamFile F} (name : string) (c : case F)
    : lookup_outcome F :=
  getFoamFileByName_in name (foamfiles c).

(** [addRefinementRegions(refinementRegions)]. *)
Definition addRefinementRegions `{FoamFile F} (refinementRegions : list region)
    : M (case F) unit :=
  for_each refinementRegions addRefinementRegion.

(** [distutils.dir_util.copy_tree(src, dst)], a library function: it is
    taken as given. *)
Class CopyTree : Type := copy_tree : path → path → M world unit.

(** [copySnappyHexMesh(folderNumber, overwrite)]. [folderNumber] is [None]
    or a number; [None] and [0] are both false in [if folderNumber:]. *)
Definition copySnappyHexMesh `{CopyTree} (folderNumber : option N)
    (overwrite : bool) : M world unit :=
  w <- get_state ;;
  source <-
    (match folderNumber with
     | Some (N.pos n) =>
         let _s := [PyStr.str (N.pos n); "polyMesh"] in
         py_assert (os_path_isdir _s w) ;;;
         ret (Some _s)
     | _ =>
         _folders <- getSnappyHexMeshFolders ;;
         match last _folders with
         | None => ret None
         | Some f => ret (Some [f; "polyMesh"])
         end
     end) ;;
  match source with
  | None => ret tt
  | Some _s =>
      (if overwrite then removePolyMeshContent else ret tt) ;;;
      w <- get_state ;;
      try_except (copy_tree _s (polyMeshFolder w))
        (λ e, print ("Failed to copy snappyHexMesh folder: " +:+ exn_text e))
  end.

(** [blockMesh(args, wait, overwrite)]. *)
Definition blockMesh `{RunManager} (args : list string) (wait overwrite : bool)
    : M world command_result :=
  (if overwrite then removePolyMeshContent else ret tt) ;;;
  command "blockMesh" args None true wait.

(** [snappyHexMesh(args, wait)] and [checkMesh(args, wait)];
    [decomposeParDict] is the attribute of that name. *)
Definition snappyHexMesh `{RunManager} (decomposeParDict : option decomposition)
    (args : list string) (wait : bool) : M world command_result :=
  command "snappyHexMesh" args decomposeParDict true wait.

Definition checkMesh `{RunManager} (decomposeParDict : option decomposition)
    (args : list string) (wait : bool) : M world command_result :=
  command "checkMesh" args decomposeParDict true wait.

(** [float(s)] for a string, a built-in: it is taken as given. *)
Class ParseFloat : Type := parse_float : string → outcome spec_float.

Definition marker : string := "Mesh non-orthogonality Max:".

(** [calculateMeshOrthogonality(useCurrntCheckMeshLog)]. The command is
    run, so its result is the named tuple; unpacking fewer than two pieces
    is a [ValueError]. *)
Definition calculateMeshOrthogonality `{RunManager} `{ParseFloat}
    (decomposeParDict : option decomposition) (useCurrntCheckMeshLog : bool)
    : M world (spec_float * spec_float) :=
  (if negb useCurrntCheckMeshLog then
     r <- checkMesh decomposeParDict ["latestTime"] true ;;
     match r with
     | Run l => py_assert (success l)
     | CommandLines _ => raise TypeError
     end
   else ret tt) ;;;
  w <- get_state ;;
  let f := logFolder w ++ ["checkMesh.log"] in
  py_assert (os_path_isfile f w) ;;;
  results <- read_file f ;;
  match take 2 (PySplit.split (default "" (last (PySplit.split results marker)))
                  "average:") with
  | [maximum; average] =>
      let average := default "" (head (PySplit.split average nl)) in
      match parse_float maximum with
      | Raised e => raise e
      | Ok mx =>
          match parse_float average with
          | Raised e => raise e
          | Ok av => ret (mx, av)
          end
      end
  | _ => raise ValueError
  end.

End CaseRest.

(** ** [butterfly/windtunnel.py]: [WindTunnel.__init__] *)

Module WindTunnel.
Import Tunnel.

Record bfgeometry : Type := BFGeometry {
  geo_name : string;
  isBFGeometry : bool         (* hasattr(input, 'isBFGeometry') *)
}.

(** What the constructor asks of [BlockMeshDict] and [MeshingParameters],
    both defined in other modules. *)
Class Meshing (B MP : Type) : Type := {
  from_bf_block_geometries : list bfgeometry → pyval → outcome B;
  default_meshing_parameters : MP;
  isMeshingParameters : MP → bool;
  update_meshing_parameters : MP → B → outcome B
}.

(** [_check_input_geometry(input)]. *)
Definition check_input_geometry (input : bfgeometry) : outcome bfgeometry :=
  if isBFGeometry input then Ok input else Raised ValueError.

(** [tuple(geo for geo in geos if self._check_input_geometry(geo))]: the
    check returns the geometry, which is true, or raises. *)
Fixpoint check_all (geos : list bfgeometry) : outcome (list bfgeometry) :=
  match geos with
  | [] => Ok []
  | geo :: rest =>
      match check_input_geometry geo with
      | Raised e => Raised e
      | Ok g =>
          match check_all rest with
          | Raised e => Raised e
          | Ok gs => Ok (g :: gs)
          end
      end
  end.

(** [v > 0] in Python 2, where [None] is below every number. *)
Definition gt_zero (v : pyval) : bool :=
  match v with
  | PyInt z => (0 <? z)%Z
  | PyFloat f => SFltb (S754_zero false) f
  | PyNone => false
  end.

(** [bool(v)]. *)
Definition truthy (v : pyval) : bool :=
  match v with
  | PyInt z => negb (z =? 0)%Z
  | PyFloat f => negb (SFeqb f (S754_zero false))
  | PyNone => false
  end.

(** The float [0.25]. *)
Definition quarter : spec_float := S754_finite false 4503599627370496 (-54).

Record wind_tunnel (B MP : Type) : Type := Tunnel_ {
  name : string;
  inlet : bfgeometry;
  outlet : bfgeometry;
  sides : list bfgeometry;
  top : bfgeometry;
  ground : bfgeometry;
  test_geomtries : list bfgeometry;
  z0 : pyval;
  blockMeshDict : B;
  meshing_parameters : MP;
  Zref : pyval;
  convertToMeters : pyval;
  refinementRegions : list Case.region
}.
Arguments Tunnel_ {B MP}.
Arguments z0 {B MP}.
Arguments Zref {B MP}.
Arguments inlet {B MP}.
Arguments outlet {B MP}.
Arguments sides {B MP}.
Arguments top {B MP}.
Arguments ground {B MP}.
Arguments test_geomtries {B MP}.
Arguments refinementRegions {B MP}.

Definition and_then {A B} (o : outcome A) (k : A → outcome B) : outcome B :=
  match o with
  | Ok a => k a
  | Raised e => Raised e
  end.

(** [WindTunnel.__init__], statement by statement. *)
Definition init `{Meshing B MP} (name : string)
    (inlet outlet : bfgeometry) (sides : list bfgeometry)
    (top ground : bfgeometry) (test_geomtries : list bfgeometry)
    (roughness : pyval) (meshing_parameters : option MP)
    (Zref convertToMeters : pyval) : outcome (wind_tunnel B MP) :=
  and_then (check_input_geometry inlet) (λ inlet,
  and_then (check_input_geometry outlet) (λ outlet,
  and_then (check_all sides) (λ sides,
  and_then (check_input_geometry top) (λ top,
  and_then (check_input_geometry ground) (λ ground,
  and_then (check_all test_geomtries) (λ test_geomtries,
  let z0 := if gt_zero roughness then roughness else PyFloat quarter in
  and_then (from_bf_block_geometries
              ([inlet; outlet] ++ sides ++ [top; ground]) convertToMeters) (λ bmd,
  let mp := default default_meshing_parameters meshing_parameters in
  and_then (if isMeshingParameters mp then Ok tt else Raised AssertionError) (λ _,
  and_then (update_meshing_parameters mp bmd) (λ bmd,
  and_then (if truthy Zref then and_then (float Zref) (λ f, Ok (PyFloat f))
            else Ok (PyInt 10)) (λ Zref,
  Ok (Tunnel_ name inlet outlet sides top ground test_geomtries z0 bmd mp Zref
        convertToMeters []))))))))))).

End WindTunnel.

(** ** More sample states *)

Module Samples2.
Import Case CaseRest.

(** A result folder written as 007 next to a mesh snapshot 7. *)
Definition leading_zeros : world :=
  Samples.on_disk Windows
    [("007", Samples.result_folder); ("7", Samples.mesh_folder);
     ("5", Samples.result_folder)] [].

(** A meshed case with snapshots, results and a post-processing folder. *)
Definition meshed : world :=
  Samples.on_disk Windows
    [("0", Samples.result_folder);
     ("constant",
      Dir {[ "polyMesh" := Dir {[ "blockMeshDict" := File "dict";
                                  "points" := File "p";
                                  "sets" := Dir {[ "s" := File "" ]} ]};
             "triSurface" := Dir ∅ ]});
     ("system", Dir ∅);
     ("1", Samples.mesh_folder); ("2", Samples.mesh_folder);
     ("5", Samples.result_folder);
     ("postProcessing", Dir {[ "probes" := Dir ∅ ]})] ["5"].

(** The same without anything protected. *)
Definition meshed_free : world :=
  World Windows (root meshed) ∅ [] [].

(** A case with a log of checkMesh under [bash\log], and one whose log
    stops before the average. *)
Definition checked (content : string) : world :=
  Samples.on_disk Windows
    [("bash", Dir {[ "log" := Dir {[ "checkMesh.log" := File content ]} ]})] [].

Definition full_log : string :=
  "Checking geometry..." +:+ nl
  +:+ "    Mesh non-orthogonality Max: 65.25 average: 12.75" +:+ nl
  +:+ "    Non-orthogonality check OK." +:+ nl.

Definition cut_log : string :=
  "Checking geometry..." +:+ nl +:+ "    Mesh non-orthogonality Max: 65.25 aver".

(** A parser that knows the two numbers of [full_log], 261/4 and 51/4. *)
Definition two_numbers : ParseFloat :=
  λ s, if bool_decide (s = " 65.25 ") then Ok (S754_finite false 261 (-2))
       else if bool_decide (s = " 12.75") then Ok (S754_finite false 51 (-2))
       else Raised ValueError.

(** A project directory in which [0] is a file and [constant] is empty. *)
Definition half_saved : world :=
  Samples.on_disk Windows [("0", File "notes"); ("constant", Dir ∅)] [].

(** A project directory that does not exist. *)
Definition nowhere (pf : platform) : world := World pf None ∅ [] [].

(** A snapshot whose frozen name is taken by a file. *)
Definition freeze_collision : world :=
  Samples.on_disk Windows
    [("1", Samples.mesh_folder); ("2", Samples.mesh_folder);
     ("2.org", File "")] [].

(** A copy that always fails, and one that records its arguments. *)
Definition failing_copy : CopyTree := λ _ _, raise OSError.
Definition recording_copy : CopyTree :=
  λ src dst, print (foldr (λ a b, a +:+ "/" +:+ b) "" src
                    +:+ " -> " +:+ foldr (λ a b, a +:+ "/" +:+ b) "" dst).

Definition three_regions : list region :=
  [Region "a" true; Region "b" true; Region "c" true].

(** Foam files that keep the names of the regions given to them. *)
#[export] Instance listing_files : FoamFile (string * list string) :=
  {| ff_name := fst;
     ff_isFoamFile := λ _, true;
     ff_addRefinementRegion := λ r, modify (λ d, (d.1, d.2 ++ [region_name r])) |}.

(** Foam files as given to the constructor, one of them missing. *)
Definition some_files : list (option (string * list string)) :=
  [Some ("controlDict", []); None; Some ("snappyHexMeshDict", []);
   Some ("controlDict", ["again"])].

(** A case with a [snappyHexMeshDict] that already holds a region. *)
Definition with_meshing : case (string * list string) :=
  CaseObj (Some "duct")
    [Some ("controlDict", []); Some ("snappyHexMeshDict", ["inlet"])]
    {[ "controlDict" := 0; "snappyHexMeshDict" := 1 ]} [] [].

(** A block mesh dictionary reduced to the names of its faces. *)
#[export] Instance named_meshing : WindTunnel.Meshing (list string) nat :=
  WindTunnel.Build_Meshing (list string) nat
    (λ geos _, Ok (WindTunnel.geo_name <$> geos)) 0 (λ _, true) (λ _ b, Ok b).

Definition face (n : string) : WindTunnel.bfgeometry := WindTunnel.BFGeometry n true.

(** The tunnel built around a box without roughness or reference height. *)
Definition tunnel : WindTunnel.wind_tunnel (list string) nat :=
  WindTunnel.Tunnel_ "t" (face "inlet") (face "outlet")
    [face "left"; face "right"] (face "top") (face "ground") [face "box"]
    (Tunnel.PyFloat WindTunnel.quarter)
    ["inlet"; "outlet"; "left"; "right"; "top"; "ground"] 0
    (Tunnel.PyInt 10) (Tunnel.PyInt 1) [].

End Samples2.

(** ** More vocabulary *)

Module Props2.
Import Case CaseRest Props.

(** The two listings as the specification words them: they return the
    names of the qualifying folders, in ascending order of their value. *)
Definition names_in_numeric_order_as_stated (w : world) : Prop :=
  ∀ ms rs,
    getSnappyHexMeshFolders w = (Ok ms, w) →
    getResultFolders w = (Ok rs, w) →
    ms ≡ₚ mesh_names w ∧ rs ≡ₚ result_names w ∧
    StronglySorted N.le (PyStr.int <$> ms) ∧
    StronglySorted N.le (PyStr.int <$> rs).

(** The entries directly under the project directory. *)
Definition top_entries (w : world) : gmap string entry :=
  match root w with
  | Some (Dir m) => m
  | _ => ∅
  end.

(** The name is a directory the system lets go. *)
Definition removable (w : world) (name : string) : bool :=
  os_path_isdir [name] w && negb (bool_decide (name ∈ locked w)).

(** Nothing under the project directory ends in [.org]. *)
Definition nothing_frozen (w : world) : Prop :=
  Forall (λ name, PyStr.endswith name ".org" = false) (listing w).

(** The folders [save] creates on a project directory that is not there:
    nested on Windows, side by side where the back-slash is no separator. *)
Definition skeleton (pf : platform) : entry :=
  match pf with
  | Windows =>
      Dir (list_to_map
             [("0", Dir ∅);
              ("constant", Dir (list_to_map [("polyMesh", Dir ∅); ("triSurface", Dir ∅)]));
              ("system", Dir ∅); ("log", Dir ∅)])
  | Posix =>
      Dir (list_to_map
             [("0", Dir ∅); ("constant", Dir ∅); ("constant\polyMesh", Dir ∅);
              ("constant\triSurface", Dir ∅); ("system", Dir ∅); ("log", Dir ∅)])
  end.

(** Two entries of the same kind: the same file, or two directories. *)
Definition same_kind (x y : entry) : Prop :=
  match x, y with
  | File c, File c' => c = c'
  | Dir _, Dir _ => True
  | _, _ => False
  end.

(** The names [setattr] does not simply bind on a case: the properties
    the class defines (a setter runs, or the assignment fails), the
    attributes [__init__] itself sets, and those of every object. *)
Definition reserved_names : list string :=
  ["projectName"; "geometries"; "workingDir"; "projectDir"; "zeroFolder";
   "constantFolder"; "systemFolder"; "logFolder"; "polyMeshFolder";
   "triSurfaceFolder"; "postProcessingFolder"; "foamFiles"; "refinementRegions";
   "isPolyMeshSnappyHexMesh"; "probes";
   "_Case__originalName"; "_Case__projectName"; "_Case__version";
   "decomposeParDict"; "_Case__workingDir"; "_Case__foamfiles";
   "_Case__geometries"; "_Case__refinementRegions"; "_Case__probes"; "runmanager";
   "__class__"; "__dict__"; "__weakref__"].

(** Everything found in [w] is still found in [w'], a file with its
    content and a directory as a directory. *)
Definition grows (w w' : world) : Prop :=
  ∀ q e, lookup_path q w = Some e →
         ∃ e', lookup_path q w' = Some e' ∧ same_kind e e'.

(** The position of the last foam file named [x] in [l], counted from [k]. *)
Fixpoint last_named `{FoamFile F} (x : string) (l : list (option F)) (k : nat)
    : option nat :=
  match l with
  | [] => None
  | o :: l' =>
      match last_named x l' (S k) with
      | Some i => Some i
      | None =>
          match o with
          | Some ff => if bool_decide (ff_name ff = x) then Some k else None
          | None => None
          end
      end
  end.

End Props2.

(** * Properties *)

(** ** Numerals *)

Section Numerals.

Lemma to_uint_not_nil (n : N) : N.to_uint n ≠ Decimal.Nil.
Proof.
  destruct n as [|p]; [discriminate|].
  apply DecimalPos.Unsigned.to_uint_nonnil.
Qed.

(** [int(str(n)) == n]. *)
Lemma int_str (n : N) : PyStr.int (PyStr.str n) = n.
Proof.
  unfold PyStr.int, PyStr.str.
  pose proof (to_uint_not_nil n) as Hnil.
  destruct (N.to_uint n) eqn:E; try congruence;
    cbn [NilZero.string_of_uint]; rewrite NilEmpty.usu, <- E;
    apply DecimalN.Unsigned.of_to.
Qed.

Lemma numeral_str_int (s : string) :
  PyStr.is_numeral s = true → PyStr.str (PyStr.int s) = s.
Proof.
  unfold PyStr.is_numeral. intros [_ H]%andb_prop.
  by apply bool_decide_eq_true in H.
Qed.

Lemma numeral_isdigit (s : string) :
  PyStr.is_numeral s = true → PyStr.isdigit s = true.
Proof. unfold PyStr.is_numeral. by intros [H _]%andb_prop. Qed.

#[local] Instance N_le_total : Total N.le.
Proof. intros x y. lia. Qed.

(** Sorting the values and printing them gives the values back in order. *)
Lemma int_str_sorted (l : list N) :
  PyStr.int <$> (PyStr.str <$> merge_sort N.le l) = merge_sort N.le l.
Proof.
  rewrite <- list_fmap_compose. rewrite <- (list_fmap_id (merge_sort _ _)) at 2.
  apply list_fmap_ext. intros _ x _. apply int_str.
Qed.

(** On numerals, printing the sorted values permutes the names. *)
Lemma str_sort_int_perm (l : list string) :
  Forall (λ s, PyStr.is_numeral s = true) l →
  PyStr.str <$> merge_sort N.le (PyStr.int <$> l) ≡ₚ l.
Proof.
  intros Hl. rewrite merge_sort_Permutation, <- list_fmap_compose.
  assert ((PyStr.str ∘ PyStr.int) <$> l = l) as ->; [|done].
  rewrite <- (list_fmap_id l) at 2. apply Forall_fmap_ext_1.
  eapply Forall_impl; [exact Hl|]. intros s Hs. by apply numeral_str_int.
Qed.

End Numerals.

(** ** The numbered folders *)

Section NumberedFolders.
Import Case Props.

Lemma listdir_dir (w : world) (m : gmap string entry) :
  root w = Some (Dir m) → os_listdir w = (Ok (listing w), w).
Proof. unfold os_listdir, listing. by intros ->. Qed.

Lemma elem_of_listing (w : world) (m : gmap string entry) (name : string) :
  root w = Some (Dir m) → name ∈ listing w ↔ is_Some (m !! name).
Proof.
  unfold listing. intros ->. rewrite list_elem_of_fmap. split.
  - intros ([k e] & -> & Hin). apply elem_of_map_to_list in Hin. by exists e.
  - intros [e He]. exists (name, e). split; [done|]. by apply elem_of_map_to_list.
Qed.

Lemma listing_NoDup (w : world) : NoDup (listing w).
Proof.
  unfold listing. destruct (root w) as [[c|m]|]; try apply NoDup_nil_2.
  apply NoDup_fst_map_to_list.
Qed.

(** A directory below [name] makes [name] a listed directory. *)
Lemma isdir_below (w : world) (name : string) (p : path) :
  os_path_isdir (name :: p) w = true →
  name ∈ listing w ∧ os_path_isdir [name] w = true.
Proof.
  unfold os_path_isdir, lookup_path. destruct (root w) as [[c|m]|] eqn:Hr; try done.
  cbn. destruct (m !! name) as [e|] eqn:He; [|done]. cbn. intros H. split.
  - apply (elem_of_listing w m); [done|]. by exists e.
  - destruct p; [done|]. by destruct e.
Qed.

Lemma getSnappyHexMeshFolders_dir (w : world) (m : gmap string entry) :
  root w = Some (Dir m) →
  getSnappyHexMeshFolders w
  = (Ok (PyStr.str <$> merge_sort N.le (PyStr.int <$> mesh_names w)), w).
Proof.
  intros Hr. unfold getSnappyHexMeshFolders, bind.
  by rewrite (listdir_dir w m Hr).
Qed.

Lemma getResultFolders_dir (w : world) (m : gmap string entry) :
  root w = Some (Dir m) →
  getResultFolders w
  = (Ok (PyStr.str <$> merge_sort N.le (PyStr.int <$> result_names w)), w).
Proof.
  intros Hr. unfold getResultFolders, bind.
  by rewrite (listdir_dir w m Hr).
Qed.

Lemma mesh_names_numeral (w : world) :
  numeral_names w → Forall (λ s, PyStr.is_numeral s = true) (mesh_names w).
Proof.
  unfold numeral_names, mesh_names. rewrite !Forall_forall.
  intros Hn name [Hm Hin]%list_elem_of_filter. apply Hn; [done|].
  unfold is_mesh_name in Hm. apply andb_prop_elim in Hm as [Hd _].
  by apply Is_true_true.
Qed.

Lemma result_names_numeral (w : world) :
  numeral_names w → Forall (λ s, PyStr.is_numeral s = true) (result_names w).
Proof.
  unfold numeral_names, result_names. rewrite !Forall_forall.
  intros Hn name [Hm Hin]%list_elem_of_filter. apply Hn; [done|].
  unfold is_result_name in Hm.
  apply andb_prop_elim in Hm as [[[_ Hd]%andb_prop_elim _]%andb_prop_elim _].
  by apply Is_true_true.
Qed.

(** With numeral names both listings return the selected names, permuted. *)
Lemma listings_permute_names (w : world) (m : gmap string entry) :
  root w = Some (Dir m) →
  numeral_names w →
  ∃ ms rs,
    getSnappyHexMeshFolders w = (Ok ms, w) ∧
    getResultFolders w = (Ok rs, w) ∧
    ms ≡ₚ mesh_names w ∧ rs ≡ₚ result_names w.
Proof.
  intros Hr Hn. eexists _, _.
  split; [by apply (getSnappyHexMeshFolders_dir w m)|].
  split; [by apply (getResultFolders_dir w m)|].
  split.
  - by apply str_sort_int_perm, mesh_names_numeral.
  - by apply str_sort_int_perm, result_names_numeral.
Qed.

(** C3 as worded fails: a result folder named 007 is returned as 7, which
    is the name of no result folder. *)
Lemma folder_007_returned_as_7 :
  ¬ Props2.names_in_numeric_order_as_stated Samples2.leading_zeros.
Proof.
  intros Hstated.
  destruct (Hstated ["7"] ["5"; "7"]) as (_ & Hperm & _).
  - vm_compute. reflexivity.
  - vm_compute. reflexivity.
  - assert ("007" ∈ result_names Samples2.leading_zeros) as Hin.
    { apply list_elem_of_filter. split; [by vm_compute|].
      vm_compute. repeat constructor. }
    rewrite <- Hperm in Hin.
    repeat (apply elem_of_cons in Hin as [Hin|Hin]; [discriminate|]).
    by apply elem_of_nil in Hin.
Qed.

(** C3, amended: [getSnappyHexMeshFolders] and [getResultFolders] return
    strings whose values are the values of the selected folders, in
    ascending order; and when the integer-named entries are named by
    numerals, without leading zeros, the returned strings are the names of
    the selected folders. *)
Theorem numbered_folders_in_numeric_order (w : world) (m : gmap string entry) :
  root w = Some (Dir m) →
  ∃ ms rs,
    getSnappyHexMeshFolders w = (Ok ms, w) ∧
    getResultFolders w = (Ok rs, w) ∧
    StronglySorted N.le (PyStr.int <$> ms) ∧
    StronglySorted N.le (PyStr.int <$> rs) ∧
    PyStr.int <$> ms ≡ₚ PyStr.int <$> mesh_names w ∧
    PyStr.int <$> rs ≡ₚ PyStr.int <$> result_names w ∧
    (numeral_names w → ms ≡ₚ mesh_names w ∧ rs ≡ₚ result_names w).
Proof.
  intros Hr. eexists _, _.
  split; [by apply (getSnappyHexMeshFolders_dir w m)|].
  split; [by apply (getResultFolders_dir w m)|].
  rewrite !int_str_sorted.
  repeat split.
  - apply StronglySorted_merge_sort; apply _.
  - apply StronglySorted_merge_sort; apply _.
  - apply merge_sort_Permutation.
  - apply merge_sort_Permutation.
  - by apply str_sort_int_perm, mesh_names_numeral.
  - by apply str_sort_int_perm, result_names_numeral.
Qed.

Lemma numbered_folders_in_numeric_order_witness :
  numeral_names Samples.numbered ∧
  ∃ ms rs,
    getSnappyHexMeshFolders Samples.numbered = (Ok ms, Samples.numbered) ∧
    getResultFolders Samples.numbered = (Ok rs, Samples.numbered) ∧
    StronglySorted N.le (PyStr.int <$> ms) ∧
    StronglySorted N.le (PyStr.int <$> rs) ∧
    PyStr.int <$> ms ≡ₚ PyStr.int <$> mesh_names Samples.numbered ∧
    PyStr.int <$> rs ≡ₚ PyStr.int <$> result_names Samples.numbered ∧
    (numeral_names Samples.numbered →
     ms ≡ₚ mesh_names Samples.numbered ∧ rs ≡ₚ result_names Samples.numbered).
Proof.
  split.
  - apply (bool_decide_unpack _). vm_compute. exact I.
  - eapply numbered_folders_in_numeric_order. reflexivity.
Defined.

(** The folders 3, 10 and 2 come back as 2, 3, 10. *)
Example three_ten_two :
  getSnappyHexMeshFolders Samples.numbered = (Ok ["2"; "3"; "10"], Samples.numbered)
  ∧ getResultFolders Samples.numbered = (Ok ["4"; "20"], Samples.numbered).
Proof. split; vm_compute; reflexivity. Qed.

End NumberedFolders.

(** ** Mesh snapshots and result folders *)

Section Partition.
Import Case Props.

Lemma elem_of_mesh_names (w : world) (name : string) :
  name ∈ mesh_names w ↔
  PyStr.isdigit name = true ∧ os_path_isdir [name; "polyMesh"] w = true.
Proof.
  unfold mesh_names, is_mesh_name. rewrite list_elem_of_filter, andb_True.
  rewrite !Is_true_true. split; [tauto|]. intros [Hd Hp]. repeat split; try done.
  by apply isdir_below in Hp as [? _].
Qed.

Lemma elem_of_result_names (w : world) (name : string) :
  name ∈ result_names w ↔
  name ≠ "0" ∧ PyStr.isdigit name = true ∧ os_path_isdir [name] w = true
  ∧ os_path_isdir [name; "polyMesh"] w = false.
Proof.
  unfold result_names, is_result_name.
  rewrite list_elem_of_filter, !andb_True, !negb_True, !Is_true_true.
  rewrite bool_decide_eq_true, not_true_iff_false. split; [tauto|].
  intros (? & ? & Hd & ?). repeat split; try done.
  by apply isdir_below in Hd as [? _].
Qed.

(** C2 as worded fails: the folder ["0"] is listed as a mesh snapshot when
    a mesh was written into it. *)
Lemma mesh_in_initial_folder : ¬ partition_as_stated Samples.mesh_in_zero.
Proof.
  intros H.
  destruct (H ["0"] ["1"]) as (_ & Hzero & _); [reflexivity..|].
  apply Hzero. by left.
Qed.

(** C2, amended: when the integer-named entries are named by numerals, no
    name is in both lists, every numbered folder other than ["0"] is in one
    of them, both lists hold numbered folders only, ["0"] is never a result
    folder, and ["0"] is a mesh snapshot exactly when it holds a [polyMesh]
    folder. *)
Theorem numbered_folders_partition (w : world) (m : gmap string entry) :
  root w = Some (Dir m) →
  numeral_names w →
  ∃ ms rs,
    getSnappyHexMeshFolders w = (Ok ms, w) ∧
    getResultFolders w = (Ok rs, w) ∧
    (∀ name, ¬ (name ∈ ms ∧ name ∈ rs)) ∧
    (∀ name, numbered_folder w name → name ≠ "0" → name ∈ ms ∨ name ∈ rs) ∧
    (∀ name, name ∈ ms ∨ name ∈ rs → numbered_folder w name) ∧
    ("0" ∉ rs) ∧
    ("0" ∈ ms ↔ os_path_isdir ["0"; "polyMesh"] w = true).
Proof.
  intros Hr Hn.
  destruct (listings_permute_names w m Hr Hn)
    as (ms & rs & Hms & Hrs & Pm & Pr).
  exists ms, rs. split; [done|]. split; [done|].
  assert (∀ name, name ∈ ms ↔ name ∈ mesh_names w) as Em
    by (intros; by rewrite Pm).
  assert (∀ name, name ∈ rs ↔ name ∈ result_names w) as Er
    by (intros; by rewrite Pr).
  repeat split.
  - intros name. rewrite Em, Er, elem_of_mesh_names, elem_of_result_names.
    intros [[_ H1] (_ & _ & _ & H2)]. congruence.
  - intros name (Hin & Hd & Hdir) H0.
    rewrite Em, Er, elem_of_mesh_names, elem_of_result_names.
    destruct (os_path_isdir [name; "polyMesh"] w); tauto.
  - rewrite Em, Er, elem_of_mesh_names, elem_of_result_names in H.
    destruct H as [[_ H]|(_ & _ & H & _)]; by apply isdir_below in H as [? _].
  - rewrite Em, Er, elem_of_mesh_names, elem_of_result_names in H. tauto.
  - rewrite Em, Er, elem_of_mesh_names, elem_of_result_names in H.
    destruct H as [[_ H]|(_ & _ & H & _)]; by apply isdir_below in H as [_ ?].
  - rewrite Er, elem_of_result_names. tauto.
  - rewrite Em, elem_of_mesh_names. tauto.
  - rewrite Em, elem_of_mesh_names. intros H. split; [reflexivity|done].
Qed.

Lemma numbered_folders_partition_witness :
  ∃ ms rs,
    getSnappyHexMeshFolders Samples.numbered = (Ok ms, Samples.numbered) ∧
    getResultFolders Samples.numbered = (Ok rs, Samples.numbered) ∧
    (∀ name, ¬ (name ∈ ms ∧ name ∈ rs)) ∧
    (∀ name, numbered_folder Samples.numbered name → name ≠ "0" →
             name ∈ ms ∨ name ∈ rs) ∧
    (∀ name, name ∈ ms ∨ name ∈ rs → numbered_folder Samples.numbered name) ∧
    ("0" ∉ rs) ∧
    ("0" ∈ ms ↔ os_path_isdir ["0"; "polyMesh"] Samples.numbered = true).
Proof.
  eapply numbered_folders_partition.
  - reflexivity.
  - apply (bool_decide_unpack _). vm_compute. exact I.
Defined.

End Partition.

(** ** Running commands *)

Section Commands.
Import Case Props.
Context `{RunManager}.

Lemma append_empty (s : string) : s +:+ "" = s.
Proof.
  induction s as [|c s IH]; [done|].
  change (String.String c (s +:+ "") = String.String c s). by rewrite IH.
Qed.

Lemma same_disk_refl (w : world) : same_disk w w.
Proof. by split. Qed.

Lemma same_disk_trans (w1 w2 w3 : world) :
  same_disk w1 w2 → same_disk w2 w3 → same_disk w1 w3.
Proof. intros [? ?] [? ?]. split; congruence. Qed.

Lemma same_disk_lookup (w w' : world) (p : path) :
  same_disk w w' → lookup_path p w' = lookup_path p w.
Proof. intros [Hr _]. unfold lookup_path. by rewrite Hr. Qed.

Lemma read_file_present (p : path) (c : string) (w : world) :
  lookup_path p w = Some (File c) →
  read_file p w = (Ok c, log_call (Open p) w).
Proof. unfold read_file. by intros ->. Qed.

(** Reading files that are all there returns their contents and leaves the
    tree alone. *)
Lemma read_all_present (files : list path) (w : world) :
  Forall (λ p, ∃ c, lookup_path p w = Some (File c)) files →
  ∃ content w', read_all files w = (Ok content, w') ∧ same_disk w w'.
Proof.
  revert w. induction files as [|p files IH]; intros w Hall.
  - exists "", w. split; [done|apply same_disk_refl].
  - apply Forall_cons in Hall as [[c Hc] Hall].
    destruct (IH (log_call (Open p) w)) as (cs & w' & Hrun & Hsame).
    { eapply Forall_impl; [exact Hall|]. intros q [d Hd]. by exists d. }
    exists (c +:+ cs), w'. split.
    + cbn [read_all foldr]. unfold bind at 1. rewrite (read_file_present p c w Hc).
      fold (read_all files). unfold bind at 1. rewrite Hrun. done.
    + eapply same_disk_trans; [|exact Hsame]. by split.
Qed.

Lemma read_all_single (p : path) (c : string) (w : world) :
  lookup_path p w = Some (File c) →
  read_all [p] w = (Ok c, log_call (Open p) w).
Proof.
  intros Hc. cbn [read_all foldr]. unfold bind at 1.
  rewrite (read_file_present p c w Hc). unfold bind, ret. by rewrite append_empty.
Qed.

Lemma checkFileContents_present (files : list path) (mute : bool) (w : world) :
  Forall (λ p, ∃ c, lookup_path p w = Some (File c)) files →
  ∃ r w', checkFileContents files mute w = (Ok r, w') ∧ same_disk w w'.
Proof.
  intros Hall. destruct (read_all_present files w Hall) as (content & w' & Hrun & Hsame).
  unfold checkFileContents, bind. rewrite Hrun.
  destruct (negb (bool_decide (content = "")) && negb mute); cbn.
  - eexists _, _. split; [done|]. destruct Hsame. by split.
  - eexists _, _. split; [done|]. done.
Qed.

Lemma checkFileContents_single (p : path) (c : string) (mute : bool) (w : world) :
  lookup_path p w = Some (File c) →
  ∃ w', checkFileContents [p] mute w
        = (Ok (negb (bool_decide (c = "")), c), w') ∧ same_disk w w'.
Proof.
  intros Hc. unfold checkFileContents, bind. rewrite (read_all_single p c w Hc).
  destruct (negb (bool_decide (c = "")) && negb mute); cbn.
  - eexists. split; [done|]. by split.
  - eexists. split; [done|]. by split.
Qed.

(** C1: a command that was run and waited for is classified by its error
    file alone: the result reports success exactly when the error file is
    empty after the process has exited, and its [error] field is the content
    of that file, character for character. *)
Theorem command_classified_by_error_file
    (cmd : string) (args : list string) (dpd : option decomposition)
    (w w1 : world) (p : Popen) (logs : list string) (errfile content : string) :
  rm_run cmd args dpd true w = (Ok (p, logs, [errfile]), w1) →
  Forall (λ f, ∃ c, lookup_path (fullpath w1 f) w1 = Some (File c)) logs →
  lookup_path (fullpath w1 errfile) w1 = Some (File content) →
  ∃ l w2,
    command cmd args dpd true true w = (Ok (Run l), w2) ∧
    (success l = true ↔ content = "") ∧
    (content ≠ "" → success l = false) ∧
    error l = Some content ∧
    process l = Some p ∧
    same_disk w1 w2.
Proof.
  intros Hrun Hlogs Herr.
  destruct (checkFileContents_present (fullpath w1 <$> logs) false w1)
    as (r1 & wa & Hlog & Hsame1).
  { by apply Forall_fmap. }
  destruct (checkFileContents_single (fullpath w1 errfile) content mute_default wa)
    as (wb & Hchk & Hsame2).
  { by rewrite (same_disk_lookup w1 wa). }
  eexists _, wb. split.
  - unfold command. cbn [negb]. unfold bind at 1. rewrite Hrun.
    unfold bind at 1, get_state at 1. cbn [fmap list_fmap].
    unfold bind at 1. rewrite Hlog. unfold bind at 1. rewrite Hchk. reflexivity.
  - cbn. rewrite !negb_involutive.
    split; [apply bool_decide_eq_true|].
    split; [intros Hne; by apply bool_decide_eq_false|].
    split; [done|]. split; [done|]. by eapply same_disk_trans.
Qed.

(** C9: without waiting the result is built from constants: success, no
    error, no process, whatever the process does later; the state is the
    one [rm_run] left, so no file was opened to look at it. *)
Theorem command_without_waiting
    (cmd : string) (args : list string) (dpd : option decomposition)
    (w w1 : world) (p : Popen) (logs errs : list string) :
  rm_run cmd args dpd false w = (Ok (p, logs, errs), w1) →
  ∃ l,
    command cmd args dpd true false w = (Ok (Run l), w1) ∧
    success l = true ∧ error l = None ∧ process l = None ∧
    logfiles l = (fullpath w1 <$> logs) ∧
    errorfiles l = (fullpath w1 <$> errs).
Proof.
  intros Hrun. eexists. split.
  - unfold command. cbn [negb]. unfold bind at 1. rewrite Hrun. reflexivity.
  - done.
Qed.

End Commands.

Lemma command_classified_by_error_file_witness :
  ∃ l w2,
    @Case.command (SpecRunManager.manager Samples.behaviour)
      "blockMesh" [] None true true Samples.saved = (Ok (Case.Run l), w2) ∧
    (Case.success l = true ↔ "FOAM FATAL ERROR" = "") ∧
    ("FOAM FATAL ERROR" ≠ "" → Case.success l = false) ∧
    Case.error l = Some "FOAM FATAL ERROR" ∧
    Case.process l = Some 1 ∧
    Props.same_disk
      (SpecRunManager.run Samples.behaviour "blockMesh" [] None true
         Samples.saved).2 w2.
Proof.
  apply (@command_classified_by_error_file
           (SpecRunManager.manager Samples.behaviour)
           "blockMesh" [] None Samples.saved
           (SpecRunManager.run Samples.behaviour "blockMesh" [] None true
              Samples.saved).2
           1 ["log/blockMesh.log"] "log/blockMesh.err" "FOAM FATAL ERROR").
  - vm_compute. reflexivity.
  - repeat constructor. exists "Create time". vm_compute. reflexivity.
  - vm_compute. reflexivity.
Defined.

Lemma command_without_waiting_witness :
  ∃ l,
    @Case.command (SpecRunManager.manager Samples.behaviour)
      "blockMesh" [] None true false Samples.saved
    = (Ok (Case.Run l),
       (SpecRunManager.run Samples.behaviour "blockMesh" [] None false
          Samples.saved).2) ∧
    Case.success l = true ∧ Case.error l = None ∧ Case.process l = None ∧
    Case.logfiles l
    = (Case.fullpath
         (SpecRunManager.run Samples.behaviour "blockMesh" [] None false
            Samples.saved).2 <$> ["log/blockMesh.log"]) ∧
    Case.errorfiles l
    = (Case.fullpath
         (SpecRunManager.run Samples.behaviour "blockMesh" [] None false
            Samples.saved).2 <$> ["log/blockMesh.err"]).
Proof.
  apply (@command_without_waiting
           (SpecRunManager.manager Samples.behaviour)
           "blockMesh" [] None Samples.saved
           (SpecRunManager.run Samples.behaviour "blockMesh" [] None false
              Samples.saved).2
           1 ["log/blockMesh.log"] ["log/blockMesh.err"]).
  vm_compute. reflexivity.
Defined.

(** ** Refinement regions *)

Section Refinement.
Import Case.
Context `{FoamFile F}.

(** C10: on a case without the attribute [snappyHexMeshDict] the call
    raises, and the region is in [refinementRegions] all the same: it was
    appended before the attribute was looked for. *)
Theorem addRefinementRegion_not_atomic (c : case F) (r : region) :
  isRefinementRegion r = true →
  attrs c !! "snappyHexMeshDict" = None →
  addRefinementRegion r c
  = (Raised AssertionError,
     CaseObj (projectName c) (foamfiles c) (attrs c) (geometries c)
       (refinementRegions c ++ [r])).
Proof.
  intros Hr Hattr. unfold addRefinementRegion, bind, py_assert, hasattr.
  rewrite Hr. cbn. rewrite Hattr. reflexivity.
Qed.

(** An object that is not a refinement region is refused before anything
    is changed. *)
Lemma addRefinementRegion_refused (c : case F) (r : region) :
  isRefinementRegion r = false →
  addRefinementRegion r c = (Raised AssertionError, c).
Proof.
  intros Hr. unfold addRefinementRegion, bind, py_assert. by rewrite Hr.
Qed.

End Refinement.

Lemma addRefinementRegion_not_atomic_witness :
  @Case.addRefinementRegion string Samples.named_files
    Samples.box Samples.without_meshing
  = (Raised AssertionError,
     Case.CaseObj (Some "duct") [Some "controlDict"] {[ "controlDict" := 0 ]} []
       [Samples.box]).
Proof.
  apply (@addRefinementRegion_not_atomic string Samples.named_files
           Samples.without_meshing Samples.box).
  - reflexivity.
  - vm_compute. reflexivity.
Defined.

(** ** Tunnel parameters *)

Section TunnelParameters.
Import Tunnel.

Lemma binary_round_aux_sign (sx : bool) (mx ex : Z) (lx : location) :
  match binary_round_aux prec emax sx mx ex lx with
  | S754_zero s | S754_infinity s | S754_finite s _ _ => s = sx
  | S754_nan => True
  end.
Proof.
  unfold binary_round_aux.
  destruct (shr_fexp prec emax mx ex lx) as [mrs' e'].
  destruct (shr_fexp prec emax _ e' loc_Exact) as [mrs'' e''].
  destruct (shr_m mrs''); [done| |done].
  by destruct (e'' <=? emax - prec)%Z.
Qed.

(** Rounding a negative integer never yields a positive float. *)
Lemma float_of_negative (p : positive) :
  match binary_normalize prec emax (Z.neg p) 0 false with
  | S754_zero s | S754_infinity s | S754_finite s _ _ => s = true
  | S754_nan => True
  end.
Proof.
  unfold binary_normalize, binary_round.
  destruct (shl_align p 0 _) as [mz ez]. apply binary_round_aux_sign.
Qed.

Lemma check_input_nonpositive (v : pyval) :
  nonpositive v → ∃ e, check_input v = Raised e.
Proof.
  destruct v as [z|f|]; cbn [nonpositive]; [| |done].
  - intros Hz. unfold check_input, float. destruct z as [|p|p]; [|lia|].
    + by exists AssertionError.
    + pose proof (float_of_negative p) as Hs.
      destruct (binary_normalize prec emax (Z.neg p) 0 false) as [s|s| |s m e];
        subst; by eexists.
  - intros Hf. unfold check_input, float. exists AssertionError.
    destruct f as [s|s| |s m e]; try done; by destruct s.
Qed.

(** The only exception [__check_input] raises for a value that converts to
    a float is the failed assertion. *)
Lemma check_input_converted (v : pyval) (f : spec_float) (e : exn) :
  float v = Ok f → check_input v = Raised e → e = AssertionError.
Proof.
  unfold check_input. intros ->.
  destruct (SFltb (S754_zero false) f); congruence.
Qed.

(** C8: a tunnel parameter that is zero or negative makes the constructor
    raise: no object is built and nothing is left to a later check. When
    all four arguments convert to floats the exception is the failed
    assertion of [__check_input]. *)
Theorem nonpositive_parameter_rejected (windward top side leeward : pyval) :
  nonpositive windward ∨ nonpositive top ∨ nonpositive side ∨ nonpositive leeward →
  ∃ e,
    init windward top side leeward = Raised e ∧
    ((∃ f1 f2 f3 f4, float windward = Ok f1 ∧ float top = Ok f2 ∧
                     float side = Ok f3 ∧ float leeward = Ok f4) →
     e = AssertionError).
Proof.
  intros Hnp.
  assert (∃ e, init windward top side leeward = Raised e) as [e He].
  { unfold init.
    destruct (check_input windward) as [ww|e1] eqn:E1; [|by eexists].
    destruct (check_input top) as [t|e2] eqn:E2; [|by eexists].
    destruct (check_input side) as [s|e3] eqn:E3; [|by eexists].
    destruct (check_input leeward) as [lw|e4] eqn:E4; [|by eexists].
    destruct Hnp as [Hn|[Hn|[Hn|Hn]]];
      apply check_input_nonpositive in Hn as [e Hn]; congruence. }
  exists e. split; [done|].
  intros (f1 & f2 & f3 & f4 & H1 & H2 & H3 & H4).
  unfold init in He.
  destruct (check_input windward) as [ww|e1] eqn:E1;
    [|injection He as <-; exact (check_input_converted _ _ _ H1 E1)].
  destruct (check_input top) as [t|e2] eqn:E2;
    [|injection He as <-; exact (check_input_converted _ _ _ H2 E2)].
  destruct (check_input side) as [s|e3] eqn:E3;
    [|injection He as <-; exact (check_input_converted _ _ _ H3 E3)].
  destruct (check_input leeward) as [lw|e4] eqn:E4;
    [|injection He as <-; exact (check_input_converted _ _ _ H4 E4)].
  discriminate.
Qed.

End TunnelParameters.

Lemma nonpositive_parameter_rejected_witness :
  ∃ e,
    Tunnel.init (Tunnel.PyInt 3) (Tunnel.PyInt 5) (Tunnel.PyInt 0)
      (Tunnel.PyFloat (S754_finite true 4503599627370496 (-52))) = Raised e ∧
    ((∃ f1 f2 f3 f4,
        Tunnel.float (Tunnel.PyInt 3) = Ok f1 ∧ Tunnel.float (Tunnel.PyInt 5) = Ok f2 ∧
        Tunnel.float (Tunnel.PyInt 0) = Ok f3 ∧
        Tunnel.float (Tunnel.PyFloat (S754_finite true 4503599627370496 (-52))) = Ok f4) →
     e = AssertionError).
Proof.
  apply nonpositive_parameter_rejected.
  right. right. left. cbn. lia.
Defined.

(** ** Project names *)

Section ProjectName.
Import Case Props.

Lemma star_then_eol (cls : Ascii.ascii → bool) (b : bool) (l : list Ascii.ascii) :
  Re.star cls (Re.matches [Re.Eol]) b l = true ↔
  forallb cls l = true
  ∨ ∃ cs, l = cs ++ [Re.newline] ∧ forallb cls cs = true.
Proof.
  revert b. induction l as [|c l IH]; intros b.
  - cbn. split; [by left|done].
  - cbn [Re.star]. rewrite orb_true_iff, andb_true_iff, (IH false). split.
    + intros [[Hc [Hl|(cs & -> & Hcs)]]|He].
      * left. cbn. by rewrite Hc, Hl.
      * right. exists (c :: cs). split; [done|]. cbn. by rewrite Hc, Hcs.
      * right. exists []. cbn in He. destruct l; [|done].
        rewrite andb_true_r in He. apply bool_decide_eq_true in He as ->. done.
    + intros [Hall|(cs & Heq & Hcs)].
      * cbn in Hall. apply andb_true_iff in Hall as [Hc Hl]. left. eauto.
      * destruct cs as [|c' cs]; cbn in Heq; injection Heq as -> ->.
        -- right. cbn. by rewrite bool_decide_eq_true_2.
        -- cbn in Hcs. apply andb_true_iff in Hcs as [Hc Hl].
           left. split; [done|]. right. by exists cs.
Qed.

(** What the pattern lets through: names of word characters, and such names
    followed by one newline. *)
Lemma projectName_pattern_matches (name : string) :
  Re.re_match projectName_pattern name = true ↔
  word_name name
  ∨ ∃ cs, PyStr.chars name = cs ++ [Re.newline] ∧ forallb Re.word_char cs = true.
Proof.
  unfold Re.re_match, projectName_pattern, word_name.
  cbn [Re.matches andb]. apply star_then_eol.
Qed.

(** The setter stores a name the pattern matches and refuses any other,
    leaving the object as it was. *)
Lemma projectName_setter_run {F} (name : string) (c : case F) :
  projectName_setter name c
  = if Re.re_match projectName_pattern name
    then (Ok tt, CaseObj (Some name) (foamfiles c) (attrs c) (geometries c)
                   (refinementRegions c))
    else (Raised AssertionError, c).
Proof.
  unfold projectName_setter, bind, py_assert.
  by destruct (Re.re_match projectName_pattern name).
Qed.

(** Names of word characters are accepted. *)
Lemma word_name_accepted {F} (name : string) (c : case F) :
  word_name name →
  projectName_setter name c
  = (Ok tt, CaseObj (Some name) (foamfiles c) (attrs c) (geometries c)
              (refinementRegions c)).
Proof.
  intros Hw. rewrite projectName_setter_run.
  assert (Re.re_match projectName_pattern name = true) as ->; [|done].
  apply projectName_pattern_matches. by left.
Qed.

(** A name with a character outside the class anywhere but in a final
    newline is refused. *)
Lemma other_name_refused {F} (name : string) (c : case F) :
  ¬ word_name name →
  (∀ cs, PyStr.chars name = cs ++ [Re.newline] → forallb Re.word_char cs = false) →
  projectName_setter name c = (Raised AssertionError, c).
Proof.
  intros Hw Hnl. rewrite projectName_setter_run.
  destruct (Re.re_match projectName_pattern name) eqn:E; [|done].
  apply projectName_pattern_matches in E as [E|(cs & Heq & Hcs)]; [done|].
  rewrite (Hnl cs Heq) in Hcs. done.
Qed.

(** C6: a name that ends in a newline holds a whitespace character, yet the
    setter stores it and the constructor returns a case: [$] also matches
    just before a final newline. *)
Theorem name_with_newline_accepted :
  ¬ word_name Samples.name_with_newline ∧
  Re.newline ∈ PyStr.chars Samples.name_with_newline ∧
  projectName_setter Samples.name_with_newline (@blank string)
  = (Ok tt, CaseObj (Some Samples.name_with_newline) [] ∅ [] []) ∧
  @init string Samples.named_files Samples.name_with_newline [] []
  = Ok (CaseObj (Some Samples.name_with_newline) [] ∅ [] []).
Proof.
  split; [by vm_compute|]. split; [|split; reflexivity].
  vm_compute. repeat constructor.
Qed.

End ProjectName.

(** ** Saving a case *)

Section Save.
Import Case Props.

(** [rmtree(..., ignore_errors=True)] returns whatever it meets. *)
Lemma rmtree_ignore_errors_returns (w : world) :
  ∃ w', rmtree_ignore_errors w = (Ok tt, w') ∧
        platform_of w' = platform_of w ∧
        calls w' = calls w ++ [Rmtree [] true].
Proof.
  unfold rmtree_ignore_errors. destruct (root w) as [[c|m]|]; by eexists.
Qed.

Lemma after_delete_calls (w : world) :
  platform_of (after_delete w) = platform_of w ∧
  calls (after_delete w)
  = calls w ++ (if os_path_exists [] w then [Rmtree [] true] else []).
Proof.
  unfold after_delete. destruct (os_path_exists [] w).
  - destruct (rmtree_ignore_errors_returns w) as (w' & -> & Hp & Hc). by cbn.
  - by rewrite app_nil_r.
Qed.

(** What is left of the project directory holds protected entries only. *)
Lemma rmtree_ignore_errors_best_effort (w : world) (m : gmap string entry)
    (name : string) :
  root w = Some (Dir m) → name ∉ locked w →
  lookup_path [name] (rmtree_ignore_errors w).2 = None.
Proof.
  intros Hr Hfree. unfold rmtree_ignore_errors, lookup_path. rewrite Hr. cbn.
  destruct (bool_decide _); [done|]. cbn.
  rewrite map_lookup_filter_None_2; [done|]. right. intros e _. done.
Qed.

(** A folder whose creation fails stops the loop with [IOError], the failed
    call being the last thing done. *)
Lemma create_subfolder_fails (f : string) (w : world) :
  os_path_exists (components (platform_of w) f) w = false →
  (os_makedirs (components (platform_of w) f) w).1 = Raised OSError →
  create_subfolder f w
  = (Raised IOError, log_call (Makedirs (components (platform_of w) f)) w).
Proof.
  intros Hex Hfail. unfold create_subfolder, bind, get_state, try_except.
  rewrite Hex. cbn [negb]. unfold os_makedirs in *.
  by destruct (makedirs_in _ (root w)).
Qed.

(** One round of the loop keeps the platform and issues at most the one
    [os.makedirs] of its folder. *)
Lemma create_subfolder_calls (f : string) (w w' : world) (r : outcome unit) :
  create_subfolder f w = (r, w') →
  platform_of w' = platform_of w ∧
  (calls w' = calls w
   ∨ calls w' = calls w ++ [Makedirs (components (platform_of w) f)]).
Proof.
  unfold create_subfolder, bind, get_state, try_except, os_makedirs, raise, ret.
  destruct (os_path_exists (components (platform_of w) f) w); cbn [negb].
  - intros [= <- <-]. auto.
  - destruct (makedirs_in (components (platform_of w) f) (root w));
      intros [= <- <-]; split; auto.
Qed.

Lemma create_subfolders_calls (fs : list string) (w w' : world) :
  for_each fs create_subfolder w = (Ok tt, w') →
  platform_of w' = platform_of w ∧
  ∃ made, calls w' = calls w ++ made ∧
          Forall (λ c, ∃ f, f ∈ fs ∧ c = Makedirs (components (platform_of w) f)) made.
Proof.
  revert w. induction fs as [|f fs IH]; intros w.
  - cbn. intros [= <-]. split; [done|]. exists []. by rewrite app_nil_r.
  - cbn [for_each]. unfold bind at 1.
    destruct (create_subfolder f w) as [[[]|e] w1] eqn:E1; [|done].
    intros Hrest. apply create_subfolder_calls in E1 as [Hp1 Hc1].
    apply IH in Hrest as (Hp & made & Hc & Hall). split; [congruence|].
    assert (Forall (λ c, ∃ f0, f0 ∈ f :: fs ∧
              c = Makedirs (components (platform_of w) f0)) made) as Hall'.
    { eapply Forall_impl; [exact Hall|]. intros c (f0 & Hin & ->).
      exists f0. rewrite Hp1. split; [by right|done]. }
    destruct Hc1 as [Hc1|Hc1]; rewrite Hc, Hc1.
    + by exists made.
    + exists (Makedirs (components (platform_of w) f) :: made).
      rewrite <- app_assoc. split; [done|]. constructor; [|done].
      exists f. split; [by left|done].
Qed.

(** The loop stops at the first round that raises. *)
Lemma for_each_stops {S A} (pre post : list A) (x : A) (body : A → M S unit)
    (s s1 s2 : S) (e : exn) :
  for_each pre body s = (Ok tt, s1) →
  body x s1 = (Raised e, s2) →
  for_each (pre ++ x :: post) body s = (Raised e, s2).
Proof.
  revert s. induction pre as [|y pre IH]; intros s.
  - cbn. intros [= <-] Hx. unfold bind. by rewrite Hx.
  - cbn [for_each app]. intros Hpre Hx.
    change (for_each (y :: pre ++ x :: post) body s)
      with (bind (body y) (λ _, for_each (pre ++ x :: post) body) s).
    unfold bind at 1 in Hpre. unfold bind at 1.
    destruct (body y s) as [[[]|e'] s'] eqn:E; [|done]. by apply IH.
Qed.

Lemma filter_none {A} (P : A → Prop) `{∀ x, Decision (P x)} (l : list A) :
  Forall (λ x, ¬ P x) l → filter P l = [].
Proof.
  induction 1 as [|x l Hx _ IH]; [done|]. by rewrite filter_cons_False.
Qed.

Lemma subfolders_distinct (pf : platform) : NoDup (components pf <$> SUBFOLDERS).
Proof. destruct pf; apply (bool_decide_unpack _); by vm_compute. Qed.

(** C7: [save(overwrite=True)] first removes the project directory, with
    errors ignored, and a folder of [SUBFOLDERS] that cannot be created ends
    the call with [IOError]: the failed [os.makedirs] is the last call
    issued, it was issued once, and nothing of the case is written. *)
Theorem save_overwrite_creation_failure_fatal
    (write_contents : M world unit) (w wk : world)
    (pre post : list string) (f : string) :
  SUBFOLDERS = pre ++ f :: post →
  for_each pre create_subfolder (after_delete w) = (Ok tt, wk) →
  os_path_exists (components (platform_of wk) f) wk = false →
  (os_makedirs (components (platform_of wk) f) wk).1 = Raised OSError →
  (∃ w', rmtree_ignore_errors w = (Ok tt, w')) ∧
  save write_contents true w
  = (Raised IOError, log_call (Makedirs (components (platform_of wk) f)) wk) ∧
  (os_path_exists [] w = true →
   head (calls_since w (log_call (Makedirs (components (platform_of wk) f)) wk))
   = Some (Rmtree [] true)) ∧
  last (calls (log_call (Makedirs (components (platform_of wk) f)) wk))
  = Some (Makedirs (components (platform_of wk) f)) ∧
  length (filter (λ c, c = Makedirs (components (platform_of wk) f))
            (calls_since w (log_call (Makedirs (components (platform_of wk) f)) wk)))
  = 1.
Proof.
  intros Hsub Hpre Hex Hfail.
  set (p := components (platform_of wk) f).
  destruct (after_delete_calls w) as (Hpf & Hdel).
  pose proof Hpre as Hpre'.
  apply create_subfolders_calls in Hpre' as (Hpk & made & Hmade & Hmade_all).
  split; [|split; [|split; [|split]]].
  - destruct (rmtree_ignore_errors_returns w) as (w' & Hw' & _). by exists w'.
  - unfold save. unfold bind at 1, get_state at 1. cbn [andb].
    unfold bind at 1.
    assert ((if os_path_exists [] w then rmtree_ignore_errors else ret tt) w
            = (Ok tt, after_delete w)) as ->.
    { unfold after_delete. destruct (os_path_exists [] w); [|done].
      by destruct (rmtree_ignore_errors_returns w) as (w' & -> & _). }
    unfold bind at 1. rewrite Hsub.
    by rewrite (for_each_stops pre post f create_subfolder (after_delete w) wk
                  (log_call (Makedirs p) wk) IOError Hpre
                  (create_subfolder_fails f wk Hex Hfail)).
  - intros Hexists. unfold calls_since. cbn [calls log_call].
    rewrite Hmade, Hdel, Hexists, <- !app_assoc, drop_app_length. done.
  - cbn. apply last_snoc.
  - unfold calls_since. cbn [calls log_call].
    rewrite Hmade, Hdel, <- !app_assoc, drop_app_length, !filter_app.
    rewrite (filter_none _ (if os_path_exists [] w then _ else _)),
            (filter_none _ made).
    + cbn. by rewrite decide_True.
    + eapply Forall_impl; [exact Hmade_all|]. intros c (f' & Hin & ->) [= Heq].
      pose proof (subfolders_distinct (platform_of wk)) as Hnd.
      rewrite Hsub, fmap_app in Hnd. apply NoDup_app in Hnd as (_ & Hnot & _).
      rewrite <- Hpk in Heq.
      apply (Hnot (components (platform_of wk) f')).
      * apply list_elem_of_fmap. by exists f'.
      * rewrite fmap_cons, Heq. by left.
    + destruct (os_path_exists [] w); repeat constructor. done.
Qed.

End Save.

Lemma save_overwrite_creation_failure_fatal_witness :
  (∃ w', rmtree_ignore_errors Samples.constant_is_a_file = (Ok tt, w')) ∧
  Case.save (ret tt) true Samples.constant_is_a_file
  = (Raised IOError,
     log_call (Makedirs ["constant"; "polyMesh"])
       (for_each ["0"; "constant"] Case.create_subfolder
          (Props.after_delete Samples.constant_is_a_file)).2) ∧
  (os_path_exists [] Samples.constant_is_a_file = true →
   head (Props.calls_since Samples.constant_is_a_file
           (log_call (Makedirs ["constant"; "polyMesh"])
              (for_each ["0"; "constant"] Case.create_subfolder
                 (Props.after_delete Samples.constant_is_a_file)).2))
   = Some (Rmtree [] true)) ∧
  last (calls (log_call (Makedirs ["constant"; "polyMesh"])
                 (for_each ["0"; "constant"] Case.create_subfolder
                    (Props.after_delete Samples.constant_is_a_file)).2))
  = Some (Makedirs ["constant"; "polyMesh"]) ∧
  length (filter (λ c, c = Makedirs ["constant"; "polyMesh"])
            (Props.calls_since Samples.constant_is_a_file
               (log_call (Makedirs ["constant"; "polyMesh"])
                  (for_each ["0"; "constant"] Case.create_subfolder
                     (Props.after_delete Samples.constant_is_a_file)).2)))
  = 1.
Proof.
  apply (save_overwrite_creation_failure_fatal (ret tt)
           Samples.constant_is_a_file
           (for_each ["0"; "constant"] Case.create_subfolder
              (Props.after_delete Samples.constant_is_a_file)).2
           ["0"; "constant"] ["constant\triSurface"; "system"; "log"]
           "constant\polyMesh").
  - reflexivity.
  - vm_compute. reflexivity.
  - vm_compute. reflexivity.
  - vm_compute. reflexivity.
Defined.

(** ** Removing numbered folders *)

Section Removal.
Import Case Props.

(** In [removeSnappyHexMeshFolders] the handler fails on its own: [_f] is
    neither a local of the method nor a global of the module. *)
Lemma snappy_handler_unbound (f : string) (e : exn) (w : world) :
  failed_to_remove [("f", f); ("e", exn_text e)] e w = (Raised NameError, w).
Proof. reflexivity. Qed.

(** In [removeResultFolders] the same statement finds the loop variable. *)
Lemma result_handler_bound (_f : string) (e : exn) (w : world) :
  failed_to_remove [("_f", _f); ("e", exn_text e)] e w
  = print ("Failed to remove " +:+ _f +:+ ":" +:+ nl +:+ exn_text e) w.
Proof. reflexivity. Qed.

(** A removal that fails raises [OSError] and changes nothing on disk. *)
Lemma rmtree_raised (p : path) (w w' : world) (e : exn) :
  rmtree p w = (Raised e, w') →
  e = OSError ∧ w' = log_call (Rmtree p false) w.
Proof.
  unfold rmtree. destruct (lookup_path p w) as [[c|m]|]; try (by intros [= <- <-]).
  destruct (refused p w); [by intros [= <- <-]|].
  destruct (root w ≫= remove_in p); [done|by intros [= <- <-]].
Qed.

Lemma rmtree_calls (p : path) (w w' : world) (r : outcome unit) :
  rmtree p w = (r, w') →
  calls w' = calls w ++ [Rmtree p false] ∧ stdout w' = stdout w.
Proof.
  unfold rmtree. destruct (lookup_path p w) as [[c|m]|]; try (by intros [= <- <-]).
  destruct (refused p w); [by intros [= <- <-]|].
  destruct (root w ≫= remove_in p); by intros [= <- <-].
Qed.

(** One round of the loop of [removeSnappyHexMeshFolders]: a removal that
    fails ends the round with [NameError]. *)
Lemma remove_snapshot_raises (f : string) (w : world) :
  (rmtree [f] w).1 = Raised OSError →
  remove_snapshot f w = (Raised NameError, log_call (Rmtree [f] false) w).
Proof.
  unfold remove_snapshot, try_except.
  destruct (rmtree [f] w) as [[[]|e] w1] eqn:E; [done|]. intros _.
  apply rmtree_raised in E as [_ ->]. apply snappy_handler_unbound.
Qed.

(** The loop of [removeSnappyHexMeshFolders] reports nothing, whatever
    happens: it returns, or it raises [NameError]. *)
Lemma snapshot_loop_silent (fs : list string) (w w' : world) (r : outcome unit) :
  for_each fs remove_snapshot w = (r, w') →
  stdout w' = stdout w ∧ (r = Ok tt ∨ r = Raised NameError).
Proof.
  revert w. induction fs as [|f fs IH]; intros w.
  - intros [= <- <-]. auto.
  - cbn [for_each]. unfold bind at 1, remove_snapshot at 1, try_except.
    destruct (rmtree [f] w) as [[[]|e] w1] eqn:E.
    + intros Hrest. apply IH in Hrest as [Hout Hres].
      apply rmtree_calls in E as [_ Hout1]. split; [congruence|done].
    + rewrite snappy_handler_unbound. intros [= <- <-].
      apply rmtree_calls in E as [_ Hout1]. auto.
Qed.

(** The first removal that fails ends [removeSnappyHexMeshFolders]'s loop:
    the folders after it are not tried. *)
Lemma snapshot_loop_stops (pre post : list string) (f : string) (w wk : world) :
  for_each pre remove_snapshot w = (Ok tt, wk) →
  (rmtree [f] wk).1 = Raised OSError →
  for_each (pre ++ f :: post) remove_snapshot w
  = (Raised NameError, log_call (Rmtree [f] false) wk).
Proof.
  intros Hpre Hfail. eapply for_each_stops; [exact Hpre|].
  by apply remove_snapshot_raises.
Qed.

(** One round of the loop of [removeResultFolders] always returns: a
    removal that fails is reported on the output. *)
Lemma remove_result_returns (_f : string) (w : world) :
  ∃ w',
    remove_result _f w = (Ok tt, w') ∧
    calls w' = calls w ++ [Rmtree [_f] false] ∧
    ((rmtree [_f] w = (Ok tt, w'))
     ∨ (∃ e w1, rmtree [_f] w = (Raised e, w1) ∧ root w' = root w ∧
                stdout w' = stdout w
                            ++ ["Failed to remove " +:+ _f +:+ ":" +:+ nl +:+ exn_text e])).
Proof.
  unfold remove_result, try_except. destruct (rmtree [_f] w) as [[[]|e] w1] eqn:E.
  - exists w1. split; [done|]. split; [by apply rmtree_calls in E as [? _]|]. by left.
  - eexists. split; [reflexivity|]. pose proof E as E'.
    apply rmtree_raised in E' as [_ ->]. split; [done|].
    right. exists e. eexists. split; [reflexivity|]. done.
Qed.

(** The loop of [removeResultFolders] never raises, and tries every folder
    of its list in turn. *)
Lemma result_loop_continues (fs : list string) (w : world) :
  ∃ w', for_each fs remove_result w = (Ok tt, w') ∧
        calls w' = calls w ++ ((λ f, Rmtree [f] false) <$> fs).
Proof.
  revert w. induction fs as [|f fs IH]; intros w.
  - exists w. split; [done|]. by rewrite app_nil_r.
  - cbn [for_each]. unfold bind at 1.
    destruct (remove_result_returns f w) as (w1 & -> & Hc & _).
    destruct (IH w1) as (w' & Hrun & Hc').
    exists w'. split; [done|]. rewrite Hc', Hc, <- app_assoc. done.
Qed.

(** [removeResultFolders] never raises once the project directory can be
    listed. *)
Lemma removeResultFolders_returns (w : world) (m : gmap string entry) :
  root w = Some (Dir m) → ∃ w', removeResultFolders w = (Ok tt, w').
Proof.
  intros Hr. unfold removeResultFolders, bind at 1.
  rewrite (getResultFolders_dir w m Hr).
  destruct (result_loop_continues
              (PyStr.str <$> merge_sort N.le (PyStr.int <$> result_names w)) w)
    as (w' & Hrun & _).
  by exists w'.
Qed.

(** C4, at the failing state: with the first of two mesh snapshots
    protected against removal, [removeSnappyHexMeshFolders] raises
    [NameError] out of its handler, prints nothing, and leaves the second
    snapshot in place without trying to remove it; so does [purge] with its
    default arguments on a meshed case. On the same state with result
    folders, [removeResultFolders] reports the failure and goes on to remove
    the second folder. *)
Theorem failed_snapshot_removal_raises :
  (removeSnappyHexMeshFolders Samples.first_locked).1 = Raised NameError ∧
  stdout (removeSnappyHexMeshFolders Samples.first_locked).2 = [] ∧
  calls (removeSnappyHexMeshFolders Samples.first_locked).2 = [Rmtree ["1"] false] ∧
  os_path_isdir ["2"] (removeSnappyHexMeshFolders Samples.first_locked).2 = true ∧
  (purge true true false false Samples.meshed_first_locked).1 = Raised NameError ∧
  stdout (purge true true false false Samples.meshed_first_locked).2 = [] ∧
  os_path_isdir ["2"] (purge true true false false Samples.meshed_first_locked).2
  = true ∧
  (removeResultFolders Samples.first_result_locked).1 = Ok tt ∧
  stdout (removeResultFolders Samples.first_result_locked).2
  = ["Failed to remove 1:" +:+ nl +:+ "OSError"] ∧
  calls (removeResultFolders Samples.first_result_locked).2
  = [Rmtree ["1"] false; Rmtree ["2"] false] ∧
  os_path_exists ["2"] (removeResultFolders Samples.first_result_locked).2 = false.
Proof. repeat split; vm_compute; reflexivity. Qed.

End Removal.

(** ** Strings *)

Section Strings.
Import Props.

Lemma chars_app (a b : string) :
  PyStr.chars (a +:+ b) = PyStr.chars a ++ PyStr.chars b.
Proof.
  induction a as [|c a IH]; [done|].
  change (c :: PyStr.chars (a +:+ b) = c :: PyStr.chars a ++ PyStr.chars b).
  by rewrite IH.
Qed.

Lemma of_chars_chars (s : string) : PyStr.of_chars (PyStr.chars s) = s.
Proof. apply String.string_of_list_ascii_of_string. Qed.

Lemma chars_of_chars (l : list Ascii.ascii) : PyStr.chars (PyStr.of_chars l) = l.
Proof. apply String.list_ascii_of_string_of_list_ascii. Qed.

Lemma chars_inj (a b : string) : PyStr.chars a = PyStr.chars b → a = b.
Proof. intros E. by rewrite <- (of_chars_chars a), E, of_chars_chars. Qed.

Lemma is_prefix_spec (p l : list Ascii.ascii) :
  PyStr.is_prefix p l = true ↔ ∃ k, l = p ++ k.
Proof.
  revert l. induction p as [|a p IH]; intros l.
  - cbn. split; [by exists l|done].
  - destruct l as [|b l]; cbn.
    + split; [done|]. by intros [k [=]].
    + rewrite andb_true_iff, bool_decide_eq_true, IH. split.
      * intros [-> [k ->]]. by exists k.
      * intros [k [= -> ->]]. split; [done|]. by exists k.
Qed.

Lemma endswith_spec (s suffix : string) :
  PyStr.endswith s suffix = true ↔ ∃ k, PyStr.chars s = k ++ PyStr.chars suffix.
Proof.
  unfold PyStr.endswith. rewrite is_prefix_spec. split.
  - intros [k Hk]. exists (reverse k).
    by rewrite <- (reverse_involutive (PyStr.chars s)), Hk, reverse_app,
               reverse_involutive.
  - intros [k ->]. exists (reverse k). by rewrite reverse_app.
Qed.

Lemma isdigit_chars (f : string) :
  PyStr.isdigit f = true → Forall (λ c, PyStr.is_digit_char c = true) (PyStr.chars f).
Proof.
  unfold PyStr.isdigit. destruct (PyStr.chars f) as [|c l] eqn:E; [done|].
  intros Hall. apply Forall_forall. intros x Hx%list_elem_of_In.
  exact (proj1 (forallb_forall _ _) Hall x Hx).
Qed.

(** A string of digits does not end in [.org]. *)
Lemma isdigit_not_org (f : string) :
  PyStr.isdigit f = true → PyStr.endswith f ".org" = false.
Proof.
  intros Hd%isdigit_chars. apply not_true_iff_false.
  intros [k Hk]%endswith_spec. rewrite Hk in Hd.
  apply Forall_app in Hd as [_ Hd]. by apply Forall_cons in Hd as [Hd _].
Qed.

Lemma endswith_org (f : string) : PyStr.endswith (org f) ".org" = true.
Proof. apply endswith_spec. exists (PyStr.chars f). apply chars_app. Qed.

Lemma unorg_org (f : string) : unorg (org f) = Some f.
Proof.
  unfold unorg. rewrite endswith_org. f_equal. unfold org.
  rewrite chars_app, length_app. cbn [PyStr.chars String.list_ascii_of_string length].
  rewrite Nat.add_sub, take_app_length. apply of_chars_chars.
Qed.

Lemma unorg_Some (name f : string) : unorg name = Some f → name = org f.
Proof.
  unfold unorg. destruct (PyStr.endswith name ".org") eqn:E; [|done].
  apply endswith_spec in E as [k Hk]. intros [= <-]. apply chars_inj.
  unfold org. rewrite chars_app, chars_of_chars, Hk, length_app.
  cbn [PyStr.chars String.list_ascii_of_string length].
  by rewrite Nat.add_sub, take_app_length.
Qed.

Lemma unorg_digits (f : string) : PyStr.isdigit f = true → unorg f = None.
Proof. intros Hd. unfold unorg. by rewrite (isdigit_not_org f Hd). Qed.

Lemma org_inj (f g : string) : org f = org g → f = g.
Proof.
  intros E. assert (unorg (org f) = unorg (org g)) as E' by by rewrite E.
  rewrite !unorg_org in E'. by injection E'.
Qed.

Lemma digits_not_frozen (f g : string) : PyStr.isdigit f = true → f ≠ org g.
Proof.
  intros Hd ->. pose proof (isdigit_not_org _ Hd) as H.
  by rewrite endswith_org in H.
Qed.

Lemma replace_digits_org (l : list Ascii.ascii) :
  Forall (λ c, PyStr.is_digit_char c = true) l →
  PyStr.replace_go (PyStr.chars ".org") [] 0 (l ++ PyStr.chars ".org") = l.
Proof.
  induction 1 as [|c l Hc _ IH]; [done|].
  cbn [app PyStr.replace_go].
  assert (PyStr.is_prefix (PyStr.chars ".org") (c :: l ++ PyStr.chars ".org") = false)
    as ->.
  { cbn. rewrite bool_decide_eq_false_2; [done|]. intros <-. done. }
  by rewrite IH.
Qed.

(** [(f + ".org").replace(".org", "")] is [f] for a string of digits. *)
Lemma replace_org (f : string) :
  PyStr.isdigit f = true → PyStr.replace (org f) ".org" "" = f.
Proof.
  intros Hd%isdigit_chars. unfold PyStr.replace, org. rewrite chars_app.
  change (PyStr.chars "") with (@nil Ascii.ascii).
  rewrite (replace_digits_org _ Hd). apply of_chars_chars.
Qed.

End Strings.

(** ** Freezing and restoring snapshots *)

Section Freeze.
Import Case Props.

Lemma isdir_mesh (w : world) (m : gmap string entry) (name : string) :
  root w = Some (Dir m) →
  os_path_isdir [name; "polyMesh"] w = has_mesh (m !! name).
Proof.
  intros Hr. unfold os_path_isdir, lookup_path, has_mesh. rewrite Hr. cbn.
  by destruct (m !! name) as [[c|m']|].
Qed.

Lemma has_mesh_Some (e : option entry) : has_mesh e = true → is_Some e.
Proof. by destruct e. Qed.

Lemma org_nonempty (f : string) : org f ≠ "".
Proof.
  intros E. apply (f_equal PyStr.chars) in E. unfold org in E.
  rewrite chars_app in E. by destruct (PyStr.chars f).
Qed.

Lemma isdigit_nonempty (f : string) : PyStr.isdigit f = true → f ≠ "".
Proof. by intros Hd ->. Qed.

Lemma os_rename_free (src dst : string) (w : world)
    (m : gmap string entry) (e : entry) :
  root w = Some (Dir m) → m !! src = Some e → src ≠ dst → dst ≠ "" →
  m !! dst = None →
  os_rename src dst w
  = (Ok tt, set_root (Some (Dir (<[dst := e]> (delete src m))))
              (log_call (Rename src dst) w)).
Proof.
  intros Hr Hs Hne Hdst Hd. unfold os_rename. rewrite Hr, Hs, Hd.
  by rewrite !bool_decide_eq_false_2.
Qed.

Lemma frozen_view_none (m : gmap string entry) (name : string) :
  frozen_view ∅ m name = m !! name.
Proof.
  unfold frozen_view. rewrite bool_decide_eq_false_2 by set_solver.
  destruct (unorg name); [|done]. by rewrite bool_decide_eq_false_2 by set_solver.
Qed.

Lemma Frozen_none (m mk : gmap string entry) : Frozen ∅ m mk → mk = m.
Proof. intros HF. apply map_eq. intros n. by rewrite HF, frozen_view_none. Qed.

(** Names other than [f] and its frozen name see no difference when [f]
    joins or leaves the frozen set. *)
Lemma frozen_view_other (U U' : gset string) (m : gmap string entry) (f name : string) :
  (∀ g, g ≠ f → g ∈ U' ↔ g ∈ U) → name ≠ f → name ≠ org f →
  frozen_view U' m name = frozen_view U m name.
Proof.
  intros HU Hf Ho. unfold frozen_view.
  rewrite (bool_decide_ext (name ∈ U') (name ∈ U)) by by apply HU.
  destruct (unorg name) as [g|] eqn:Eg; [|done].
  rewrite (bool_decide_ext (g ∈ U') (g ∈ U)); [done|].
  apply HU. intros ->. by apply unorg_Some in Eg.
Qed.

Lemma frozen_view_digits (U : gset string) (m : gmap string entry) (f : string) :
  PyStr.isdigit f = true →
  frozen_view U m f = if bool_decide (f ∈ U) then None else m !! f.
Proof. intros Hd. unfold frozen_view. by rewrite (unorg_digits f Hd). Qed.

Lemma frozen_view_org (U : gset string) (m : gmap string entry) (f : string) :
  org f ∉ U →
  frozen_view U m (org f) = if bool_decide (f ∈ U) then m !! f else m !! org f.
Proof.
  intros Ho. unfold frozen_view. by rewrite bool_decide_eq_false_2, unorg_org.
Qed.

(** A set of digit strings holds no frozen name. *)
Lemma org_not_in (U : gset string) (f : string) :
  (∀ g, g ∈ U → PyStr.isdigit g = true) → org f ∉ U.
Proof. intros HU Hin. exact (digits_not_frozen (org f) f (HU _ Hin) eq_refl). Qed.

(** Freezing one more snapshot. *)
Lemma freeze_step (U : gset string) (m mk : gmap string entry) (f : string) (e : entry) :
  (∀ g, g ∈ U → PyStr.isdigit g = true) →
  PyStr.isdigit f = true → m !! f = Some e →
  Frozen U m mk →
  Frozen ({[f]} ∪ U) m (<[org f := e]> (delete f mk)).
Proof.
  intros HU Hd He HF name.
  destruct (decide (name = org f)) as [->|Ho].
  - rewrite lookup_insert_eq, frozen_view_org.
    + rewrite bool_decide_eq_true_2 by set_solver. done.
    + apply org_not_in. intros g [->%elem_of_singleton|Hg]%elem_of_union; auto.
  - rewrite lookup_insert_ne by done.
    destruct (decide (name = f)) as [->|Hf].
    + rewrite lookup_delete_eq, frozen_view_digits by done.
      by rewrite bool_decide_eq_true_2 by set_solver.
    + rewrite lookup_delete_ne by done. rewrite HF.
      symmetry. apply (frozen_view_other _ _ _ f); [|done..]. set_solver.
Qed.

(** Restoring one snapshot. *)
Lemma restore_step (U : gset string) (m mk : gmap string entry) (f : string) (e : entry) :
  (∀ g, g ∈ U → PyStr.isdigit g = true) →
  f ∈ U → m !! f = Some e → m !! org f = None →
  Frozen U m mk →
  Frozen (U ∖ {[f]}) m (<[f := e]> (delete (org f) mk)).
Proof.
  intros HU Hin He Hfree HF name.
  assert (PyStr.isdigit f = true) as Hd by auto.
  destruct (decide (name = f)) as [->|Hf].
  - rewrite lookup_insert_eq, frozen_view_digits by done.
    by rewrite bool_decide_eq_false_2 by set_solver.
  - rewrite lookup_insert_ne by done.
    destruct (decide (name = org f)) as [->|Ho].
    + rewrite lookup_delete_eq, frozen_view_org.
      * by rewrite bool_decide_eq_false_2 by set_solver.
      * apply org_not_in. intros g Hg. apply HU. set_solver.
    + rewrite lookup_delete_ne by done. rewrite HF.
      symmetry. apply (frozen_view_other _ _ _ f); [|done..]. set_solver.
Qed.

(** The freeze loop over snapshots not frozen yet. *)
Lemma freeze_loop (fs : list string) (U : gset string)
    (m mk : gmap string entry) (w : world) :
  NoDup fs →
  (∀ f, f ∈ fs → f ∉ U) →
  (∀ g, g ∈ U → PyStr.isdigit g = true) →
  (∀ f, f ∈ fs → freezable m f) →
  root w = Some (Dir mk) →
  Frozen U m mk →
  ∃ w' mk',
    for_each fs freeze_one w = (Ok tt, w') ∧
    root w' = Some (Dir mk') ∧
    Frozen (list_to_set fs ∪ U) m mk'.
Proof.
  revert U mk w. induction fs as [|f fs IH]; intros U mk w Hnd Hnew HU Hfs Hr HF.
  - exists w, mk. split; [done|]. split; [done|].
    intros n. rewrite HF. cbn. by rewrite (left_id_L ∅ (∪)).
  - apply NoDup_cons in Hnd as [Hf Hnd].
    destruct (Hfs f) as (Hd & Hmesh & Hfree); [by left|].
    destruct (has_mesh_Some _ Hmesh) as [e He].
    assert (mk !! f = Some e) as Hsrc.
    { rewrite HF, frozen_view_digits by done.
      rewrite bool_decide_eq_false_2; [done|]. apply Hnew. by left. }
    assert (mk !! org f = None) as Hdst.
    { rewrite HF, frozen_view_org by by apply org_not_in.
      rewrite bool_decide_eq_false_2; [done|]. apply Hnew. by left. }
    assert (f ≠ org f) as Hne by by apply digits_not_frozen.
    destruct (IH ({[f]} ∪ U) (<[org f := e]> (delete f mk))
                (set_root (Some (Dir (<[org f := e]> (delete f mk))))
                   (log_call (Rename f (org f)) w)))
      as (w' & mk' & Hrun & Hr' & HF'); try done.
    + intros g Hg [->%elem_of_singleton|HgU]%elem_of_union; [done|].
      apply (Hnew g); [by right|done].
    + intros g [->%elem_of_singleton|Hg]%elem_of_union; auto.
    + intros g Hg. apply Hfs. by right.
    + by apply freeze_step.
    + exists w', mk'. split; [|split; [done|]].
      * cbn [for_each]. unfold bind at 1, freeze_one at 1, try_except.
        fold (org f).
        by rewrite (os_rename_free f (org f) w mk e) by (try done; apply org_nonempty).
      * intros n. rewrite HF'. f_equal. cbn. set_solver.
Qed.

(** The restore loop over a listing that holds every frozen name. *)
Lemma restore_loop (names : list string) (U : gset string)
    (m mk : gmap string entry) (w : world) :
  (∀ g, g ∈ U → freezable m g) →
  (∀ n, PyStr.endswith n ".org" = true → has_mesh (m !! n) = false) →
  (∀ g, g ∈ U → org g ∈ names) →
  root w = Some (Dir mk) →
  Frozen U m mk →
  ∃ w', for_each names restore_one w = (Ok tt, w') ∧ root w' = Some (Dir m).
Proof.
  revert U mk w. induction names as [|name names IH]; intros U mk w HU Hplain Hall Hr HF.
  - exists w. split; [done|]. rewrite Hr. do 2 f_equal. apply Frozen_none.
    intros n. rewrite HF. f_equal.
    apply set_eq. intros g. split; [|set_solver]. intros Hg.
    apply Hall in Hg. by apply elem_of_nil in Hg.
  - assert (∀ g, g ∈ U → PyStr.isdigit g = true) as Hdig by (intros g Hg; apply HU, Hg).
    cbn [for_each]. unfold bind at 1, restore_one at 1, bind at 1, get_state at 1.
    rewrite (isdir_mesh w mk name Hr).
    destruct (unorg name) as [f|] eqn:Ef.
    + apply unorg_Some in Ef as ->. rewrite endswith_org. cbn [andb].
      destruct (decide (f ∈ U)) as [Hin|Hout].
      * destruct (HU f Hin) as (Hd & Hmesh & Hfree).
        destruct (has_mesh_Some _ Hmesh) as [e He].
        assert (mk !! org f = Some e) as Hsrc.
        { rewrite HF, frozen_view_org by by apply org_not_in.
          by rewrite bool_decide_eq_true_2. }
        assert (mk !! f = None) as Hdst.
        { rewrite HF, frozen_view_digits by done. by rewrite bool_decide_eq_true_2. }
        rewrite Hsrc, <- He, Hmesh, (replace_org f Hd).
        rewrite (os_rename_free (org f) f w mk e) by
          (try done; first [by apply isdigit_nonempty
                           |apply not_eq_sym; by apply digits_not_frozen]).
        apply (IH (U ∖ {[f]}) (<[f := e]> (delete (org f) mk))).
        -- intros g Hg. apply HU. set_solver.
        -- done.
        -- intros g [Hg Hgf%not_elem_of_singleton]%elem_of_difference.
           apply Hall in Hg. apply elem_of_cons in Hg as [Heq|Hg]; [|done].
           by apply org_inj in Heq.
        -- done.
        -- by apply restore_step.
      * assert (has_mesh (mk !! org f) = false) as ->.
        { rewrite HF, frozen_view_org by by apply org_not_in.
          rewrite bool_decide_eq_false_2 by done. apply Hplain, endswith_org. }
        apply (IH U mk); try done.
        intros g Hg. pose proof (Hall g Hg) as Hin.
        apply elem_of_cons in Hin as [Heq|Hin]; [|done].
        apply org_inj in Heq as ->. done.
    + assert (PyStr.endswith name ".org" = false) as ->.
      { unfold unorg in Ef. by destruct (PyStr.endswith name ".org"). }
      cbn [andb]. apply (IH U mk); try done.
      intros g Hg. pose proof (Hall g Hg) as Hin.
      apply elem_of_cons in Hin as [Heq|Hin]; [|done].
      by rewrite <- Heq, unorg_org in Ef.
Qed.

(** Nothing takes the place of a folder that holds a mesh. *)
Lemma mesh_not_replaced (pf : platform) (src e : entry) :
  has_mesh (Some e) = true → replaceable pf src e = false.
Proof.
  destruct pf; [done|]. destruct e as [c|m]; [by destruct src|].
  intros Hm. destruct src; [done|]. cbn. apply bool_decide_eq_false_2.
  intros Hz%map_size_empty_iff. subst. done.
Qed.

Lemma has_mesh_dir (e : entry) : has_mesh (Some e) = true → ∃ m, e = Dir m.
Proof. destruct e; [done|]. by eexists. Qed.

(** A round of the restore loop on another name leaves alone both an
    entry [t] that no directory may replace and a frozen snapshot [name]. *)
Lemma restore_one_keeps (n name t : string) (d : entry)
    (w w' : world) (mk : gmap string entry) (r : outcome unit) :
  root w = Some (Dir mk) →
  mk !! t = Some d →
  PyStr.endswith t ".org" = false →
  refuses_directory (platform_of w) d →
  has_mesh (mk !! name) = true →
  n ≠ name →
  restore_one n w = (r, w') →
  platform_of w' = platform_of w ∧
  (r = Ok tt ∨ r = Raised OSError) ∧
  ∃ mk', root w' = Some (Dir mk') ∧ mk' !! t = Some d ∧
         has_mesh (mk' !! name) = true.
Proof.
  intros Hr Ht Hend Hrefuse Hname Hne.
  unfold restore_one, bind, get_state. rewrite (isdir_mesh w mk n Hr).
  destruct (PyStr.endswith n ".org" && has_mesh (mk !! n)) eqn:Hcond.
  2:{ intros [= <- <-]. split; [done|]. split; [by left|]. by exists mk. }
  apply andb_true_iff in Hcond as [Hn_org Hn_mesh].
  destruct (has_mesh_Some _ Hn_mesh) as [e He].
  destruct (has_mesh_Some _ Hname) as [e0 He0].
  destruct (has_mesh_dir e) as [c ->]; [by rewrite <- He|].
  unfold os_rename. rewrite Hr, He.
  destruct (bool_decide (PyStr.replace n ".org" "" = "")).
  { intros [= <- <-]. split; [done|]. split; [by right|]. by exists mk. }
  destruct (bool_decide (n = PyStr.replace n ".org" "")).
  { intros [= <- <-]. split; [done|]. split; [by left|]. by exists mk. }
  assert (n ≠ t) as Hnt by (intros ->; congruence).
  destruct (mk !! PyStr.replace n ".org" "") as [d'|] eqn:Hdst.
  - destruct (replaceable (platform_of w) (Dir c) d') eqn:Hrep.
    + intros [= <- <-]. split; [done|]. split; [by left|].
      eexists. split; [done|].
      assert (PyStr.replace n ".org" "" ≠ t) as Hd1.
      { intros E. rewrite E, Ht in Hdst. injection Hdst as <-.
        by rewrite Hrefuse in Hrep. }
      assert (PyStr.replace n ".org" "" ≠ name) as Hd2.
      { intros E. rewrite E, He0 in Hdst. injection Hdst as <-.
        rewrite He0 in Hname. by rewrite (mesh_not_replaced _ _ _ Hname) in Hrep. }
      by rewrite !lookup_insert_ne, !lookup_delete_ne.
    + intros [= <- <-]. split; [done|]. split; [by right|]. by exists mk.
  - intros [= <- <-]. split; [done|]. split; [by left|].
    eexists. split; [done|].
    assert (PyStr.replace n ".org" "" ≠ t) as Hd1 by (intros E; congruence).
    assert (PyStr.replace n ".org" "" ≠ name) as Hd2 by (intros E; congruence).
    by rewrite !lookup_insert_ne, !lookup_delete_ne.
Qed.

(** The round that reaches the frozen snapshot whose name is taken. *)
Lemma restore_one_collides (name : string) (d : entry)
    (w : world) (mk : gmap string entry) :
  root w = Some (Dir mk) →
  mk !! PyStr.replace name ".org" "" = Some d →
  PyStr.endswith name ".org" = true →
  PyStr.endswith (PyStr.replace name ".org" "") ".org" = false →
  refuses_directory (platform_of w) d →
  has_mesh (mk !! name) = true →
  restore_one name w
  = (Raised OSError, log_call (Rename name (PyStr.replace name ".org" "")) w).
Proof.
  intros Hr Ht Hend Htend Hrefuse Hname.
  unfold restore_one, bind, get_state.
  rewrite (isdir_mesh w mk name Hr), Hend, Hname. cbn [andb].
  destruct (has_mesh_Some _ Hname) as [e He].
  destruct (has_mesh_dir e) as [c ->]; [by rewrite <- He|].
  unfold os_rename. rewrite Hr, He, Ht.
  destruct (bool_decide (PyStr.replace name ".org" "" = "")); [done|].
  rewrite bool_decide_eq_false_2 by (intros E; congruence).
  by rewrite Hrefuse.
Qed.

(** The restore loop stops with [OSError] at the latest when it reaches
    the snapshot whose name is taken, and the entry under that name is
    still there. *)
Lemma restore_loop_collides (names : list string) (name : string) (d : entry)
    (w : world) (mk : gmap string entry) :
  name ∈ names →
  root w = Some (Dir mk) →
  mk !! PyStr.replace name ".org" "" = Some d →
  PyStr.endswith name ".org" = true →
  PyStr.endswith (PyStr.replace name ".org" "") ".org" = false →
  refuses_directory (platform_of w) d →
  has_mesh (mk !! name) = true →
  ∃ w', for_each names restore_one w = (Raised OSError, w') ∧
        lookup_path [PyStr.replace name ".org" ""] w' = Some d.
Proof.
  revert w mk. induction names as [|n names IH];
    intros w mk Hin Hr Ht Hend Htend Hrefuse Hname.
  - by apply elem_of_nil in Hin.
  - cbn [for_each]. unfold bind at 1.
    destruct (decide (n = name)) as [->|Hne].
    + rewrite (restore_one_collides name d w mk) by done.
      eexists. split; [done|]. unfold lookup_path. cbn. rewrite Hr. cbn.
      by rewrite Ht.
    + destruct (restore_one n w) as [r w1] eqn:E.
      destruct (restore_one_keeps n name _ d w w1 mk r Hr Ht Htend Hrefuse Hname Hne E)
        as (Hpf & Hres & mk1 & Hr1 & Ht1 & Hname1).
      destruct Hres as [-> | ->].
      * apply (IH w1 mk1); try done.
        -- apply elem_of_cons in Hin as [Heq|Hin]; [congruence|done].
        -- by rewrite Hpf.
      * exists w1. split; [done|]. unfold lookup_path. rewrite Hr1. cbn.
        by rewrite Ht1.
Qed.

Lemma lookup_path_top (w : world) (m : gmap string entry) (name : string) :
  root w = Some (Dir m) → lookup_path [name] w = m !! name.
Proof.
  intros Hr. unfold lookup_path. rewrite Hr. cbn. by destruct (m !! name).
Qed.

Lemma mesh_names_NoDup (w : world) : NoDup (mesh_names w).
Proof. apply NoDup_filter, listing_NoDup. Qed.

(** C5 as worded fails: a snapshot frozen earlier is renamed by the restore
    that follows a new freeze, so the names after the round trip are not
    those before it, and no error is raised. *)
Lemma earlier_freeze_not_restored : ¬ freeze_restore_as_stated Samples.frozen_and_fresh.
Proof.
  intros Hstated.
  destruct (Hstated
              (renameSnappyHexMeshFolders true Samples.frozen_and_fresh).2
              (Ok tt)
              (renameSnappyHexMeshFolders false
                 (renameSnappyHexMeshFolders true Samples.frozen_and_fresh).2).2)
    as [_ Hnames].
  - vm_compute. reflexivity.
  - vm_compute. reflexivity.
  - destruct Hnames as [_ Hperm].
    + apply (bool_decide_unpack _). vm_compute. exact I.
    + assert ("1.org" ∈ Props.listing Samples.frozen_and_fresh) as Hin
        by (vm_compute; repeat constructor).
      rewrite <- Hperm in Hin. vm_compute in Hin.
      repeat (apply elem_of_cons in Hin as [Hin|Hin]; [discriminate|]).
      by apply elem_of_nil in Hin.
Qed.

(** C5, amended: when the numbered folders are named by numerals, no
    folder ending in [.org] holds a mesh yet and the frozen names are free,
    freezing succeeds, moves every snapshot to its frozen name, and the
    restore that follows succeeds and gives back the directory as it was.
    And when a frozen snapshot is restored while an entry has its original
    name, an entry that does not itself end in [.org] and that the platform
    does not let a directory replace (on Windows, any entry), the restore
    raises [OSError] and that entry is still in place. *)
Theorem freeze_then_restore
    (w : world) (m : gmap string entry)
    (wc : world) (mc : gmap string entry) (name : string) (d : entry) :
  root w = Some (Dir m) →
  numeral_names w →
  Forall (λ n, PyStr.endswith n ".org" = true →
               os_path_isdir [n; "polyMesh"] w = false) (listing w) →
  Forall (λ f, org f ∉ listing w) (mesh_names w) →
  root wc = Some (Dir mc) →
  name ∈ listing wc →
  PyStr.endswith name ".org" = true →
  os_path_isdir [name; "polyMesh"] wc = true →
  mc !! PyStr.replace name ".org" "" = Some d →
  PyStr.endswith (PyStr.replace name ".org" "") ".org" = false →
  refuses_directory (platform_of wc) d →
  (∃ w1 w2,
     renameSnappyHexMeshFolders true w = (Ok tt, w1) ∧
     Forall (λ f, lookup_path [f] w1 = None
                  ∧ lookup_path [org f] w1 = lookup_path [f] w) (mesh_names w) ∧
     renameSnappyHexMeshFolders false w1 = (Ok tt, w2) ∧
     root w2 = root w)
  ∧ (∃ wc',
       renameSnappyHexMeshFolders false wc = (Raised OSError, wc') ∧
       lookup_path [PyStr.replace name ".org" ""] wc' = Some d).
Proof.
  intros Hr Hnum Hplain Hfree Hrc Hin Hend Hmesh Ht Htend Hrefuse. split.
  - set (fs := PyStr.str <$> merge_sort N.le (PyStr.int <$> mesh_names w)).
    assert (fs ≡ₚ mesh_names w) as Hperm
      by by apply str_sort_int_perm, mesh_names_numeral.
    assert (∀ f, f ∈ fs → freezable m f) as Hfs.
    { intros f Hf. rewrite Hperm in Hf.
      pose proof (proj1 (Forall_forall _ _) Hfree f Hf) as Hfree_f.
      apply elem_of_mesh_names in Hf as [Hd Hm].
      rewrite (isdir_mesh w m f Hr) in Hm. repeat split; try done.
      apply eq_None_not_Some. intros Hs. apply Hfree_f.
      by apply (elem_of_listing w m). }
    destruct (freeze_loop fs ∅ m m w) as (w1 & m1 & Hrun1 & Hr1 & HF1); try done.
    { rewrite Hperm. apply mesh_names_NoDup. }
    { intros n. by rewrite frozen_view_none. }
    assert (∀ g, g ∈ (list_to_set fs ∪ ∅ : gset string) → freezable m g) as HU.
    { intros g Hg. apply Hfs. set_solver. }
    assert (∀ g, g ∈ (list_to_set fs ∪ ∅ : gset string) → m1 !! org g = m !! g) as Horg.
    { intros g Hg. rewrite HF1, frozen_view_org.
      - by rewrite bool_decide_eq_true_2.
      - apply org_not_in. intros g' Hg'. by apply HU. }
    destruct (restore_loop (listing w1) (list_to_set fs ∪ ∅) m m1 w1)
      as (w2 & Hrun2 & Hr2); try done.
    { intros n Hn. destruct (m !! n) as [e|] eqn:He; [|done].
      apply not_true_iff_false. intros Hm.
      assert (n ∈ listing w) as Hl by (apply (elem_of_listing w m); eauto).
      pose proof (proj1 (Forall_forall _ _) Hplain n Hl Hn) as Hno.
      rewrite (isdir_mesh w m n Hr), He in Hno. congruence. }
    { intros g Hg. apply (elem_of_listing w1 m1 _ Hr1). rewrite (Horg g Hg).
      destruct (HU g Hg) as (_ & Hm & _). by apply has_mesh_Some. }
    exists w1, w2. split; [|split; [|split]].
    + unfold renameSnappyHexMeshFolders. cbn [negb]. unfold bind at 1.
      by rewrite (getSnappyHexMeshFolders_dir w m Hr).
    + apply Forall_forall. intros f Hf. rewrite <- Hperm in Hf.
      assert (f ∈ (list_to_set fs ∪ ∅ : gset string)) as HfU by set_solver.
      rewrite !(lookup_path_top w1 m1) by done.
      rewrite (lookup_path_top w m) by done. split; [|by apply Horg].
      destruct (HU f HfU) as (Hd & _ & _).
      rewrite HF1, frozen_view_digits by done. by rewrite bool_decide_eq_true_2.
    + unfold renameSnappyHexMeshFolders. cbn [negb]. unfold bind at 1.
      by rewrite (listdir_dir w1 m1 Hr1).
    + congruence.
  - rewrite (isdir_mesh wc mc name Hrc) in Hmesh.
    destruct (restore_loop_collides (listing wc) name d wc mc) as (wc' & Hrun & Hkept);
      try done.
    exists wc'. split; [|done].
    unfold renameSnappyHexMeshFolders. cbn [negb]. unfold bind at 1.
    by rewrite (listdir_dir wc mc Hrc).
Qed.

End Freeze.

Lemma freeze_then_restore_witness :
  (∃ w1 w2,
     Case.renameSnappyHexMeshFolders true Samples.numbered = (Ok tt, w1) ∧
     Forall (λ f, lookup_path [f] w1 = None
                  ∧ lookup_path [Props.org f] w1 = lookup_path [f] Samples.numbered)
            (Props.mesh_names Samples.numbered) ∧
     Case.renameSnappyHexMeshFolders false w1 = (Ok tt, w2) ∧
     root w2 = root Samples.numbered)
  ∧ (∃ wc',
       Case.renameSnappyHexMeshFolders false Samples.restore_collision
       = (Raised OSError, wc') ∧
       lookup_path [PyStr.replace "1.org" ".org" ""] wc' = Some Samples.result_folder).
Proof.
  eapply (freeze_then_restore Samples.numbered _ Samples.restore_collision _
            "1.org" Samples.result_folder).
  - reflexivity.
  - apply (bool_decide_unpack _). vm_compute. exact I.
  - apply (bool_decide_unpack _). vm_compute. exact I.
  - apply (bool_decide_unpack _). vm_compute. exact I.
  - reflexivity.
  - apply (bool_decide_unpack _). vm_compute. exact I.
  - vm_compute. reflexivity.
  - vm_compute. reflexivity.
  - vm_compute. reflexivity.
  - vm_compute. reflexivity.
  - intros c. reflexivity.
Defined.

(** * Further properties *)

(** ** Listings without a project directory, and the names they return *)

Section Listings.
Import Case Props Props2.

Lemma listdir_fails (w : world) :
  (∀ m, root w ≠ Some (Dir m)) → os_listdir w = (Raised OSError, w).
Proof.
  intros Hno. unfold os_listdir. destruct (root w) as [[c|m]|]; try done.
  by destruct (Hno m).
Qed.

(** Without a project directory to list, every method that walks the
    numbered folders raises [OSError] and does nothing: none of them guards
    [os.listdir], and the freeze wraps only its renames. *)
Theorem lifecycle_needs_project_directory (w : world) :
  (∀ m, root w ≠ Some (Dir m)) →
  getSnappyHexMeshFolders w = (Raised OSError, w) ∧
  getResultFolders w = (Raised OSError, w) ∧
  renameSnappyHexMeshFolders true w = (Raised OSError, w) ∧
  renameSnappyHexMeshFolders false w = (Raised OSError, w) ∧
  removeSnappyHexMeshFolders w = (Raised OSError, w) ∧
  removeResultFolders w = (Raised OSError, w).
Proof.
  intros Hno. pose proof (listdir_fails w Hno) as Hl.
  assert (getSnappyHexMeshFolders w = (Raised OSError, w)) as Hm
    by (unfold getSnappyHexMeshFolders, bind; by rewrite Hl).
  assert (getResultFolders w = (Raised OSError, w)) as Hr
    by (unfold getResultFolders, bind; by rewrite Hl).
  assert (renameSnappyHexMeshFolders false w = (Raised OSError, w)) as Hrestore
    by (unfold renameSnappyHexMeshFolders, bind; cbn [negb]; by rewrite Hl).
  repeat split; try done.
  - unfold renameSnappyHexMeshFolders, bind. cbn [negb]. by rewrite Hm.
  - unfold removeSnappyHexMeshFolders, bind. by rewrite Hrestore.
  - unfold removeResultFolders, bind. by rewrite Hr.
Qed.

Lemma elem_of_str_sort (l : list string) (s : string) :
  s ∈ PyStr.str <$> merge_sort N.le (PyStr.int <$> l)
  ↔ ∃ name, name ∈ l ∧ s = PyStr.str (PyStr.int name).
Proof.
  rewrite list_elem_of_fmap. setoid_rewrite merge_sort_Permutation.
  setoid_rewrite list_elem_of_fmap. split.
  - intros (n & -> & name & -> & Hin). by exists name.
  - intros (name & Hin & ->). exists (PyStr.int name). split; [done|]. by exists name.
Qed.

(** Both listings return, for each selected name, the numeral of its value,
    once per folder: a folder named with leading zeros is listed under a
    name that is not its own. *)
Theorem listed_under_numerals (w : world) (m : gmap string entry) :
  root w = Some (Dir m) →
  ∃ ms rs,
    getSnappyHexMeshFolders w = (Ok ms, w) ∧
    getResultFolders w = (Ok rs, w) ∧
    (∀ s, s ∈ ms ↔ ∃ name, name ∈ mesh_names w ∧ s = PyStr.str (PyStr.int name)) ∧
    (∀ s, s ∈ rs ↔ ∃ name, name ∈ result_names w ∧ s = PyStr.str (PyStr.int name)) ∧
    length ms = length (mesh_names w) ∧
    length rs = length (result_names w) ∧
    (∀ s, s ∈ ms ∨ s ∈ rs → PyStr.str (PyStr.int s) = s).
Proof.
  intros Hr. eexists _, _.
  split; [by apply (getSnappyHexMeshFolders_dir w m)|].
  split; [by apply (getResultFolders_dir w m)|].
  split; [apply elem_of_str_sort|]. split; [apply elem_of_str_sort|].
  split; [by rewrite length_fmap, merge_sort_Permutation, length_fmap|].
  split; [by rewrite length_fmap, merge_sort_Permutation, length_fmap|].
  intros s [Hs|Hs]; apply elem_of_str_sort in Hs as (name & _ & ->);
    by rewrite int_str.
Qed.

Lemma listed_under_numerals_witness :
  ∃ ms rs,
    getSnappyHexMeshFolders Samples2.leading_zeros = (Ok ms, Samples2.leading_zeros) ∧
    getResultFolders Samples2.leading_zeros = (Ok rs, Samples2.leading_zeros) ∧
    (∀ s, s ∈ ms ↔ ∃ name, name ∈ mesh_names Samples2.leading_zeros
                           ∧ s = PyStr.str (PyStr.int name)) ∧
    (∀ s, s ∈ rs ↔ ∃ name, name ∈ result_names Samples2.leading_zeros
                           ∧ s = PyStr.str (PyStr.int name)) ∧
    length ms = length (mesh_names Samples2.leading_zeros) ∧
    length rs = length (result_names Samples2.leading_zeros) ∧
    (∀ s, s ∈ ms ∨ s ∈ rs → PyStr.str (PyStr.int s) = s).
Proof. eapply listed_under_numerals. reflexivity. Defined.

End Listings.

Lemma lifecycle_needs_project_directory_witness :
  Case.getSnappyHexMeshFolders (Samples2.nowhere Windows)
  = (Raised OSError, Samples2.nowhere Windows) ∧
  Case.getResultFolders (Samples2.nowhere Windows)
  = (Raised OSError, Samples2.nowhere Windows) ∧
  Case.renameSnappyHexMeshFolders true (Samples2.nowhere Windows)
  = (Raised OSError, Samples2.nowhere Windows) ∧
  Case.renameSnappyHexMeshFolders false (Samples2.nowhere Windows)
  = (Raised OSError, Samples2.nowhere Windows) ∧
  Case.removeSnappyHexMeshFolders (Samples2.nowhere Windows)
  = (Raised OSError, Samples2.nowhere Windows) ∧
  Case.removeResultFolders (Samples2.nowhere Windows)
  = (Raised OSError, Samples2.nowhere Windows).
Proof. apply lifecycle_needs_project_directory. intros m. discriminate. Defined.

(** ** What the removals leave on disk *)

Section RemovalEffects.
Import Case Props Props2.

Lemma isdir_top (w : world) (m : gmap string entry) (name : string) :
  root w = Some (Dir m) →
  os_path_isdir [name] w = match m !! name with Some (Dir _) => true | _ => false end.
Proof. intros Hr. unfold os_path_isdir. by rewrite (lookup_path_top w m name Hr). Qed.

Lemma removable_top (w : world) (m : gmap string entry) (name : string) :
  root w = Some (Dir m) →
  removable w name
  = match m !! name with Some (Dir _) => true | _ => false end
    && negb (bool_decide (name ∈ locked w)).
Proof. intros Hr. unfold removable. by rewrite (isdir_top w m name Hr). Qed.

(** [rmtree] of a name directly under the project directory. *)
Lemma rmtree_top (name : string) (w : world) (m : gmap string entry) :
  root w = Some (Dir m) →
  rmtree [name] w
  = if removable w name
    then (Ok tt, set_root (Some (Dir (delete name m))) (log_call (Rmtree [name] false) w))
    else (Raised OSError, log_call (Rmtree [name] false) w).
Proof.
  intros Hr. unfold rmtree, removable. rewrite (isdir_top w m name Hr).
  rewrite (lookup_path_top w m name Hr), Hr. cbn.
  destruct (m !! name) as [[c|m']|]; try done.
  by destruct (bool_decide (name ∈ locked w)).
Qed.

(** One round of [removeResultFolders]'s loop, on the directory. *)
Lemma remove_result_top (f : string) (w : world) (m : gmap string entry) :
  root w = Some (Dir m) →
  ∃ w', remove_result f w = (Ok tt, w') ∧
        locked w' = locked w ∧
        root w' = Some (Dir (if removable w f then delete f m else m)).
Proof.
  intros Hr. unfold remove_result, try_except. rewrite (rmtree_top f w m Hr).
  destruct (removable w f); eexists; (split; [reflexivity|]); by cbn.
Qed.

Lemma removable_same (w w' : world) (name : string) :
  root w' = root w → locked w' = locked w → removable w' name = removable w name.
Proof.
  intros Hr Hl. unfold removable, os_path_isdir, lookup_path. by rewrite Hr, Hl.
Qed.

(** The loop of [removeResultFolders] in the model: the names of the list
    that are directories and not protected are gone; the model leaves
    everything else as before, a refused folder included. *)
Lemma result_loop_effect (fs : list string) (w : world) (m : gmap string entry) :
  root w = Some (Dir m) →
  ∃ w' m',
    for_each fs remove_result w = (Ok tt, w') ∧
    root w' = Some (Dir m') ∧
    locked w' = locked w ∧
    ∀ name, m' !! name
            = if bool_decide (name ∈ fs) && removable w name then None else m !! name.
Proof.
  revert w m. induction fs as [|f fs IH]; intros w m Hr.
  - exists w, m. repeat split; try done.
  - destruct (remove_result_top f w m Hr) as (w1 & Hrun1 & Hl1 & Hr1).
    destruct (IH w1 _ Hr1) as (w' & m' & Hrun & Hr' & Hl' & Hlook).
    exists w', m'. split; [|split; [done|split; [congruence|]]].
    { cbn [for_each]. unfold bind at 1. by rewrite Hrun1. }
    intros name. rewrite Hlook.
    assert (removable w1 name
            = removable w name && negb (bool_decide (name = f) && removable w f))
      as ->.
    { rewrite (removable_top w1 _ name Hr1), Hl1.
      destruct (decide (name = f)) as [->|Hne].
      - rewrite (bool_decide_eq_true_2 (f = f)) by done.
        destruct (removable w f) eqn:E; cbn.
        + by rewrite lookup_delete_eq.
        + by rewrite <- (removable_top w m f Hr).
      - rewrite (bool_decide_eq_false_2 (name = f)) by done. cbn.
        rewrite andb_true_r, (removable_top w m name Hr).
        destruct (removable w f); [by rewrite lookup_delete_ne|done]. }
    destruct (decide (name = f)) as [->|Hne].
    + rewrite (bool_decide_eq_true_2 (f ∈ f :: fs)) by by left.
      rewrite (bool_decide_eq_true_2 (f = f)) by done. cbn.
      destruct (removable w f) eqn:E; cbn.
      * rewrite andb_false_r. by rewrite lookup_delete_eq.
      * by rewrite andb_false_r.
    + rewrite (bool_decide_eq_false_2 (name = f)) by done. cbn. rewrite andb_true_r.
      rewrite (bool_decide_ext (name ∈ f :: fs) (name ∈ fs)) by set_solver.
      destruct (removable w f); [by rewrite lookup_delete_ne|done].
Qed.

(** [removeResultFolders] never raises on a project directory. A name it
    was given by [getResultFolders] is gone when it is a directory the
    system lets go; a directory the system refuses to remove is still a
    directory afterwards, whatever is left in it; every other entry is as
    it was. *)
Theorem removeResultFolders_effect (w : world) (m : gmap string entry) :
  root w = Some (Dir m) →
  ∃ rs w',
    getResultFolders w = (Ok rs, w) ∧
    removeResultFolders w = (Ok tt, w') ∧
    ∀ name,
      (name ∈ rs → removable w name = true → lookup_path [name] w' = None) ∧
      (name ∈ rs → os_path_isdir [name] w = true → name ∈ locked w →
       os_path_isdir [name] w' = true) ∧
      (name ∉ rs ∨ os_path_isdir [name] w = false →
       lookup_path [name] w' = lookup_path [name] w).
Proof.
  intros Hr.
  set (rs := PyStr.str <$> merge_sort N.le (PyStr.int <$> result_names w)).
  destruct (result_loop_effect rs w m Hr) as (w' & m' & Hrun & Hr' & Hl & Hlook).
  exists rs, w'. split; [by apply (getResultFolders_dir w m)|]. split.
  - unfold removeResultFolders, bind at 1.
    by rewrite (getResultFolders_dir w m Hr).
  - intros name.
    assert (lookup_path [name] w'
            = if bool_decide (name ∈ rs) && removable w name then None
              else lookup_path [name] w) as Hname
      by by rewrite (lookup_path_top w' m' name Hr'),
                    (lookup_path_top w m name Hr), Hlook.
    split; [|split].
    + intros Hin Hrem. by rewrite Hname, Hrem, bool_decide_eq_true_2.
    + intros Hin Hd Hlock. unfold os_path_isdir in *. rewrite Hname.
      unfold removable, os_path_isdir. rewrite (bool_decide_eq_true_2 _ Hlock).
      by rewrite andb_false_r, andb_false_r.
    + intros Hout. rewrite Hname. destruct Hout as [Hout|Hout].
      * by rewrite bool_decide_eq_false_2.
      * unfold removable. by rewrite Hout, andb_false_r.
Qed.

Lemma removeResultFolders_effect_witness :
  ∃ rs w',
    getResultFolders Samples2.meshed = (Ok rs, Samples2.meshed) ∧
    removeResultFolders Samples2.meshed = (Ok tt, w') ∧
    ∀ name,
      (name ∈ rs → removable Samples2.meshed name = true →
       lookup_path [name] w' = None) ∧
      (name ∈ rs → os_path_isdir [name] Samples2.meshed = true →
       name ∈ locked Samples2.meshed → os_path_isdir [name] w' = true) ∧
      (name ∉ rs ∨ os_path_isdir [name] Samples2.meshed = false →
       lookup_path [name] w' = lookup_path [name] Samples2.meshed).
Proof. eapply removeResultFolders_effect. reflexivity. Defined.

(** [removeResultFolders] on folders named by numerals, in terms of the
    directory of the model. *)
Lemma removeResultFolders_run (w : world) (m : gmap string entry) :
  root w = Some (Dir m) →
  numeral_names w →
  ∃ w' m',
    removeResultFolders w = (Ok tt, w') ∧
    root w' = Some (Dir m') ∧
    locked w' = locked w ∧
    ∀ name, m' !! name
            = if is_result_name w name && negb (bool_decide (name ∈ locked w))
              then None else m !! name.
Proof.
  intros Hr Hnum.
  set (rs := PyStr.str <$> merge_sort N.le (PyStr.int <$> result_names w)).
  assert (rs ≡ₚ result_names w) as Hperm
    by by apply str_sort_int_perm, result_names_numeral.
  destruct (result_loop_effect rs w m Hr) as (w' & m' & Hrun & Hr' & Hl & Hlook).
  exists w', m'. split; [|split; [done|split; [done|]]].
  - unfold removeResultFolders, bind at 1.
    by rewrite (getResultFolders_dir w m Hr).
  - intros name. rewrite Hlook.
    rewrite (bool_decide_ext (name ∈ rs) (name ∈ result_names w)) by by rewrite Hperm.
    destruct (is_result_name w name) eqn:E.
    + assert (os_path_isdir [name] w = true) as Hd.
      { unfold is_result_name in E.
        apply andb_true_iff in E as [E _]. by apply andb_true_iff in E as [_ E]. }
      rewrite bool_decide_eq_true_2.
      2:{ unfold result_names. apply list_elem_of_filter. split; [by rewrite E|].
          by apply (isdir_below w name []) in Hd as [? _]. }
      unfold removable. by rewrite Hd.
    + rewrite bool_decide_eq_false_2; [done|].
      unfold result_names. rewrite list_elem_of_filter, E. by intros [[] _].
Qed.

(** On folders named by numerals [removeResultFolders] removes the result
    folders the system lets go; a result folder the system refuses to
    remove is still a directory afterwards; and everything that is not a
    result folder, mesh snapshots, the folder [0], files and every other
    folder, is as it was. *)
Theorem removeResultFolders_removes_results_only (w : world) (m : gmap string entry) :
  root w = Some (Dir m) →
  numeral_names w →
  ∃ w',
    removeResultFolders w = (Ok tt, w') ∧
    ∀ name,
      (is_result_name w name = true → name ∉ locked w →
       lookup_path [name] w' = None) ∧
      (is_result_name w name = true → name ∈ locked w →
       os_path_isdir [name] w' = true) ∧
      (is_result_name w name = false →
       lookup_path [name] w' = lookup_path [name] w).
Proof.
  intros Hr Hnum.
  destruct (removeResultFolders_run w m Hr Hnum) as (w' & m' & Hrun & Hr' & _ & Hlook).
  exists w'. split; [done|]. intros name.
  assert (lookup_path [name] w'
          = if is_result_name w name && negb (bool_decide (name ∈ locked w))
            then None else lookup_path [name] w) as Hname
    by by rewrite (lookup_path_top w' m' name Hr'), (lookup_path_top w m name Hr), Hlook.
  split; [|split].
  - intros Hres Hfree. by rewrite Hname, Hres, bool_decide_eq_false_2.
  - intros Hres Hlock. unfold os_path_isdir at 1.
    rewrite Hname, Hres, (bool_decide_eq_true_2 _ Hlock). cbn [negb andb].
    unfold is_result_name in Hres.
    apply andb_true_iff in Hres as [Hres _]. by apply andb_true_iff in Hres as [_ Hres].
  - intros Hres. by rewrite Hname, Hres.
Qed.

Lemma removeResultFolders_removes_results_only_witness :
  ∃ w',
    removeResultFolders Samples.first_result_locked = (Ok tt, w') ∧
    ∀ name,
      (is_result_name Samples.first_result_locked name = true →
       name ∉ locked Samples.first_result_locked →
       lookup_path [name] w' = None) ∧
      (is_result_name Samples.first_result_locked name = true →
       name ∈ locked Samples.first_result_locked →
       os_path_isdir [name] w' = true) ∧
      (is_result_name Samples.first_result_locked name = false →
       lookup_path [name] w' = lookup_path [name] Samples.first_result_locked).
Proof.
  eapply removeResultFolders_removes_results_only.
  - reflexivity.
  - apply (bool_decide_unpack _). vm_compute. exact I.
Defined.

(** A result folder named with leading zeros is listed under the numeral of
    its value, so [removeResultFolders] removes whatever directory bears
    that numeral, a mesh snapshot included, and leaves the folder itself. *)
Theorem leading_zeros_remove_another_folder
    (w : world) (m : gmap string entry) (name : string) :
  root w = Some (Dir m) →
  name ∈ result_names w →
  PyStr.str (PyStr.int name) ≠ name →
  ∃ w',
    removeResultFolders w = (Ok tt, w') ∧
    lookup_path [name] w' = lookup_path [name] w ∧
    (removable w (PyStr.str (PyStr.int name)) = true →
     lookup_path [PyStr.str (PyStr.int name)] w' = None).
Proof.
  intros Hr Hin Hne.
  set (rs := PyStr.str <$> merge_sort N.le (PyStr.int <$> result_names w)).
  destruct (result_loop_effect rs w m Hr) as (w' & m' & Hrun & Hr' & Hl & Hlook).
  exists w'. split; [|split].
  - unfold removeResultFolders, bind at 1.
    by rewrite (getResultFolders_dir w m Hr).
  - rewrite (lookup_path_top w' m' name Hr'), (lookup_path_top w m name Hr), Hlook.
    rewrite bool_decide_eq_false_2; [done|].
    intros (name' & _ & Heq)%elem_of_str_sort. apply Hne.
    by rewrite Heq, int_str.
  - intros Hrem. rewrite (lookup_path_top w' m' _ Hr'), Hlook, Hrem.
    rewrite bool_decide_eq_true_2; [done|].
    apply elem_of_str_sort. by exists name.
Qed.

Lemma leading_zeros_remove_another_folder_witness :
  ∃ w',
    removeResultFolders Samples2.leading_zeros = (Ok tt, w') ∧
    lookup_path ["007"] w' = lookup_path ["007"] Samples2.leading_zeros ∧
    (removable Samples2.leading_zeros (PyStr.str (PyStr.int "007")) = true →
     lookup_path [PyStr.str (PyStr.int "007")] w' = None).
Proof.
  eapply (leading_zeros_remove_another_folder Samples2.leading_zeros _ "007").
  - reflexivity.
  - vm_compute. repeat constructor.
  - vm_compute. discriminate.
Defined.

End RemovalEffects.

(** ** Snapshots: removal, and what a freeze hides *)

Section Snapshots.
Import Case Props Props2.

(** The restore loop does nothing where no frozen snapshot is met. *)
Lemma restore_loop_idle (names : list string) (w : world) :
  (∀ n, n ∈ names →
        PyStr.endswith n ".org" && os_path_isdir [n; "polyMesh"] w = false) →
  for_each names restore_one w = (Ok tt, w).
Proof.
  induction names as [|n names IH]; intros H; [done|].
  cbn [for_each]. unfold bind at 1.
  assert (restore_one n w = (Ok tt, w)) as ->.
  { unfold restore_one, bind, get_state. by rewrite H by left. }
  apply IH. intros n' Hn'. apply H. by right.
Qed.

Lemma remove_snapshot_top (f : string) (w : world) (m : gmap string entry) :
  root w = Some (Dir m) → removable w f = true →
  remove_snapshot f w
  = (Ok tt, set_root (Some (Dir (delete f m))) (log_call (Rmtree [f] false) w)).
Proof.
  intros Hr Hrem. unfold remove_snapshot, try_except.
  by rewrite (rmtree_top f w m Hr), Hrem.
Qed.

(** The loop of [removeSnappyHexMeshFolders] on folders the system lets go. *)
Lemma snapshot_loop_effect (fs : list string) (w : world) (m : gmap string entry) :
  NoDup fs →
  (∀ f, f ∈ fs → removable w f = true) →
  root w = Some (Dir m) →
  ∃ w' m',
    for_each fs remove_snapshot w = (Ok tt, w') ∧
    root w' = Some (Dir m') ∧
    locked w' = locked w ∧
    stdout w' = stdout w ∧
    ∀ name, m' !! name = if bool_decide (name ∈ fs) then None else m !! name.
Proof.
  revert w m. induction fs as [|f fs IH]; intros w m Hnd Hrem Hr.
  - exists w, m. repeat split; try done.
  - apply NoDup_cons in Hnd as [Hf Hnd].
    pose proof (remove_snapshot_top f w m Hr (Hrem f ltac:(by left))) as Hrun1.
    set (w1 := set_root (Some (Dir (delete f m))) (log_call (Rmtree [f] false) w)) in *.
    destruct (IH w1 (delete f m) Hnd) as (w' & m' & Hrun & Hr' & Hl & Hs & Hlook);
      [|done|].
    { intros g Hg. rewrite (removable_top w1 (delete f m) g eq_refl).
      rewrite lookup_delete_ne by (intros ->; done).
      change (locked w1) with (locked w).
      rewrite <- (removable_top w m g Hr). apply Hrem. by right. }
    exists w', m'. split; [|repeat split; try done].
    { cbn [for_each]. unfold bind at 1. by rewrite Hrun1. }
    intros name. rewrite Hlook. destruct (decide (name = f)) as [->|Hne].
    + rewrite (bool_decide_eq_true_2 (f ∈ f :: fs)) by by left.
      rewrite lookup_delete_eq. by destruct (bool_decide (f ∈ fs)).
    + rewrite (bool_decide_ext (name ∈ f :: fs) (name ∈ fs)) by set_solver.
      by rewrite lookup_delete_ne.
Qed.

Lemma is_mesh_name_top (w : world) (m : gmap string entry) (name : string) :
  root w = Some (Dir m) →
  is_mesh_name w name = PyStr.isdigit name && has_mesh (m !! name).
Proof. intros Hr. unfold is_mesh_name. by rewrite (isdir_mesh w m name Hr). Qed.

Lemma has_mesh_isdir (e : option entry) :
  has_mesh e = true → match e with Some (Dir _) => true | _ => false end = true.
Proof. by destruct e as [[c|m]|]. Qed.

Lemma is_result_name_top (w : world) (m : gmap string entry) (name : string) :
  root w = Some (Dir m) →
  is_result_name w name
  = negb (bool_decide (name = "0")) && PyStr.isdigit name
    && match m !! name with Some (Dir _) => true | _ => false end
    && negb (has_mesh (m !! name)).
Proof.
  intros Hr. unfold is_result_name.
  by rewrite (isdir_mesh w m name Hr), (isdir_top w m name Hr).
Qed.

(** No snapshot is listed where no numbered folder holds a mesh. *)
Lemma no_snapshots (w : world) (m : gmap string entry) :
  root w = Some (Dir m) →
  (∀ name, PyStr.isdigit name = true → has_mesh (m !! name) = false) →
  getSnappyHexMeshFolders w = (Ok [], w).
Proof.
  intros Hr Hno. rewrite (getSnappyHexMeshFolders_dir w m Hr).
  assert (mesh_names w = []) as ->; [|done].
  apply filter_none, Forall_forall. intros name _.
  rewrite (is_mesh_name_top w m name Hr).
  destruct (PyStr.isdigit name) eqn:Hd; [|by intros []].
  rewrite (Hno name Hd). by intros [].
Qed.

Lemma elem_of_result_names_bool (w : world) (name : string) :
  name ∈ result_names w ↔ is_result_name w name = true.
Proof.
  unfold result_names. rewrite list_elem_of_filter, Is_true_true. split; [tauto|].
  intros H. split; [done|]. unfold is_result_name in H.
  apply andb_true_iff in H as [H _]. apply andb_true_iff in H as [_ H].
  by apply (isdir_below w name []) in H as [? _].
Qed.

(** The sorted listing depends on the names only, not on their order. *)
Lemma str_sort_int_order (l1 l2 : list string) :
  l1 ≡ₚ l2 →
  PyStr.str <$> merge_sort N.le (PyStr.int <$> l1)
  = PyStr.str <$> merge_sort N.le (PyStr.int <$> l2).
Proof.
  intros Hp. f_equal. apply (StronglySorted_unique N.le).
  - apply StronglySorted_merge_sort; apply _.
  - apply StronglySorted_merge_sort; apply _.
  - by rewrite !merge_sort_Permutation, Hp.
Qed.

(** Two states that agree on which names are result folders give the same
    list of result folders. *)
Lemma result_folders_same (w w' : world) (m m' : gmap string entry) :
  root w = Some (Dir m) → root w' = Some (Dir m') →
  (∀ name, is_result_name w' name = is_result_name w name) →
  ∃ rs, getResultFolders w = (Ok rs, w) ∧ getResultFolders w' = (Ok rs, w').
Proof.
  intros Hr Hr' Hsame. eexists. split; [by apply (getResultFolders_dir w m)|].
  rewrite (getResultFolders_dir w' m' Hr'). do 2 f_equal.
  apply str_sort_int_order, NoDup_Permutation.
  - apply NoDup_filter, listing_NoDup.
  - apply NoDup_filter, listing_NoDup.
  - intros name. by rewrite !elem_of_result_names_bool, Hsame.
Qed.

(** [removeSnappyHexMeshFolders] where nothing is frozen and no snapshot is
    protected, in terms of the directory. *)
Lemma removeSnappyHexMeshFolders_run (w : world) (m : gmap string entry) :
  root w = Some (Dir m) →
  numeral_names w →
  Forall (λ n, PyStr.endswith n ".org" = true →
               os_path_isdir [n; "polyMesh"] w = false) (listing w) →
  Forall (λ f, f ∉ locked w) (mesh_names w) →
  ∃ w' m',
    removeSnappyHexMeshFolders w = (Ok tt, w') ∧
    root w' = Some (Dir m') ∧
    locked w' = locked w ∧
    stdout w' = stdout w ∧
    ∀ name, m' !! name = if is_mesh_name w name then None else m !! name.
Proof.
  intros Hr Hnum Hplain Hfree.
  set (fs := PyStr.str <$> merge_sort N.le (PyStr.int <$> mesh_names w)).
  assert (fs ≡ₚ mesh_names w) as Hperm
    by by apply str_sort_int_perm, mesh_names_numeral.
  destruct (snapshot_loop_effect fs w m) as (w' & m' & Hrun & Hr' & Hl & Hs & Hlook);
    try done.
  { rewrite Hperm. apply mesh_names_NoDup. }
  { intros f Hf. rewrite Hperm in Hf.
    pose proof (proj1 (Forall_forall _ _) Hfree f Hf) as Hfree_f.
    apply elem_of_mesh_names in Hf as [_ Hm].
    apply (isdir_below w f ["polyMesh"]) in Hm as [_ Hd].
    unfold removable. rewrite Hd. cbn. by rewrite bool_decide_eq_false_2. }
  assert (∀ name, bool_decide (name ∈ fs) = is_mesh_name w name) as Hfs.
  { intros name. rewrite (bool_decide_ext (name ∈ fs) (name ∈ mesh_names w))
      by by rewrite Hperm.
    destruct (is_mesh_name w name) eqn:E.
    - apply bool_decide_eq_true_2, elem_of_mesh_names.
      by apply andb_true_iff in E.
    - apply bool_decide_eq_false_2. rewrite elem_of_mesh_names.
      intros [Hd Hm]. unfold is_mesh_name in E. by rewrite Hd, Hm in E. }
  exists w', m'. split; [|repeat split; try done].
  - unfold removeSnappyHexMeshFolders, bind at 1.
    assert (renameSnappyHexMeshFolders false w = (Ok tt, w)) as ->.
    { unfold renameSnappyHexMeshFolders. cbn [negb]. unfold bind at 1.
      rewrite (listdir_dir w m Hr). apply restore_loop_idle. intros n Hn.
      destruct (PyStr.endswith n ".org") eqn:He; [|done]. cbn.
      by apply (proj1 (Forall_forall _ _) Hplain n Hn). }
    unfold bind at 1. by rewrite (getSnappyHexMeshFolders_dir w m Hr).
  - intros name. by rewrite Hlook, Hfs.
Qed.

(** A numbered folder that holds a mesh is no result folder, so the result
    folders are the same once the snapshots are gone. *)
Lemma result_names_without_snapshots (w w' : world) (m m' : gmap string entry) :
  root w = Some (Dir m) → root w' = Some (Dir m') →
  (∀ name, PyStr.isdigit name = true →
           m' !! name = if is_mesh_name w name then None else m !! name) →
  ∀ name, is_result_name w' name = is_result_name w name.
Proof.
  intros Hr Hr' Hlook name.
  rewrite (is_result_name_top w' m' name Hr'), (is_result_name_top w m name Hr).
  destruct (PyStr.isdigit name) eqn:Hd; [|by rewrite !andb_false_r].
  rewrite (Hlook name Hd), (is_mesh_name_top w m name Hr), Hd. cbn.
  destruct (has_mesh (m !! name)) eqn:E; [|by rewrite E].
  cbn. by rewrite !andb_false_r.
Qed.

(** [removeSnappyHexMeshFolders] on a case with no frozen snapshot and no
    protected one: it succeeds without printing, the snapshots are gone and
    every other entry is as it was; afterwards no snapshot is listed and
    the result folders are those listed before. *)
Theorem removeSnappyHexMeshFolders_effect (w : world) (m : gmap string entry) :
  root w = Some (Dir m) →
  numeral_names w →
  Forall (λ n, PyStr.endswith n ".org" = true →
               os_path_isdir [n; "polyMesh"] w = false) (listing w) →
  Forall (λ f, f ∉ locked w) (mesh_names w) →
  ∃ w' rs,
    removeSnappyHexMeshFolders w = (Ok tt, w') ∧
    stdout w' = stdout w ∧
    (∀ name, lookup_path [name] w'
             = if is_mesh_name w name then None else lookup_path [name] w) ∧
    getSnappyHexMeshFolders w' = (Ok [], w') ∧
    getResultFolders w = (Ok rs, w) ∧
    getResultFolders w' = (Ok rs, w').
Proof.
  intros Hr Hnum Hplain Hfree.
  destruct (removeSnappyHexMeshFolders_run w m Hr Hnum Hplain Hfree)
    as (w' & m' & Hrun & Hr' & _ & Hs & Hlook).
  destruct (result_folders_same w w' m m' Hr Hr') as (rs & Hrs & Hrs').
  { apply (result_names_without_snapshots w w' m m' Hr Hr'). intros name _. apply Hlook. }
  exists w', rs. split; [done|]. split; [done|]. split.
  - intros name. by rewrite (lookup_path_top w' m' name Hr'),
                            (lookup_path_top w m name Hr), Hlook.
  - split; [|done]. apply (no_snapshots w' m' Hr'). intros name Hd.
    rewrite Hlook, (is_mesh_name_top w m name Hr), Hd. cbn.
    by destruct (has_mesh (m !! name)) eqn:E.
Qed.

Lemma removeSnappyHexMeshFolders_effect_witness :
  ∃ w' rs,
    removeSnappyHexMeshFolders Samples2.meshed = (Ok tt, w') ∧
    stdout w' = stdout Samples2.meshed ∧
    (∀ name, lookup_path [name] w'
             = if is_mesh_name Samples2.meshed name then None
               else lookup_path [name] Samples2.meshed) ∧
    getSnappyHexMeshFolders w' = (Ok [], w') ∧
    getResultFolders Samples2.meshed = (Ok rs, Samples2.meshed) ∧
    getResultFolders w' = (Ok rs, w').
Proof.
  eapply removeSnappyHexMeshFolders_effect.
  - reflexivity.
  - apply (bool_decide_unpack _). vm_compute. exact I.
  - apply (bool_decide_unpack _). vm_compute. exact I.
  - apply (bool_decide_unpack _). vm_compute. exact I.
Defined.

End Snapshots.

(** ** Freezing: what it hides, and where it stops *)

Section Freezing.
Import Case Props Props2.

Lemma os_rename_platform (src dst : string) (w w' : world) (r : outcome unit) :
  os_rename src dst w = (r, w') →
  platform_of w' = platform_of w ∧ locked w' = locked w ∧ stdout w' = stdout w.
Proof.
  unfold os_rename. intros H.
  destruct (root w) as [[c|m]|]; try (by inversion H).
  destruct (m !! src) as [e|]; try (by inversion H).
  destruct (bool_decide (dst = "")); try (by inversion H).
  destruct (bool_decide (src = dst)); try (by inversion H).
  destruct (m !! dst) as [d|]; try (by inversion H).
  destruct (replaceable (platform_of w) e d); by inversion H.
Qed.

Lemma freeze_one_platform (f : string) (w w' : world) (r : outcome unit) :
  freeze_one f w = (r, w') →
  platform_of w' = platform_of w ∧ locked w' = locked w ∧ stdout w' = stdout w.
Proof.
  unfold freeze_one, try_except, raise.
  destruct (os_rename f (f +:+ ".org") w) as [[[]|e] w1] eqn:E; intros [= <- <-];
    by apply os_rename_platform in E.
Qed.

Lemma freeze_loop_platform (fs : list string) (w w' : world) (r : outcome unit) :
  for_each fs freeze_one w = (r, w') →
  platform_of w' = platform_of w ∧ locked w' = locked w ∧ stdout w' = stdout w.
Proof.
  revert w. induction fs as [|f fs IH]; intros w; [by intros [= <- <-]|].
  cbn [for_each]. unfold bind at 1.
  destruct (freeze_one f w) as [[[]|e] w1] eqn:E.
  - intros H. apply IH in H as (-> & -> & ->). by apply freeze_one_platform in E.
  - intros [= <- <-]. by apply freeze_one_platform in E.
Qed.

(** The freeze of the snapshots of [w], with the state it leaves. *)
Lemma freeze_all (w : world) (m : gmap string entry) :
  root w = Some (Dir m) →
  numeral_names w →
  Forall (λ f, org f ∉ listing w) (mesh_names w) →
  ∃ w1 m1,
    renameSnappyHexMeshFolders true w = (Ok tt, w1) ∧
    root w1 = Some (Dir m1) ∧
    Frozen (list_to_set (mesh_names w)) m m1 ∧
    locked w1 = locked w ∧ stdout w1 = stdout w.
Proof.
  intros Hr Hnum Hfree.
  set (fs := PyStr.str <$> merge_sort N.le (PyStr.int <$> mesh_names w)).
  assert (fs ≡ₚ mesh_names w) as Hperm
    by by apply str_sort_int_perm, mesh_names_numeral.
  assert (∀ f, f ∈ fs → freezable m f) as Hfs.
  { intros f Hf. rewrite Hperm in Hf.
    pose proof (proj1 (Forall_forall _ _) Hfree f Hf) as Hfree_f.
    apply elem_of_mesh_names in Hf as [Hd Hm].
    rewrite (isdir_mesh w m f Hr) in Hm. repeat split; try done.
    apply eq_None_not_Some. intros Hs. apply Hfree_f.
    by apply (elem_of_listing w m). }
  destruct (freeze_loop fs ∅ m m w) as (w1 & m1 & Hrun1 & Hr1 & HF1); try done.
  { rewrite Hperm. apply mesh_names_NoDup. }
  { intros n. by rewrite frozen_view_none. }
  destruct (freeze_loop_platform fs w w1 _ Hrun1) as (_ & Hl & Hs).
  exists w1, m1. split; [|repeat split; try done].
  - unfold renameSnappyHexMeshFolders. cbn [negb]. unfold bind at 1.
    by rewrite (getSnappyHexMeshFolders_dir w m Hr).
  - intros name. rewrite HF1. unfold frozen_view.
    assert (∀ g, g ∈ (list_to_set fs ∪ ∅ : gset string)
                 ↔ g ∈ (list_to_set (mesh_names w) : gset string)) as HU.
    { intros g. rewrite elem_of_union, !elem_of_list_to_set, Hperm. set_solver. }
    rewrite (bool_decide_ext _ _ (HU name)).
    destruct (unorg name) as [f|]; [|done].
    by rewrite (bool_decide_ext _ _ (HU f)).
Qed.

(** After a successful freeze no snapshot is listed any more, and the
    result folders are listed as before: the freeze hides the snapshots,
    and nothing else, from what reads the numbered folders. *)
Theorem freeze_hides_snapshots (w : world) (m : gmap string entry) :
  root w = Some (Dir m) →
  numeral_names w →
  Forall (λ f, org f ∉ listing w) (mesh_names w) →
  ∃ w1 rs,
    renameSnappyHexMeshFolders true w = (Ok tt, w1) ∧
    getSnappyHexMeshFolders w1 = (Ok [], w1) ∧
    getResultFolders w = (Ok rs, w) ∧
    getResultFolders w1 = (Ok rs, w1) ∧
    (∀ name, PyStr.isdigit name = true → is_mesh_name w name = false →
             lookup_path [name] w1 = lookup_path [name] w).
Proof.
  intros Hr Hnum Hfree.
  destruct (freeze_all w m Hr Hnum Hfree) as (w1 & m1 & Hrun & Hr1 & HF & _ & _).
  assert (∀ name, PyStr.isdigit name = true →
                  m1 !! name = if is_mesh_name w name then None else m !! name)
    as Hdig.
  { intros name Hd. rewrite HF, frozen_view_digits by done.
    rewrite (bool_decide_ext _ (name ∈ mesh_names w)) by apply elem_of_list_to_set.
    destruct (is_mesh_name w name) eqn:E.
    - rewrite bool_decide_eq_true_2; [done|].
      apply elem_of_mesh_names. by apply andb_true_iff in E.
    - rewrite bool_decide_eq_false_2; [done|]. rewrite elem_of_mesh_names.
      intros [_ Hm]. unfold is_mesh_name in E. by rewrite Hd, Hm in E. }
  destruct (result_folders_same w w1 m m1 Hr Hr1) as (rs & Hrs & Hrs').
  { intros name. rewrite (is_result_name_top w1 m1 name Hr1),
                         (is_result_name_top w m name Hr).
    destruct (PyStr.isdigit name) eqn:Hd; [|by rewrite !andb_false_r].
    rewrite (Hdig name Hd), (is_mesh_name_top w m name Hr), Hd. cbn.
    destruct (has_mesh (m !! name)) eqn:E; [|by rewrite E].
    cbn. by rewrite !andb_false_r. }
  exists w1, rs. repeat split; try done.
  - apply (no_snapshots w1 m1 Hr1). intros name Hd.
    rewrite (Hdig name Hd), (is_mesh_name_top w m name Hr), Hd. cbn.
    by destruct (has_mesh (m !! name)) eqn:E.
  - intros name Hd Hm.
    by rewrite (lookup_path_top w1 m1 name Hr1), (lookup_path_top w m name Hr),
               (Hdig name Hd), Hm.
Qed.

Lemma freeze_hides_snapshots_witness :
  ∃ w1 rs,
    renameSnappyHexMeshFolders true Samples2.meshed = (Ok tt, w1) ∧
    getSnappyHexMeshFolders w1 = (Ok [], w1) ∧
    getResultFolders Samples2.meshed = (Ok rs, Samples2.meshed) ∧
    getResultFolders w1 = (Ok rs, w1) ∧
    (∀ name, PyStr.isdigit name = true → is_mesh_name Samples2.meshed name = false →
             lookup_path [name] w1 = lookup_path [name] Samples2.meshed).
Proof.
  eapply freeze_hides_snapshots.
  - reflexivity.
  - apply (bool_decide_unpack _). vm_compute. exact I.
  - apply (bool_decide_unpack _). vm_compute. exact I.
Defined.

(** The freeze is not all-or-nothing: when the frozen name of a snapshot is
    taken by an entry the platform does not let a directory replace, the
    freeze raises [Exception] there; the snapshots before it in numeric
    order stay frozen, that snapshot and those after it keep their names. *)
Theorem freeze_stops_at_taken_name
    (w : world) (m : gmap string entry)
    (pre post : list string) (f : string) (d : entry) :
  root w = Some (Dir m) →
  numeral_names w →
  getSnappyHexMeshFolders w = (Ok (pre ++ f :: post), w) →
  Forall (λ g, org g ∉ listing w) pre →
  m !! org f = Some d →
  refuses_directory (platform_of w) d →
  ∃ w1,
    renameSnappyHexMeshFolders true w = (Raised Exception, w1) ∧
    Forall (λ g, lookup_path [g] w1 = None
                 ∧ lookup_path [org g] w1 = lookup_path [g] w) pre ∧
    Forall (λ g, lookup_path [g] w1 = lookup_path [g] w) (f :: post) ∧
    lookup_path [org f] w1 = Some d.
Proof.
  intros Hr Hnum Hlist Hfree Hd Hrefuse.
  rewrite (getSnappyHexMeshFolders_dir w m Hr) in Hlist.
  assert (PyStr.str <$> merge_sort N.le (PyStr.int <$> mesh_names w)
          = pre ++ f :: post) as Hfs by congruence.
  assert (pre ++ f :: post ≡ₚ mesh_names w) as Hperm.
  { rewrite <- Hfs. by apply str_sort_int_perm, mesh_names_numeral. }
  assert (NoDup (pre ++ f :: post)) as Hnd
    by (rewrite Hperm; apply mesh_names_NoDup).
  assert (∀ g, g ∈ pre ++ f :: post →
               PyStr.isdigit g = true ∧ has_mesh (m !! g) = true) as Hmesh.
  { intros g Hg. rewrite Hperm in Hg. apply elem_of_mesh_names in Hg as [? Hm].
    by rewrite (isdir_mesh w m g Hr) in Hm. }
  apply NoDup_app in Hnd as (Hndpre & Hdisj & Hndpost).
  apply NoDup_cons in Hndpost as [Hfpost Hndpost].
  destruct (freeze_loop pre ∅ m m w) as (wk & mk & Hrunk & Hrk & HFk); try done.
  { intros g Hg. destruct (Hmesh g) as [? ?]; [set_solver|]. repeat split; try done.
    apply eq_None_not_Some. intros Hs.
    apply (proj1 (Forall_forall _ _) Hfree g Hg).
    by apply (elem_of_listing w m). }
  { intros n. by rewrite frozen_view_none. }
  destruct (freeze_loop_platform pre w wk _ Hrunk) as (Hpf & _ & _).
  assert (∀ g, g ∈ (list_to_set pre ∪ ∅ : gset string) ↔ g ∈ pre) as HU
    by (intros g; set_solver).
  assert (∀ g, g ∈ (list_to_set pre ∪ ∅ : gset string) → PyStr.isdigit g = true)
    as HUd.
  { intros g Hg%HU. apply Hmesh. set_solver. }
  assert (∀ g, g ∈ f :: post → mk !! g = m !! g) as Hkeep.
  { intros g Hg. destruct (Hmesh g) as [Hdg _]; [set_solver|].
    rewrite HFk, frozen_view_digits by done.
    rewrite bool_decide_eq_false_2; [done|]. rewrite HU. intros Hgpre.
    apply (Hdisj g Hgpre Hg). }
  destruct (Hmesh f) as [Hdf Hmf]; [set_solver|].
  assert (mk !! org f = Some d) as Hkd.
  { rewrite HFk, frozen_view_org by by apply org_not_in.
    rewrite bool_decide_eq_false_2; [done|]. rewrite HU. intros Hfpre.
    apply (Hdisj f Hfpre). by left. }
  assert (freeze_one f wk
          = (Raised Exception, log_call (Rename f (f +:+ ".org")) wk)) as Hstop.
  { unfold freeze_one, try_except, os_rename. rewrite Hrk.
    rewrite (Hkeep f) by by left.
    destruct (m !! f) as [e|] eqn:He; [|done].
    change (f +:+ ".org") with (org f).
    rewrite (bool_decide_eq_false_2 (org f = "")) by apply org_nonempty.
    rewrite bool_decide_eq_false_2 by by apply digits_not_frozen.
    rewrite Hkd.
    destruct (has_mesh_dir e Hmf) as [me ->].
    by rewrite Hpf, Hrefuse. }
  exists (log_call (Rename f (f +:+ ".org")) wk). split; [|split; [|split]].
  - unfold renameSnappyHexMeshFolders. cbn [negb]. unfold bind at 1.
    rewrite (getSnappyHexMeshFolders_dir w m Hr), Hfs.
    by apply (for_each_stops pre post f freeze_one w wk).
  - apply Forall_forall. intros g Hg.
    rewrite !(lookup_path_top _ mk) by done. rewrite (lookup_path_top w m) by done.
    destruct (Hmesh g) as [Hdg _]; [set_solver|]. split.
    + rewrite HFk, frozen_view_digits by done.
      by rewrite bool_decide_eq_true_2 by by apply HU.
    + rewrite HFk, frozen_view_org by by apply org_not_in.
      by rewrite bool_decide_eq_true_2 by by apply HU.
  - apply Forall_forall. intros g Hg.
    rewrite (lookup_path_top _ mk) by done. rewrite (lookup_path_top w m) by done.
    by apply Hkeep.
  - by rewrite (lookup_path_top _ mk) by done.
Qed.

Lemma freeze_stops_at_taken_name_witness :
  ∃ w1,
    renameSnappyHexMeshFolders true Samples2.freeze_collision
    = (Raised Exception, w1) ∧
    Forall (λ g, lookup_path [g] w1 = None
                 ∧ lookup_path [org g] w1
                   = lookup_path [g] Samples2.freeze_collision) ["1"] ∧
    Forall (λ g, lookup_path [g] w1 = lookup_path [g] Samples2.freeze_collision)
           ("2" :: []) ∧
    lookup_path [org "2"] w1 = Some (File "").
Proof.
  eapply (freeze_stops_at_taken_name Samples2.freeze_collision _ ["1"] [] "2" (File "")).
  - reflexivity.
  - apply (bool_decide_unpack _). vm_compute. exact I.
  - vm_compute. reflexivity.
  - apply (bool_decide_unpack _). vm_compute. exact I.
  - vm_compute. reflexivity.
  - intros c. reflexivity.
Defined.

End Freezing.

(** ** [removePostProcessingFolder] *)

Section PostProcessing.
Import Case Props Props2.

(** [removePostProcessingFolder] never raises and touches no entry but
    [postProcessing]. Where that is no directory the call changes nothing
    at all; a directory the system lets go is gone and nothing is printed;
    a directory the system refuses to remove is still a directory
    afterwards, whatever is left in it, and one message is printed, which
    starts with the words of the handler. *)
Theorem removePostProcessingFolder_effect (w : world) :
  ∃ w',
    removePostProcessingFolder w = (Ok tt, w') ∧
    (∀ name, name ≠ "postProcessing" →
             lookup_path [name] w' = lookup_path [name] w) ∧
    (os_path_isdir ["postProcessing"] w = false → w' = w) ∧
    (removable w "postProcessing" = true →
     lookup_path ["postProcessing"] w' = None ∧ stdout w' = stdout w) ∧
    (os_path_isdir ["postProcessing"] w = true → "postProcessing" ∈ locked w →
     os_path_isdir ["postProcessing"] w' = true ∧
     ∃ text, stdout w'
             = stdout w ++ ["Failed to remove postProcessing folder:" +:+ nl +:+ text]).
Proof.
  unfold removePostProcessingFolder, bind, get_state.
  destruct (os_path_isdir ["postProcessing"] w) eqn:Hd; cbn [negb].
  - destruct (root w) as [[c|m]|] eqn:Hr;
      try (unfold os_path_isdir, lookup_path in Hd; by rewrite Hr in Hd).
    unfold try_except. rewrite (rmtree_top "postProcessing" w m Hr).
    unfold removable. rewrite Hd. cbn [andb].
    destruct (bool_decide ("postProcessing" ∈ locked w)) eqn:Hlock; cbn [negb].
    + eexists. split; [reflexivity|]. split; [done|]. split; [done|].
      split; [done|]. intros _ _. split; [exact Hd|]. by eexists.
    + eexists. split; [reflexivity|]. split; [|split; [done|split]].
      * intros name Hne. rewrite (lookup_path_top _ (delete "postProcessing" m)) by done.
        by rewrite (lookup_path_top w m name Hr), lookup_delete_ne.
      * intros _. rewrite (lookup_path_top _ (delete "postProcessing" m)) by done.
        by rewrite lookup_delete_eq.
      * intros _ Hin. apply bool_decide_eq_false in Hlock. done.
  - exists w. unfold removable. rewrite Hd. by repeat split.
Qed.

End PostProcessing.

(** ** The folders [save] creates *)

Section SaveFolders.
Import Case Props Props2.

Lemma same_kind_refl (e : entry) : same_kind e e.
Proof. by destruct e. Qed.

Lemma same_kind_trans (x y z : entry) : same_kind x y → same_kind y z → same_kind x z.
Proof. destruct x, y, z; cbn; try done. congruence. Qed.

Lemma grows_refl (w : world) : grows w w.
Proof. intros q e H. exists e. split; [done|apply same_kind_refl]. Qed.

Lemma grows_trans (w1 w2 w3 : world) : grows w1 w2 → grows w2 w3 → grows w1 w3.
Proof.
  intros H12 H23 q e H. destruct (H12 q e H) as (e2 & H2 & Hk2).
  destruct (H23 q e2 H2) as (e3 & H3 & Hk3). exists e3. split; [done|].
  by apply (same_kind_trans e e2 e3).
Qed.

(** [os.makedirs] ends with a directory at its path and removes nothing. *)
Lemma makedirs_in_grows (p : path) (r : option entry) (r' : entry) :
  makedirs_in p r = Some r' →
  (∃ d, resolve p r' = Some (Dir d)) ∧
  ∀ q e, r ≫= resolve q = Some e → ∃ e', resolve q r' = Some e' ∧ same_kind e e'.
Proof.
  revert r r'. induction p as [|c p IH]; intros r r'.
  - destruct r; [done|]. intros [= <-]. split; [by eexists|]. by intros q e.
  - cbn [makedirs_in]. destruct r as [[content|m]|]; [done| |].
    + destruct (makedirs_in p (m !! c)) as [d|] eqn:E; [|done]. intros [= <-].
      destruct (IH _ _ E) as [Hd Hq]. split.
      * cbn. by rewrite lookup_insert_eq.
      * intros [|c' q] e; cbn.
        { intros [= <-]. by eexists. }
        destruct (decide (c' = c)) as [->|Hne].
        -- rewrite lookup_insert_eq. cbn. intros H. by apply Hq.
        -- rewrite lookup_insert_ne by done. intros H. exists e.
           split; [done|apply same_kind_refl].
    + destruct (makedirs_in p None) as [d|] eqn:E; [|done]. intros [= <-].
      destruct (IH _ _ E) as [Hd Hq]. split; [|by intros q e].
      cbn. by rewrite lookup_singleton_eq.
Qed.

Lemma create_subfolder_grows (f : string) (w w' : world) :
  create_subfolder f w = (Ok tt, w') →
  platform_of w' = platform_of w ∧
  os_path_exists (components (platform_of w) f) w' = true ∧
  grows w w'.
Proof.
  unfold create_subfolder, bind, get_state, try_except, os_makedirs, raise, ret.
  destruct (os_path_exists (components (platform_of w) f) w) eqn:Hex; cbn [negb].
  - intros [= <-]. split; [done|]. split; [done|apply grows_refl].
  - destruct (makedirs_in (components (platform_of w) f) (root w)) as [r'|] eqn:E;
      [|done].
    intros [= <-]. destruct (makedirs_in_grows _ _ _ E) as [[d Hd] Hq].
    split; [done|]. split.
    + unfold os_path_exists, lookup_path. cbn. by rewrite Hd.
    + intros q e H. by apply Hq.
Qed.

Lemma exists_grows (p : path) (w w' : world) :
  grows w w' → os_path_exists p w = true → os_path_exists p w' = true.
Proof.
  unfold os_path_exists. intros Hg H.
  destruct (lookup_path p w) as [e|] eqn:E; [|done].
  destruct (Hg p e E) as (e' & -> & _). done.
Qed.

Lemma create_subfolders_grow (fs : list string) (w w' : world) :
  for_each fs create_subfolder w = (Ok tt, w') →
  platform_of w' = platform_of w ∧
  grows w w' ∧
  ∀ f, f ∈ fs → os_path_exists (components (platform_of w) f) w' = true.
Proof.
  revert w. induction fs as [|f fs IH]; intros w.
  - cbn. intros [= <-]. split; [done|]. split; [apply grows_refl|].
    intros f Hf. by apply elem_of_nil in Hf.
  - cbn [for_each]. unfold bind at 1.
    destruct (create_subfolder f w) as [[[]|e] w1] eqn:E1; [|done].
    intros Hrest. apply create_subfolder_grows in E1 as (Hp1 & Hex1 & Hg1).
    apply IH in Hrest as (Hp & Hg & Hex). split; [congruence|].
    split; [by apply (grows_trans w w1 w')|].
    intros f' [->|Hf']%elem_of_cons.
    + by apply (exists_grows _ w1 w').
    + rewrite <- Hp1. by apply Hex.
Qed.

(** Where every folder is there the loop of [save] does nothing at all. *)
Lemma create_subfolders_idle (fs : list string) (w : world) :
  (∀ f, f ∈ fs → os_path_exists (components (platform_of w) f) w = true) →
  for_each fs create_subfolder w = (Ok tt, w).
Proof.
  induction fs as [|f fs IH]; intros H; [done|].
  cbn [for_each]. unfold bind at 1.
  assert (create_subfolder f w = (Ok tt, w)) as ->.
  { unfold create_subfolder, bind, get_state. by rewrite H by left. }
  apply IH. intros f' Hf'. apply H. by right.
Qed.

(** When the folders of [save(overwrite=False)] can be made, the rest of
    the method runs on a project directory in which every path of
    [SUBFOLDERS] exists and nothing that was there has been removed or
    replaced: files keep their content and directories stay directories.
    A path that exists as a file counts as there and is left as it is.
    Saving again from that state issues no further [os.makedirs]. *)
Theorem save_keeps_what_is_there
    (write_contents : M world unit) (w w1 : world) :
  for_each SUBFOLDERS create_subfolder w = (Ok tt, w1) →
  save write_contents false w = write_contents w1 ∧
  Forall (λ f, os_path_exists (fullpath w f) w1 = true) SUBFOLDERS ∧
  grows w w1 ∧
  save write_contents false w1 = write_contents w1.
Proof.
  intros Hrun. destruct (create_subfolders_grow _ _ _ Hrun) as (Hp & Hg & Hex).
  split; [|split; [|split; [done|]]].
  - unfold save, bind at 1, get_state. cbn [andb]. unfold bind at 1, ret.
    unfold bind at 1. by rewrite Hrun.
  - apply Forall_forall. intros f Hf. by apply Hex.
  - unfold save, bind at 1, get_state. cbn [andb]. unfold bind at 1, ret.
    unfold bind at 1. rewrite create_subfolders_idle; [done|].
    intros f Hf. rewrite Hp. by apply Hex.
Qed.

Lemma save_keeps_what_is_there_witness :
  save (ret tt) false Samples2.half_saved
  = ret tt (for_each SUBFOLDERS create_subfolder Samples2.half_saved).2 ∧
  Forall (λ f, os_path_exists (fullpath Samples2.half_saved f)
                 (for_each SUBFOLDERS create_subfolder Samples2.half_saved).2 = true)
         SUBFOLDERS ∧
  grows Samples2.half_saved
        (for_each SUBFOLDERS create_subfolder Samples2.half_saved).2 ∧
  save (ret tt) false (for_each SUBFOLDERS create_subfolder Samples2.half_saved).2
  = ret tt (for_each SUBFOLDERS create_subfolder Samples2.half_saved).2.
Proof.
  apply (save_keeps_what_is_there (ret tt) Samples2.half_saved).
  vm_compute. reflexivity.
Defined.

Lemma create_subfolder_made (pf : platform) (r : option entry) (l : gset string)
    (s : list string) (cs : list syscall) (f : string) (r' : entry) :
  r ≫= resolve (components pf f) = None →
  makedirs_in (components pf f) r = Some r' →
  create_subfolder f (World pf r l s cs)
  = (Ok tt, World pf (Some r') l s (cs ++ [Makedirs (components pf f)])).
Proof.
  intros Hno Hmk.
  unfold create_subfolder, bind, get_state.
  cbv beta iota. cbn [platform_of].
  unfold os_path_exists, lookup_path. cbn [root]. rewrite Hno. cbn [negb].
  unfold try_except, os_makedirs. cbn [root]. by rewrite Hmk.
Qed.

(** The loop of [save] on a project directory that is not there. *)
Lemma fresh_folders (pf : platform) (l : gset string) (s : list string)
    (cs : list syscall) :
  for_each SUBFOLDERS create_subfolder (World pf None l s cs)
  = (Ok tt, World pf (Some (skeleton pf)) l s
              (cs ++ ((λ f, Makedirs (components pf f)) <$> SUBFOLDERS))).
Proof.
  unfold SUBFOLDERS. cbn [for_each fmap list_fmap].
  destruct pf;
    repeat (unfold bind at 1;
            erewrite create_subfolder_made;
            [|vm_compute; reflexivity|vm_compute; reflexivity]);
    unfold ret; rewrite <- !app_assoc; cbn [app];
    do 2 f_equal; vm_compute; reflexivity.
Qed.

(** [save(overwrite=True)] on a project directory that is missing, or that
    holds nothing the system protects, hands the rest of the method a
    directory holding the folders of [SUBFOLDERS] and nothing else: nested
    on Windows, six folders side by side where the back-slash is an
    ordinary character. One [os.makedirs] is issued per entry of
    [SUBFOLDERS], and the folder [bash\log] of [logFolder] is not made. *)
Theorem save_overwrite_fresh (write_contents : M world unit) (w : world) :
  (∀ c, root w ≠ Some (File c)) →
  Forall (λ name, name ∉ locked w) (listing w) →
  ∃ w1,
    save write_contents true w = write_contents w1 ∧
    root w1 = Some (skeleton (platform_of w)) ∧
    platform_of w1 = platform_of w ∧ locked w1 = locked w ∧ stdout w1 = stdout w ∧
    calls w1
    = calls w ++ (if os_path_exists [] w then [Rmtree [] true] else [])
              ++ ((λ f, Makedirs (fullpath w f)) <$> SUBFOLDERS) ∧
    lookup_path (CaseRest.logFolder w1) w1 = None.
Proof.
  intros Hnofile Hfree.
  assert ((if os_path_exists [] w then rmtree_ignore_errors else ret tt) w
          = (Ok tt, World (platform_of w) None (locked w) (stdout w)
                      (calls w ++ (if os_path_exists [] w then [Rmtree [] true] else []))))
    as Hdel.
  { unfold os_path_exists, lookup_path. destruct w as [pf [[c|m]|] l s cs]; cbn in *.
    - by destruct (Hnofile c).
    - unfold rmtree_ignore_errors, set_root, log_call. cbn.
      assert (filter (λ kv : string * entry, kv.1 ∈ l) m = ∅) as ->.
      { apply map_empty_filter. intros k e Hk. cbn.
        apply (proj1 (Forall_forall _ _) Hfree k).
        apply list_elem_of_fmap. exists (k, e). split; [done|].
        by apply elem_of_map_to_list. }
      done.
    - unfold ret. by rewrite app_nil_r. }
  eexists. split.
  - unfold save, bind at 1, get_state. cbn [andb]. unfold bind at 1.
    rewrite Hdel. unfold bind at 1. rewrite fresh_folders. reflexivity.
  - cbn [root platform_of locked stdout calls]. rewrite <- app_assoc.
    repeat split; try done.
    unfold CaseRest.logFolder, lookup_path. cbn [root platform_of].
    destruct (platform_of w); vm_compute; reflexivity.
Qed.

Lemma save_overwrite_fresh_witness :
  ∃ w1,
    save (ret tt) true Samples2.meshed_free = ret tt w1 ∧
    root w1 = Some (skeleton (platform_of Samples2.meshed_free)) ∧
    platform_of w1 = platform_of Samples2.meshed_free ∧
    locked w1 = locked Samples2.meshed_free ∧
    stdout w1 = stdout Samples2.meshed_free ∧
    calls w1
    = calls Samples2.meshed_free
      ++ (if os_path_exists [] Samples2.meshed_free then [Rmtree [] true] else [])
      ++ ((λ f, Makedirs (fullpath Samples2.meshed_free f)) <$> SUBFOLDERS) ∧
    lookup_path (CaseRest.logFolder w1) w1 = None.
Proof.
  apply (save_overwrite_fresh (ret tt) Samples2.meshed_free).
  - intros c. discriminate.
  - apply (bool_decide_unpack _). vm_compute. exact I.
Defined.

End SaveFolders.

(** ** [removePolyMeshContent] *)

Section PolyMesh.
Import Case CaseRest Props Props2.

Lemma resolve_app (p q : path) (e : entry) :
  resolve (p ++ q) e = resolve p e ≫= resolve q.
Proof.
  revert e. induction p as [|c p IH]; intros e; [done|].
  cbn. destruct e as [s|m]; [done|]. destruct (m !! c) as [x|]; [|done]. apply IH.
Qed.

(** Removing the entry [n] of the directory at [c :: p]. *)
Lemma remove_in_below (c : string) (p : path) (n : string)
    (m d : gmap string entry) (x : entry) :
  resolve (c :: p) (Dir m) = Some (Dir d) →
  d !! n = Some x →
  ∃ m', remove_in ((c :: p) ++ [n]) (Dir m) = Some (Dir m') ∧
        resolve (c :: p) (Dir m') = Some (Dir (delete n d)) ∧
        ∀ name, name ≠ c → m' !! name = m !! name.
Proof.
  revert c m. induction p as [|c2 p IH]; intros c m Hres Hn.
  - cbn in Hres. destruct (m !! c) as [[s|d0]|] eqn:Hc; try done.
    cbn in Hres. injection Hres as ->.
    exists (<[c := Dir (delete n d)]> m). cbn. rewrite Hc. cbn. rewrite Hn. cbn.
    split; [done|]. split; [by rewrite lookup_insert_eq|].
    intros name Hne. by rewrite lookup_insert_ne.
  - cbn [resolve] in Hres. destruct (m !! c) as [[s|m1]|] eqn:Hc; try done.
    cbn [mbind option_bind] in Hres.
    destruct (IH c2 m1 Hres Hn) as (m1' & Hrm & Hres' & _).
    exists (<[c := Dir m1']> m).
    change ((c :: c2 :: p) ++ [n]) with (c :: ((c2 :: p) ++ [n])).
    change (remove_in (c :: ((c2 :: p) ++ [n])) (Dir m))
      with (m !! c ≫= λ c0, remove_in ((c2 :: p) ++ [n]) c0
                            ≫= λ c', Some (Dir (<[c := c']> m))).
    rewrite Hc. cbn [mbind option_bind]. rewrite Hrm. cbn [mbind option_bind].
    split; [done|]. split.
    + cbn [resolve]. rewrite lookup_insert_eq. exact Hres'.
    + intros name Hne. by rewrite lookup_insert_ne.
Qed.

Lemma polyMeshFolder_cons (w : world) :
  ∃ c p, polyMeshFolder w = c :: p ∧ ¬ PyStr.isdigit c = true.
Proof.
  unfold polyMeshFolder. destruct (platform_of w); eexists _, _;
    (split; [vm_compute; reflexivity|by vm_compute]).
Qed.

Lemma refused_below (c : string) (p : path) (n : string) (w : world) :
  refused ((c :: p) ++ [n]) w = false.
Proof. by destruct p. Qed.

(** The loop of [removePolyMeshContent] over names found in the folder. *)
Lemma polymesh_loop (ns : list string) (w : world) (c : string) (p : path)
    (m d : gmap string entry) :
  polyMeshFolder w = c :: p →
  root w = Some (Dir m) →
  resolve (c :: p) (Dir m) = Some (Dir d) →
  NoDup ns →
  (∀ n, n ∈ ns → is_Some (d !! n)) →
  ∃ w' m' d',
    for_each ns (λ _f,
      if negb (bool_decide (_f = "blockMeshDict")) then
        w <- get_state ;;
        let _fp := polyMeshFolder w ++ [_f] in
        if os_path_isfile _fp w then os_remove _fp
        else if os_path_isdir _fp w then rmtree _fp
        else ret tt
      else ret tt) w = (Ok tt, w') ∧
    platform_of w' = platform_of w ∧ locked w' = locked w ∧ stdout w' = stdout w ∧
    root w' = Some (Dir m') ∧
    resolve (c :: p) (Dir m') = Some (Dir d') ∧
    (∀ n, d' !! n = if bool_decide (n ∈ ns) && negb (bool_decide (n = "blockMeshDict"))
                    then None else d !! n) ∧
    ∀ name, name ≠ c → m' !! name = m !! name.
Proof.
  revert w m d. induction ns as [|n ns IH]; intros w m d Hpm Hr Hres Hnd Hin.
  - exists w, m, d. repeat split; try done.
  - apply NoDup_cons in Hnd as [Hn Hnd].
    destruct (Hin n ltac:(by left)) as [x Hx].
    cbn [for_each]. unfold bind at 1.
    destruct (decide (n = "blockMeshDict")) as [->|Hne].
    + rewrite bool_decide_eq_true_2 by done. cbn [negb]. unfold ret at 1.
      destruct (IH w m d Hpm Hr Hres Hnd) as (w' & m' & d' & Hrun & ? & ? & ? & ? & ? & Hd' & ?).
      { intros n' Hn'. apply Hin. by right. }
      exists w', m', d'. repeat split; try done.
      intros n'. rewrite Hd'. destruct (decide (n' = "blockMeshDict")) as [->|Hne'].
      * rewrite (bool_decide_eq_true_2 ("blockMeshDict" = "blockMeshDict")) by done.
        cbn. by rewrite !andb_false_r.
      * rewrite (bool_decide_ext (n' ∈ "blockMeshDict" :: ns) (n' ∈ ns)) by set_solver.
        done.
    + rewrite bool_decide_eq_false_2 by done. cbn [negb].
      destruct (remove_in_below c p n m d x Hres Hx) as (m1 & Hrm & Hres1 & Hframe1).
      assert (lookup_path ((c :: p) ++ [n]) w = Some x) as Hlook.
      { unfold lookup_path. rewrite Hr. cbn [mbind option_bind].
        rewrite resolve_app, Hres. cbn. by rewrite Hx. }
      assert (∃ call,
                (w0 <- get_state ;;
                 if os_path_isfile (polyMeshFolder w0 ++ [n]) w0
                 then os_remove (polyMeshFolder w0 ++ [n])
                 else if os_path_isdir (polyMeshFolder w0 ++ [n]) w0
                      then rmtree (polyMeshFolder w0 ++ [n])
                      else ret tt) w
                = (Ok tt, set_root (Some (Dir m1)) (log_call call w)))
        as [call ->].
      { unfold bind, get_state. rewrite Hpm.
        unfold os_path_isfile, os_path_isdir. rewrite Hlook.
        destruct x as [s|dx].
        - exists (Remove ((c :: p) ++ [n])). unfold os_remove.
          rewrite Hlook, Hr. cbn [mbind option_bind]. by rewrite Hrm.
        - exists (Rmtree ((c :: p) ++ [n]) false). unfold rmtree.
          rewrite Hlook, refused_below, Hr. cbn [mbind option_bind]. by rewrite Hrm. }
      destruct (IH (set_root (Some (Dir m1)) (log_call call w)) m1 (delete n d))
        as (w' & m' & d' & Hrun & ? & ? & ? & ? & ? & Hd' & Hframe); try done.
      { intros n' Hn'. rewrite lookup_delete_ne by (intros ->; done).
        apply Hin. by right. }
      exists w', m', d'. repeat split; try done.
      * intros n'. rewrite Hd'. destruct (decide (n' = n)) as [->|Hne'].
        -- rewrite (bool_decide_eq_true_2 (n ∈ n :: ns)) by by left.
           rewrite (bool_decide_eq_false_2 (n = "blockMeshDict")) by done.
           rewrite lookup_delete_eq. cbn. by destruct (bool_decide (n ∈ ns)).
        -- rewrite (bool_decide_ext (n' ∈ n :: ns) (n' ∈ ns)) by set_solver.
           by rewrite lookup_delete_ne.
      * intros name Hname. rewrite Hframe by done. by apply Hframe1.
Qed.

(** [removePolyMeshContent] on an existing [polyMesh] folder, in terms of
    the directory. *)
Lemma removePolyMeshContent_run (w : world) (c : string) (p : path)
    (m d : gmap string entry) :
  polyMeshFolder w = c :: p →
  root w = Some (Dir m) →
  resolve (c :: p) (Dir m) = Some (Dir d) →
  ∃ w' m' d',
    removePolyMeshContent w = (Ok tt, w') ∧
    platform_of w' = platform_of w ∧ locked w' = locked w ∧ stdout w' = stdout w ∧
    root w' = Some (Dir m') ∧
    resolve (c :: p) (Dir m') = Some (Dir d') ∧
    (∀ n, d' !! n = if bool_decide (n = "blockMeshDict") then d !! n else None) ∧
    ∀ name, name ≠ c → m' !! name = m !! name.
Proof.
  intros Hcp Hr Hpm.
  destruct (polymesh_loop (map_to_list d).*1 w c p m d Hcp Hr Hpm)
    as (w' & m' & d' & Hrun & Hpf & Hl & Hs & Hr' & Hres' & Hd' & Hframe).
  { apply NoDup_fst_map_to_list. }
  { intros n ([k e] & -> & Hk)%list_elem_of_fmap.
    apply elem_of_map_to_list in Hk. by exists e. }
  exists w', m', d'. split; [|repeat split; try done].
  - unfold removePolyMeshContent, bind at 1, get_state. unfold bind at 1.
    unfold os_listdir_at at 1. unfold lookup_path at 1. rewrite Hcp, Hr.
    cbn [mbind option_bind]. rewrite Hpm. exact Hrun.
  - intros n. rewrite Hd'. destruct (decide (n = "blockMeshDict")) as [->|Hne].
    + rewrite (bool_decide_eq_true_2 ("blockMeshDict" = "blockMeshDict")) by done.
      cbn. by rewrite andb_false_r.
    + rewrite (bool_decide_eq_false_2 (n = "blockMeshDict")) by done. cbn.
      rewrite andb_true_r. destruct (d !! n) as [e|] eqn:E.
      * rewrite bool_decide_eq_true_2; [done|].
        apply list_elem_of_fmap. exists (n, e). split; [done|].
        by apply elem_of_map_to_list.
      * by destruct (bool_decide _).
Qed.

(** In a model where the system protects only entries directly under the
    project directory, [removePolyMeshContent] on an existing [polyMesh]
    folder succeeds without printing: of that folder only [blockMeshDict]
    is left, as it was; the entries of the project directory beside the
    one holding the folder are untouched; and [isPolyMeshSnappyHexMesh]
    is false afterwards. *)
Theorem removePolyMeshContent_effect (w : world) (d : gmap string entry) :
  lookup_path (polyMeshFolder w) w = Some (Dir d) →
  ∃ w' d',
    removePolyMeshContent w = (Ok tt, w') ∧
    lookup_path (polyMeshFolder w) w' = Some (Dir d') ∧
    (∀ n, d' !! n = if bool_decide (n = "blockMeshDict") then d !! n else None) ∧
    (∀ name, name ≠ hd "" (polyMeshFolder w) →
             lookup_path [name] w' = lookup_path [name] w) ∧
    stdout w' = stdout w ∧
    isPolyMeshSnappyHexMesh w' = (Ok false, w').
Proof.
  intros Hpm. destruct (polyMeshFolder_cons w) as (c & p & Hcp & _).
  unfold lookup_path in Hpm. rewrite Hcp in Hpm.
  destruct (root w) as [[s|m]|] eqn:Hr; try done. cbn [mbind option_bind] in Hpm.
  destruct (removePolyMeshContent_run w c p m d Hcp Hr Hpm)
    as (w' & m' & d' & Hrun & Hpf & Hl & Hs & Hr' & Hres' & Hd'' & Hframe).
  assert (lookup_path (polyMeshFolder w) w' = Some (Dir d')) as Hfolder.
  { unfold lookup_path. by rewrite Hcp, Hr'. }
  exists w', d'. split; [done|split; [done|split; [done|split; [|split; [done|]]]]].
  - intros name Hne. rewrite Hcp in Hne. cbn in Hne.
    rewrite (lookup_path_top w' m' name Hr'), (lookup_path_top w m name Hr).
    by apply Hframe.
  - unfold isPolyMeshSnappyHexMesh, bind at 1, get_state. unfold bind at 1.
    unfold polyMeshFolder in *. rewrite Hpf. unfold os_listdir_at. rewrite Hfolder.
    unfold ret. do 2 f_equal. apply bool_decide_eq_false_2.
    rewrite length_fmap, length_map_to_list.
    assert (d' = match d !! "blockMeshDict" with
                 | Some e => {["blockMeshDict" := e]}
                 | None => ∅
                 end) as ->.
    { apply map_eq. intros n. rewrite Hd''.
      destruct (decide (n = "blockMeshDict")) as [->|Hne].
      - rewrite bool_decide_eq_true_2 by done.
        destruct (d !! "blockMeshDict"); [by rewrite lookup_singleton_eq|done].
      - rewrite bool_decide_eq_false_2 by done.
        destruct (d !! "blockMeshDict"); [by rewrite lookup_singleton_ne|done]. }
    destruct (d !! "blockMeshDict").
    + rewrite map_size_singleton. lia.
    + rewrite map_size_empty. lia.
Qed.

Lemma removePolyMeshContent_effect_witness :
  ∃ w' d',
    removePolyMeshContent Samples2.meshed = (Ok tt, w') ∧
    lookup_path (polyMeshFolder Samples2.meshed) w' = Some (Dir d') ∧
    (∀ n, d' !! n = if bool_decide (n = "blockMeshDict")
                    then ({[ "blockMeshDict" := File "dict"; "points" := File "p";
                             "sets" := Dir {[ "s" := File "" ]} ]}
                          : gmap string entry) !! n
                    else None) ∧
    (∀ name, name ≠ hd "" (polyMeshFolder Samples2.meshed) →
             lookup_path [name] w' = lookup_path [name] Samples2.meshed) ∧
    stdout w' = stdout Samples2.meshed ∧
    isPolyMeshSnappyHexMesh w' = (Ok false, w').
Proof.
  eapply removePolyMeshContent_effect. vm_compute. reflexivity.
Defined.

(** Without a [polyMesh] folder [removePolyMeshContent] raises [OSError]
    before it touches anything, and so do the methods that start with it:
    [purge] with its defaults, whatever it is asked to remove besides, and
    [blockMesh] with [overwrite]. *)
Theorem polyMesh_folder_required `{RunManager} (w : world)
    (snappy results post : bool) (args : list string) (wait : bool) :
  (∀ d, lookup_path (polyMeshFolder w) w ≠ Some (Dir d)) →
  removePolyMeshContent w = (Raised OSError, w) ∧
  purge true snappy results post w = (Raised OSError, w) ∧
  blockMesh args wait true w = (Raised OSError, w).
Proof.
  intros Hno.
  assert (removePolyMeshContent w = (Raised OSError, w)) as Hrm.
  { unfold removePolyMeshContent, bind at 1, get_state. unfold bind at 1.
    unfold os_listdir_at.
    destruct (lookup_path (polyMeshFolder w) w) as [[s|d]|] eqn:E; try done.
    by destruct (Hno d). }
  split; [done|]. split.
  - unfold purge, bind at 1. by rewrite Hrm.
  - unfold blockMesh, bind at 1. by rewrite Hrm.
Qed.

End PolyMesh.

Lemma polyMesh_folder_required_witness :
  Case.removePolyMeshContent Samples.numbered = (Raised OSError, Samples.numbered) ∧
  Case.purge true true true true Samples.numbered
  = (Raised OSError, Samples.numbered) ∧
  @CaseRest.blockMesh (SpecRunManager.manager Samples.behaviour) [] true true Samples.numbered
  = (Raised OSError, Samples.numbered).
Proof.
  apply (@polyMesh_folder_required (SpecRunManager.manager Samples.behaviour) Samples.numbered
           true true true [] true).
  intros d. vm_compute. discriminate.
Defined.

(** ** The case object: construction and lookup *)

Section CaseObject.
Import Case CaseRest Props Props2.
Context `{FoamFile F}.

Lemma checkInputGeometries_run {S} (geos : list geometry) (s : S) :
  checkInputGeometries geos s
  = if forallb isBFMesh geos then (Ok geos, s) else (Raised AssertionError, s).
Proof.
  unfold checkInputGeometries.
  assert (for_each geos (λ geo, py_assert (isBFMesh geo)) s
          = if forallb isBFMesh geos then (Ok tt, s) else (Raised AssertionError, s))
    as Hloop.
  { induction geos as [|g geos IH]; [done|].
    cbn [for_each forallb]. unfold bind at 1, py_assert at 1.
    destruct (isBFMesh g); [|done]. cbn. exact IH. }
  unfold bind at 1. rewrite Hloop. by destruct (forallb isBFMesh geos).
Qed.

(** The loop of [__init__] over the foam files, started at position [k]. *)
Lemma attrs_loop (l : list (option F)) (k : nat) (c : case F) :
  if forallb (λ o, match o with Some ff => ff_isFoamFile ff | None => true end) l
  then
    ∃ a',
      for_each (imap (λ i ff, (k + i, ff)) l) (λ iff,
        match iff.2 with
        | None => ret tt
        | Some ff =>
            py_assert (ff_isFoamFile ff) ;;;
            modify (λ c, CaseObj (projectName c) (foamfiles c)
                           (<[ff_name ff := iff.1]> (attrs c)) (geometries c)
                           (refinementRegions c))
        end) c
      = (Ok tt, CaseObj (projectName c) (foamfiles c) a' (geometries c)
                  (refinementRegions c)) ∧
      ∀ x, a' !! x = match last_named x l k with
                     | Some i => Some i
                     | None => attrs c !! x
                     end
  else
    ∃ c',
      for_each (imap (λ i ff, (k + i, ff)) l) (λ iff,
        match iff.2 with
        | None => ret tt
        | Some ff =>
            py_assert (ff_isFoamFile ff) ;;;
            modify (λ c, CaseObj (projectName c) (foamfiles c)
                           (<[ff_name ff := iff.1]> (attrs c)) (geometries c)
                           (refinementRegions c))
        end) c
      = (Raised AssertionError, c').
Proof.
  revert k c. induction l as [|o l IH]; intros k c.
  - cbn. exists (attrs c). split; [by destruct c|done].
  - rewrite imap_cons.
    rewrite (imap_ext _ (λ i ff, (S k + i, ff)) l)
      by (intros i x _; cbn; f_equal; lia).
    cbn [for_each forallb last_named]. unfold bind at 1. cbn [snd fst].
    destruct o as [ff|].
    + unfold bind at 1, py_assert at 1.
      destruct (ff_isFoamFile ff) eqn:Hff; cbn [andb].
      2:{ cbn. by eexists. }
      unfold ret at 1, modify at 1.
      specialize (IH (S k) (CaseObj (projectName c) (foamfiles c)
                              (<[ff_name ff := k + 0]> (attrs c)) (geometries c)
                              (refinementRegions c))).
      destruct (forallb _ l).
      * destruct IH as (a' & Hrun & Ha'). exists a'. split; [exact Hrun|].
        intros x. rewrite Ha'. cbn [attrs].
        destruct (last_named x l (S k)); [done|].
        destruct (decide (ff_name ff = x)) as [->|Hne].
        -- rewrite bool_decide_eq_true_2 by done. rewrite lookup_insert_eq.
           f_equal. lia.
        -- rewrite bool_decide_eq_false_2 by done. by rewrite lookup_insert_ne.
      * exact IH.
    + unfold ret at 1. cbn [andb]. specialize (IH (S k) c).
      destruct (forallb _ l); [|exact IH].
      destruct IH as (a' & Hrun & Ha'). exists a'. split; [exact Hrun|].
      intros x. rewrite Ha'. by destruct (last_named x l (S k)).
Qed.

(** What [__init__] comes to. *)
Lemma init_run (name : string) (ffs : list (option F)) (geos : list geometry) :
  if Re.re_match projectName_pattern name
     && forallb (λ o, match o with Some ff => ff_isFoamFile ff | None => true end) ffs
     && forallb isBFMesh geos
  then ∃ a, init name ffs geos = Ok (CaseObj (Some name) ffs a geos []) ∧
            ∀ x, a !! x = last_named x ffs 0
  else init name ffs geos = Raised AssertionError.
Proof.
  pose proof (attrs_loop ffs 0 (CaseObj (Some name) ffs ∅ [] [])) as Hloop.
  rewrite (imap_ext _ (λ i ff, (i, ff)) ffs) in Hloop by done.
  destruct (Re.re_match projectName_pattern name) eqn:Hn; cbn [andb].
  2:{ unfold init, init_body, bind at 1. by rewrite projectName_setter_run, Hn. }
  destruct (forallb _ ffs); cbn [andb].
  2:{ destruct Hloop as (c' & Hloop).
      unfold init, init_body, bind at 1. rewrite projectName_setter_run, Hn.
      unfold bind at 1, modify at 1, blank.
      cbn [projectName attrs geometries refinementRegions].
      unfold bind at 1. by rewrite Hloop. }
  destruct Hloop as (a & Hloop & Ha).
  destruct (forallb isBFMesh geos) eqn:Hg.
  - exists a. split.
    + unfold init, init_body, bind at 1. rewrite projectName_setter_run, Hn.
      unfold bind at 1, modify at 1, blank.
      cbn [projectName attrs geometries refinementRegions].
      unfold bind at 1. rewrite Hloop.
      cbn [projectName foamfiles geometries refinementRegions].
      unfold bind at 1. by rewrite checkInputGeometries_run, Hg.
    + intros x. rewrite Ha. cbn. by destruct (last_named x ffs 0).
  - unfold init, init_body, bind at 1. rewrite projectName_setter_run, Hn.
    unfold bind at 1, modify at 1, blank.
    cbn [projectName attrs geometries refinementRegions].
    unfold bind at 1. rewrite Hloop.
    cbn [projectName foamfiles geometries refinementRegions].
    unfold bind at 1. by rewrite checkInputGeometries_run, Hg.
Qed.

Lemma last_named_None (x : string) (l : list (option F)) (k : nat) :
  last_named x l k = None → ∀ ff, Some ff ∈ l → ff_name ff ≠ x.
Proof.
  revert k. induction l as [|o l IH]; intros k.
  - intros _ ff Hin. by apply elem_of_nil in Hin.
  - cbn [last_named]. destruct (last_named x l (S k)) eqn:E; [done|].
    intros Ho ff [<-|Hin]%elem_of_cons.
    + destruct (decide (ff_name ff = x)); [|done].
      by rewrite bool_decide_eq_true_2 in Ho.
    + by apply (IH (S k)).
Qed.

Lemma last_named_Some (x : string) (l : list (option F)) (k i : nat) :
  last_named x l k = Some i →
  ∃ ff, l !! (i - k) = Some (Some ff) ∧ ff_name ff = x ∧ k ≤ i ∧
        ∀ j g, i - k < j → l !! j = Some (Some g) → ff_name g ≠ x.
Proof.
  revert k. induction l as [|o l IH]; intros k; [done|].
  cbn [last_named]. destruct (last_named x l (S k)) as [i'|] eqn:E.
  - intros [= ->]. destruct (IH (S k) E) as (ff & Hl & Hn & Hle & Hlast).
    exists ff. replace (i - k) with (S (i - S k)) by lia.
    split; [done|]. split; [done|]. split; [lia|].
    intros [|j] g Hj; [lia|]. cbn. apply Hlast. lia.
  - destruct o as [ff|]; [|done].
    destruct (decide (ff_name ff = x)) as [Heq|Hne].
    + rewrite bool_decide_eq_true_2 by done. intros [= <-].
      exists ff. rewrite Nat.sub_diag. split; [done|]. split; [done|].
      split; [lia|]. intros [|j] g Hj; [lia|]. cbn. intros Hg Hx.
      apply list_elem_of_lookup_2 in Hg.
      by apply (last_named_None x l (S k) E g).
    + by rewrite bool_decide_eq_false_2.
Qed.



End CaseObject.


(** ** [addRefinementRegions] *)

Section Regions.
Import Case CaseRest Props Props2.
Context `{FoamFile F}.

(** One region added to a case whose attribute [snappyHexMeshDict] refers
    to the foam file at position [i]. *)
Lemma addRefinementRegion_run (r : region) (c : case F) (i : nat) (d : F) :
  isRefinementRegion r = true →
  attrs c !! "snappyHexMeshDict" = Some i →
  foamfiles c !! i = Some (Some d) →
  addRefinementRegion r c
  = ((ff_addRefinementRegion r d).1,
     CaseObj (projectName c)
       (<[i := Some (ff_addRefinementRegion r d).2]> (foamfiles c))
       (attrs c) (geometries c) (refinementRegions c ++ [r])).
Proof.
  intros Hr Hi Hd. unfold addRefinementRegion, bind, py_assert, hasattr, modify,
    get_state, ret.
  rewrite Hr. cbn [attrs foamfiles projectName geometries refinementRegions].
  rewrite Hi. rewrite bool_decide_eq_true_2 by by eexists.
  rewrite Hd. cbn [mjoin option_join]. cbn.
  by destruct (ff_addRefinementRegion r d).
Qed.



End Regions.



(** ** Tunnel parameters that are accepted, and the wind tunnel *)

Section Accepted.
Import Tunnel.

Lemma check_input_Ok (v : pyval) (f : spec_float) :
  check_input v = Ok f ↔ float v = Ok f ∧ SFltb (S754_zero false) f = true.
Proof.
  unfold check_input. destruct (float v) as [g|e].
  - destruct (SFltb (S754_zero false) g) eqn:E; split.
    + by intros [= ->].
    + by intros [[= ->] _].
    + done.
    + intros [[= ->] Hf]. congruence.
  - split; [by destruct e|]. by intros [? _].
Qed.

Lemma check_input_Raised (v : pyval) (e : exn) :
  check_input v = Raised e →
  (e = ValueError ∧ v = PyNone)
  ∨ (e = OverflowError ∧ ∃ z, v = PyInt z)
  ∨ (e = AssertionError ∧ ∃ f, float v = Ok f ∧ SFltb (S754_zero false) f = false).
Proof.
  unfold check_input. destruct v as [z|f|]; cbn [float].
  - destruct (binary_normalize prec emax z 0 false) as [s|s| |s m x] eqn:E;
      try (destruct (SFltb _ _) eqn:Hlt; [done|]; intros [= <-];
           right; right; split; [done|]; by eexists).
    intros [= <-]. right. left. split; [done|]. by eexists.
  - destruct (SFltb _ f) eqn:Hlt; [done|]. intros [= <-].
    right. right. split; [done|]. by eexists.
  - intros [= <-]. by left.
Qed.


End Accepted.

Section WindTunnelInit.
Import Tunnel WindTunnel.
Context `{Meshing B MP}.

Lemma check_all_Ok (geos gs : list bfgeometry) :
  check_all geos = Ok gs → gs = geos ∧ Forall (λ g, isBFGeometry g = true) geos.
Proof.
  revert gs. induction geos as [|g geos IH]; intros gs.
  - intros [= <-]. by split.
  - cbn [check_all]. unfold check_input_geometry.
    destruct (isBFGeometry g) eqn:Hg; [|done].
    destruct (check_all geos) as [gs'|] eqn:E; [|done]. intros [= <-].
    destruct (IH gs' eq_refl) as [-> Hall]. split; [done|]. by constructor.
Qed.

Lemma check_all_Raised (geos : list bfgeometry) :
  Exists (λ g, isBFGeometry g = false) geos → check_all geos = Raised ValueError.
Proof.
  induction 1 as [g geos Hg|g geos _ IH]; cbn [check_all]; unfold check_input_geometry.
  - by rewrite Hg.
  - destruct (isBFGeometry g); [|done]. by rewrite IH.
Qed.

Lemma check_all_raises (geos : list bfgeometry) (e : exn) :
  check_all geos = Raised e → e = ValueError.
Proof.
  induction geos as [|g geos IH]; [done|]. cbn [check_all]. unfold check_input_geometry.
  destruct (isBFGeometry g); [|by intros [= <-]].
  destruct (check_all geos); [done|]. intros [= <-]. by apply IH.
Qed.

(** A wind tunnel that [WindTunnel(...)] returns holds the geometries it
    was given, in their order, each of them a Butterfly geometry; its
    roughness [z0] is greater than zero, being the argument when that is
    greater than zero and 0.25 otherwise ([None] included); its reference
    height is 10 when the argument is missing or zero; its meshing
    parameters carry their marker; and it has no refinement region. *)
Theorem wind_tunnel_built
    (nm : string) (i o : bfgeometry) (ss : list bfgeometry)
    (t g : bfgeometry) (tests : list bfgeometry)
    (roughness : pyval) (mp : option MP) (zref ctm : pyval)
    (wt : wind_tunnel B MP) :
  init nm i o ss t g tests roughness mp zref ctm = Ok wt →
  inlet wt = i ∧ outlet wt = o ∧ sides wt = ss ∧ top wt = t ∧ ground wt = g ∧
  test_geomtries wt = tests ∧
  Forall (λ x, isBFGeometry x = true) (i :: o :: ss ++ t :: g :: tests) ∧
  gt_zero (z0 wt) = true ∧
  z0 wt = (if gt_zero roughness then roughness else PyFloat quarter) ∧
  (truthy zref = false → Zref wt = PyInt 10) ∧
  (truthy zref = true → ∃ f, float zref = Ok f ∧ Zref wt = PyFloat f) ∧
  isMeshingParameters (meshing_parameters _ _ wt) = true ∧
  refinementRegions wt = [].
Proof.
  unfold init, and_then, check_input_geometry.
  destruct (isBFGeometry i) eqn:Hi; [|done].
  destruct (isBFGeometry o) eqn:Ho; [|done].
  destruct (check_all ss) as [ss'|] eqn:Hss; [|done].
  destruct (isBFGeometry t) eqn:Ht; [|done].
  destruct (isBFGeometry g) eqn:Hg; [|done].
  destruct (check_all tests) as [tests'|] eqn:Htests; [|done].
  apply check_all_Ok in Hss as [-> Hss], Htests as [-> Htests].
  destruct (from_bf_block_geometries _ ctm) as [bmd|]; [|done].
  destruct (isMeshingParameters _) eqn:Hmp; [|done].
  destruct (update_meshing_parameters _ bmd) as [bmd'|]; [|done].
  destruct (truthy zref) eqn:Hz.
  - destruct (float zref) as [f|] eqn:Hf; [|done]. intros [= <-].
    cbn. repeat split; try done.
    + repeat constructor; try done. apply Forall_app. split; [done|].
      by repeat constructor.
    + by destruct (gt_zero roughness) eqn:E.
    + by exists f.
  - intros [= <-]. cbn. repeat split; try done.
    + repeat constructor; try done. apply Forall_app. split; [done|].
      by repeat constructor.
    + by destruct (gt_zero roughness) eqn:E.
Qed.

(** An argument that is no Butterfly geometry, whether a face of the tunnel
    or a geometry inside it, makes [WindTunnel(...)] raise [ValueError]
    before the block mesh dictionary is asked for. *)
Theorem wind_tunnel_rejects_other_geometry
    (nm : string) (i o : bfgeometry) (ss : list bfgeometry)
    (t g : bfgeometry) (tests : list bfgeometry)
    (roughness : pyval) (mp : option MP) (zref ctm : pyval) :
  Exists (λ x, isBFGeometry x = false) (i :: o :: ss ++ t :: g :: tests) →
  init nm i o ss t g tests roughness mp zref ctm = Raised ValueError.
Proof.
  intros Hex. unfold init, and_then, check_input_geometry.
  destruct (isBFGeometry i) eqn:Hi; [|done].
  destruct (isBFGeometry o) eqn:Ho; [|done].
  apply Exists_cons in Hex as [Hex|Hex]; [congruence|].
  apply Exists_cons in Hex as [Hex|Hex]; [congruence|].
  destruct (check_all ss) as [ss'|e] eqn:Hss.
  2:{ by rewrite (check_all_raises ss e Hss). }
  apply check_all_Ok in Hss as [-> Hss].
  apply Exists_app in Hex as [Hex|Hex].
  { apply Exists_exists in Hex as (x & Hx & Hbad).
    rewrite (proj1 (Forall_forall _ _) Hss x Hx) in Hbad. done. }
  destruct (isBFGeometry t) eqn:Ht; [|done].
  destruct (isBFGeometry g) eqn:Hg; [|done].
  apply Exists_cons in Hex as [Hex|Hex]; [congruence|].
  apply Exists_cons in Hex as [Hex|Hex]; [congruence|].
  by rewrite (check_all_Raised tests Hex).
Qed.

End WindTunnelInit.

Lemma wind_tunnel_built_witness :
  WindTunnel.inlet Samples2.tunnel = Samples2.face "inlet" ∧
  WindTunnel.outlet Samples2.tunnel = Samples2.face "outlet" ∧
  WindTunnel.sides Samples2.tunnel = [Samples2.face "left"; Samples2.face "right"] ∧
  WindTunnel.top Samples2.tunnel = Samples2.face "top" ∧
  WindTunnel.ground Samples2.tunnel = Samples2.face "ground" ∧
  WindTunnel.test_geomtries Samples2.tunnel = [Samples2.face "box"] ∧
  Forall (λ x, WindTunnel.isBFGeometry x = true)
    (Samples2.face "inlet" :: Samples2.face "outlet"
     :: [Samples2.face "left"; Samples2.face "right"]
     ++ Samples2.face "top" :: Samples2.face "ground" :: [Samples2.face "box"]) ∧
  WindTunnel.gt_zero (WindTunnel.z0 Samples2.tunnel) = true ∧
  WindTunnel.z0 Samples2.tunnel
  = (if WindTunnel.gt_zero Tunnel.PyNone then Tunnel.PyNone
     else Tunnel.PyFloat WindTunnel.quarter) ∧
  (WindTunnel.truthy Tunnel.PyNone = false →
   WindTunnel.Zref Samples2.tunnel = Tunnel.PyInt 10) ∧
  (WindTunnel.truthy Tunnel.PyNone = true →
   ∃ f, Tunnel.float Tunnel.PyNone = Ok f
        ∧ WindTunnel.Zref Samples2.tunnel = Tunnel.PyFloat f) ∧
  @WindTunnel.isMeshingParameters _ _ Samples2.named_meshing
    (WindTunnel.meshing_parameters _ _ Samples2.tunnel) = true ∧
  WindTunnel.refinementRegions Samples2.tunnel = [].
Proof.
  apply (@wind_tunnel_built _ _ Samples2.named_meshing "t"
           (Samples2.face "inlet") (Samples2.face "outlet")
           [Samples2.face "left"; Samples2.face "right"] (Samples2.face "top")
           (Samples2.face "ground") [Samples2.face "box"]
           Tunnel.PyNone None Tunnel.PyNone (Tunnel.PyInt 1) Samples2.tunnel).
  vm_compute. reflexivity.
Defined.

Lemma wind_tunnel_rejects_other_geometry_witness :
  @WindTunnel.init _ _ Samples2.named_meshing "t"
    (Samples2.face "inlet") (Samples2.face "outlet")
    [Samples2.face "left"; WindTunnel.BFGeometry "mesh" false] (Samples2.face "top")
    (Samples2.face "ground") [] (Tunnel.PyInt 1) None Tunnel.PyNone (Tunnel.PyInt 1)
  = Raised ValueError.
Proof.
  apply (@wind_tunnel_rejects_other_geometry _ _ Samples2.named_meshing).
  apply (bool_decide_unpack _). vm_compute. exact I.
Defined.

(** ** [copySnappyHexMesh] *)

Section Copy.
Import Case CaseRest Props Props2.
Context `{CopyTree}.

Lemma digits_of_uint (d : Decimal.uint) :
  forallb PyStr.is_digit_char (PyStr.chars (NilEmpty.string_of_uint d)) = true.
Proof. induction d; cbn; try done. Qed.

Lemma isdigit_str (n : N) : PyStr.isdigit (PyStr.str n) = true.
Proof.
  unfold PyStr.isdigit, PyStr.str.
  pose proof (digits_of_uint (N.to_uint n)) as Hd.
  destruct (N.to_uint n) eqn:E; try done; cbn in *; done.
Qed.

Lemma last_sorted_max (l : list N) (n : N) :
  StronglySorted N.le l → last l = Some n → ∀ x, x ∈ l → (x ≤ n)%N.
Proof.
  induction 1 as [|y l Hl IH Hy]; [done|].
  destruct l as [|z l'].
  - intros [= <-] x Hx. apply list_elem_of_singleton in Hx as ->. lia.
  - change (last (y :: z :: l')) with (last (z :: l')). intros Hlast x Hx.
    apply elem_of_cons in Hx as [->|Hx]; [|by apply IH].
    assert (n ∈ z :: l') as Hn by by apply last_Some_elem_of.
    by apply (proj1 (Forall_forall _ _) Hy n).
Qed.

(** On a case without snapshots [copySnappyHexMesh] does nothing at all,
    with or without [overwrite]: the content of [polyMesh] is not removed
    and nothing is copied. The one exception is a folder number other than
    zero, which fails the assertion; zero counts as no number. *)
Theorem copySnappyHexMesh_without_source (w : world) (m : gmap string entry)
    (folderNumber : option N) (overwrite : bool) :
  root w = Some (Dir m) →
  mesh_names w = [] →
  copySnappyHexMesh folderNumber overwrite w
  = (match folderNumber with
     | Some (N.pos _) => Raised AssertionError
     | _ => Ok tt
     end, w).
Proof.
  intros Hr Hnone.
  assert (getSnappyHexMeshFolders w = (Ok [], w)) as Hlist
    by by rewrite (getSnappyHexMeshFolders_dir w m Hr), Hnone.
  unfold copySnappyHexMesh, bind at 1, get_state.
  destruct folderNumber as [[|n]|].
  - unfold bind at 1. unfold bind at 1. by rewrite Hlist.
  - unfold bind at 1. unfold bind at 1.
    assert (os_path_isdir [PyStr.str (N.pos n); "polyMesh"] w = false) as ->; [|done].
    apply not_true_iff_false. intros Hd.
    assert (PyStr.str (N.pos n) ∈ mesh_names w) as Hin
      by (apply elem_of_mesh_names; split; [apply isdigit_str|done]).
    rewrite Hnone in Hin. by apply elem_of_nil in Hin.
  - unfold bind at 1. unfold bind at 1. by rewrite Hlist.
Qed.

(** Without a folder number [copySnappyHexMesh] copies from the snapshot
    with the greatest number. A failure of the copy is printed and not
    raised, so without [overwrite] the call always returns; with
    [overwrite] it raises only what [removePolyMeshContent] raises, and
    then before anything is copied. *)
Theorem copySnappyHexMesh_takes_last_snapshot
    (w : world) (m : gmap string entry)
    (folderNumber : option N) (overwrite : bool) :
  root w = Some (Dir m) →
  mesh_names w ≠ [] →
  folderNumber = None ∨ folderNumber = Some 0%N →
  ∃ n,
    n ∈ PyStr.int <$> mesh_names w ∧
    (∀ g, g ∈ mesh_names w → (PyStr.int g ≤ n)%N) ∧
    copySnappyHexMesh folderNumber overwrite w
    = ((if overwrite then removePolyMeshContent else ret tt) ;;;
       w' <- get_state ;;
       try_except (copy_tree [PyStr.str n; "polyMesh"] (polyMeshFolder w'))
         (λ e, print ("Failed to copy snappyHexMesh folder: " +:+ exn_text e))) w ∧
    (copySnappyHexMesh folderNumber false w).1 = Ok tt ∧
    ∀ e, (copySnappyHexMesh folderNumber true w).1 = Raised e →
         (removePolyMeshContent w).1 = Raised e.
Proof.
  intros Hr Hsome Hfn.
  set (sorted := merge_sort N.le (PyStr.int <$> mesh_names w)).
  assert (sorted ≡ₚ PyStr.int <$> mesh_names w) as Hperm
    by apply merge_sort_Permutation.
  destruct (last sorted) as [n|] eqn:Hlast.
  2:{ apply last_None in Hlast. rewrite Hlast in Hperm.
      apply Permutation_nil_l in Hperm. symmetry in Hperm.
      by apply fmap_nil_inv in Hperm. }
  assert (∀ ow, copySnappyHexMesh folderNumber ow w
          = ((if ow then removePolyMeshContent else ret tt) ;;;
             w' <- get_state ;;
             try_except (copy_tree [PyStr.str n; "polyMesh"] (polyMeshFolder w'))
               (λ e, print ("Failed to copy snappyHexMesh folder: " +:+ exn_text e))) w)
    as Hrun.
  { intros ow. unfold copySnappyHexMesh, bind at 1, get_state.
    assert (∀ k : option (list string) → M world unit,
              bind (_folders <- getSnappyHexMeshFolders ;;
                    match last _folders with
                    | None => ret None
                    | Some f => ret (Some [f; "polyMesh"])
                    end) k w
              = k (Some [PyStr.str n; "polyMesh"]) w) as Hsrc.
    { intros k. unfold bind at 1. unfold bind at 1.
      rewrite (getSnappyHexMeshFolders_dir w m Hr). fold sorted.
      by rewrite fmap_last, Hlast. }
    destruct Hfn as [-> | ->]; by rewrite Hsrc. }
  exists n. split; [|split; [|split; [apply Hrun|split]]].
  - rewrite <- Hperm. by apply last_Some_elem_of.
  - intros g Hg. apply (last_sorted_max sorted n); [|done|].
    + apply StronglySorted_merge_sort; apply _.
    + rewrite Hperm. by apply list_elem_of_fmap_2.
  - rewrite Hrun. unfold bind at 1, ret at 1. unfold bind at 1, get_state.
    unfold try_except.
    by destruct (copy_tree _ _ w) as [[[]|e] w'].
  - intros e. rewrite Hrun. unfold bind at 1.
    destruct (removePolyMeshContent w) as [[[]|e'] w1]; [|done].
    unfold bind at 1, get_state. unfold try_except.
    by destruct (copy_tree _ _ w1) as [[[]|e''] w'].
Qed.

End Copy.

Lemma copySnappyHexMesh_without_source_witness :
  @CaseRest.copySnappyHexMesh Samples2.failing_copy None true Samples.saved
  = (match @None N with
     | Some (N.pos _) => Raised AssertionError
     | _ => Ok tt
     end, Samples.saved).
Proof.
  eapply (@copySnappyHexMesh_without_source Samples2.failing_copy).
  - reflexivity.
  - vm_compute. reflexivity.
Defined.

Lemma copySnappyHexMesh_takes_last_snapshot_witness :
  ∃ n,
    n ∈ PyStr.int <$> Props.mesh_names Samples2.meshed ∧
    (∀ g, g ∈ Props.mesh_names Samples2.meshed → (PyStr.int g ≤ n)%N) ∧
    @CaseRest.copySnappyHexMesh Samples2.recording_copy None true Samples2.meshed
    = ((if true then Case.removePolyMeshContent else ret tt) ;;;
       w' <- get_state ;;
       try_except (Samples2.recording_copy [PyStr.str n; "polyMesh"]
                     (Case.polyMeshFolder w'))
         (λ e, print ("Failed to copy snappyHexMesh folder: " +:+ Case.exn_text e)))
        Samples2.meshed ∧
    (@CaseRest.copySnappyHexMesh Samples2.recording_copy None false Samples2.meshed).1
    = Ok tt ∧
    ∀ e, (@CaseRest.copySnappyHexMesh Samples2.recording_copy None true
            Samples2.meshed).1 = Raised e →
         (Case.removePolyMeshContent Samples2.meshed).1 = Raised e.
Proof.
  eapply (@copySnappyHexMesh_takes_last_snapshot Samples2.recording_copy).
  - reflexivity.
  - vm_compute. discriminate.
  - by left.
Defined.

(** ** [purge] *)

Section Purge.
Import Case CaseRest Props Props2.

Lemma polyMeshFolder_head (w : world) :
  ∃ c p, polyMeshFolder w = c :: p ∧ PyStr.isdigit c = false ∧
         c ≠ "postProcessing" ∧ PyStr.endswith c ".org" = false.
Proof.
  unfold polyMeshFolder. destruct (platform_of w); eexists _, _;
    (split; [vm_compute; reflexivity|]); by vm_compute.
Qed.

(** [removePostProcessingFolder] in terms of the directory of the model. *)
Lemma removePostProcessingFolder_run (w : world) (m : gmap string entry) :
  root w = Some (Dir m) →
  ∃ w' m',
    removePostProcessingFolder w = (Ok tt, w') ∧
    root w' = Some (Dir m') ∧
    locked w' = locked w ∧
    ∀ name, m' !! name
            = if bool_decide (name = "postProcessing") && removable w "postProcessing"
              then None else m !! name.
Proof.
  intros Hr. unfold removePostProcessingFolder, bind, get_state.
  destruct (os_path_isdir ["postProcessing"] w) eqn:Hd; cbn [negb].
  - unfold try_except. rewrite (rmtree_top "postProcessing" w m Hr).
    unfold removable. rewrite Hd. cbn [andb].
    destruct (bool_decide ("postProcessing" ∈ locked w)); cbn [negb].
    + eexists _, m. split; [reflexivity|]. repeat split; try done.
      intros name. by rewrite andb_false_r.
    + eexists _, _. split; [reflexivity|]. repeat split; try done.
      intros name. rewrite andb_true_r.
      destruct (decide (name = "postProcessing")) as [->|Hne].
      * rewrite bool_decide_eq_true_2 by done. by rewrite lookup_delete_eq.
      * rewrite bool_decide_eq_false_2 by done. by rewrite lookup_delete_ne.
  - exists w, m. repeat split; try done. intros name.
    unfold removable. rewrite Hd. by rewrite andb_false_r.
Qed.

Lemma numeral_names_sub (w w' : world) (m m' : gmap string entry) :
  root w = Some (Dir m) → root w' = Some (Dir m') →
  (∀ name, PyStr.isdigit name = true → is_Some (m' !! name) → is_Some (m !! name)) →
  numeral_names w → numeral_names w'.
Proof.
  intros Hr Hr' Hsub. unfold numeral_names. rewrite !Forall_forall.
  intros Hnum name Hin Hd. apply Hnum; [|done].
  apply (elem_of_listing w m name Hr), Hsub; [done|].
  by apply (elem_of_listing w' m' name Hr').
Qed.

Lemma optional_results (b : bool) (w : world) (m : gmap string entry) :
  root w = Some (Dir m) →
  numeral_names w →
  ∃ w' m',
    (if b then removeResultFolders else ret tt) w = (Ok tt, w') ∧
    root w' = Some (Dir m') ∧
    locked w' = locked w ∧
    ∀ name, m' !! name
            = if b && is_result_name w name && negb (bool_decide (name ∈ locked w))
              then None else m !! name.
Proof.
  intros Hr Hnum. destruct b.
  - apply (removeResultFolders_run w m Hr Hnum).
  - by exists w, m.
Qed.

Lemma optional_post (b : bool) (w : world) (m : gmap string entry) :
  root w = Some (Dir m) →
  ∃ w' m',
    (if b then removePostProcessingFolder else ret tt) w = (Ok tt, w') ∧
    root w' = Some (Dir m') ∧
    locked w' = locked w ∧
    ∀ name, m' !! name
            = if b && bool_decide (name = "postProcessing")
                 && removable w "postProcessing"
              then None else m !! name.
Proof.
  intros Hr. destruct b.
  - apply (removePostProcessingFolder_run w m Hr).
  - by exists w, m.
Qed.

(** [purge] with [removePolyMeshContent] and [removeSnappyHexMeshFolders]
    set, as they are by default, and any choice of [removeResultFolders]
    and [removePostProcessingFolder], on a meshed case whose numbered
    folders are named by numerals, with no frozen snapshot and no protected
    one, in a model where the system protects only entries directly under
    the project directory: the call succeeds. The [polyMesh] folder keeps
    only [blockMeshDict]. Beside the entry holding that folder, the
    snapshots are gone; the result folders and the [postProcessing] folder
    are gone when their flag is set and the system lets them go, and are
    still directories when the system refuses; every entry that no set
    flag aims at is as it was. No snapshot is listed afterwards. *)
Theorem purge_clean_slate (results post : bool) (w : world) (d : gmap string entry) :
  lookup_path (polyMeshFolder w) w = Some (Dir d) →
  numeral_names w →
  Forall (λ n, PyStr.endswith n ".org" = true →
               os_path_isdir [n; "polyMesh"] w = false) (listing w) →
  Forall (λ f, f ∉ locked w) (mesh_names w) →
  ∃ w' d',
    purge true true results post w = (Ok tt, w') ∧
    lookup_path (polyMeshFolder w) w' = Some (Dir d') ∧
    (∀ n, d' !! n = if bool_decide (n = "blockMeshDict") then d !! n else None) ∧
    (∀ name, name ≠ hd "" (polyMeshFolder w) →
       (is_mesh_name w name = true → lookup_path [name] w' = None) ∧
       (results && is_result_name w name
        || post && bool_decide (name = "postProcessing") = true →
        (removable w name = true → lookup_path [name] w' = None) ∧
        (os_path_isdir [name] w = true → name ∈ locked w →
         os_path_isdir [name] w' = true)) ∧
       (is_mesh_name w name = false →
        results && is_result_name w name
        || post && bool_decide (name = "postProcessing") = false
        ∨ os_path_isdir [name] w = false →
        lookup_path [name] w' = lookup_path [name] w)) ∧
    getSnappyHexMeshFolders w' = (Ok [], w').
Proof.
  intros Hpm Hnum Hplain Hfree.
  destruct (polyMeshFolder_head w) as (c & p & Hcp & Hcd & Hcpp & Hcorg).
  unfold lookup_path in Hpm. rewrite Hcp in Hpm.
  destruct (root w) as [[s|m]|] eqn:Hr; try done. cbn [mbind option_bind] in Hpm.
  (* the content of polyMesh *)
  destruct (removePolyMeshContent_run w c p m d Hcp Hr Hpm)
    as (w1 & m1 & d1 & Hrun1 & Hpf1 & Hl1 & Hs1 & Hr1 & Hres1 & Hd1 & Hframe1).
  assert (∀ name, PyStr.isdigit name = true → m1 !! name = m !! name) as Hdig1.
  { intros name Hd. apply Hframe1. intros ->. congruence. }
  assert (∀ name, is_mesh_name w1 name = is_mesh_name w name) as Hmesh1.
  { intros name. rewrite (is_mesh_name_top w1 m1 name Hr1), (is_mesh_name_top w m name Hr).
    destruct (PyStr.isdigit name) eqn:Hd; [|done]. by rewrite Hdig1. }
  assert (∀ name, is_result_name w1 name = is_result_name w name) as Hres_1.
  { intros name.
    rewrite (is_result_name_top w1 m1 name Hr1), (is_result_name_top w m name Hr).
    destruct (PyStr.isdigit name) eqn:Hd; [|by rewrite !andb_false_r].
    by rewrite Hdig1. }
  (* the snapshots *)
  destruct (removeSnappyHexMeshFolders_run w1 m1 Hr1)
    as (w2 & m2 & Hrun2 & Hr2 & Hl2 & Hs2 & Hlook2).
  { apply (numeral_names_sub w w1 m m1 Hr Hr1); [|done].
    intros name Hd. by rewrite Hdig1. }
  { apply Forall_forall. intros n Hn Hend.
    assert (n ≠ c) as Hne by (intros ->; congruence).
    rewrite (isdir_mesh w1 m1 n Hr1), (Hframe1 n Hne), <- (isdir_mesh w m n Hr).
    apply (proj1 (Forall_forall _ _) Hplain n); [|done].
    apply (elem_of_listing w m n Hr). rewrite <- (Hframe1 n Hne).
    by apply (elem_of_listing w1 m1 n Hr1). }
  { apply Forall_forall. intros f Hf. rewrite Hl1.
    apply (proj1 (Forall_forall _ _) Hfree f).
    apply elem_of_mesh_names in Hf as [Hd Hm]. apply elem_of_mesh_names.
    split; [done|].
    by rewrite (isdir_mesh w m f Hr), <- (Hdig1 f Hd), <- (isdir_mesh w1 m1 f Hr1). }
  assert (∀ name, m2 !! name = if is_mesh_name w name then None else m1 !! name)
    as Hlook2' by (intros name; by rewrite Hlook2, Hmesh1).
  assert (∀ name, is_result_name w2 name = is_result_name w name) as Hres_2.
  { intros name. rewrite <- Hres_1.
    apply (result_names_without_snapshots w1 w2 m1 m2 Hr1 Hr2).
    intros name' _. apply Hlook2. }
  (* the result folders *)
  destruct (optional_results results w2 m2 Hr2)
    as (w3 & m3 & Hrun3 & Hr3 & Hl3 & Hlook3).
  { apply (numeral_names_sub w1 w2 m1 m2 Hr1 Hr2).
    - intros name _. rewrite Hlook2. by destruct (is_mesh_name w1 name).
    - apply (numeral_names_sub w w1 m m1 Hr Hr1); [|done].
      intros name Hd. by rewrite Hdig1. }
  (* the post-processing folder *)
  destruct (optional_post post w3 m3 Hr3)
    as (w4 & m4 & Hrun4 & Hr4 & Hl4 & Hlook4).
  assert (is_mesh_name w "postProcessing" = false) as Hppm
    by (rewrite (is_mesh_name_top w m _ Hr); by vm_compute).
  assert (is_result_name w "postProcessing" = false) as Hppr
    by (rewrite (is_result_name_top w m _ Hr); by vm_compute).
  assert (removable w3 "postProcessing" = removable w "postProcessing") as Hpp.
  { rewrite (removable_top w3 m3 _ Hr3), (removable_top w m _ Hr).
    rewrite Hlook3, Hres_2, Hppr, Hlook2', Hppm. rewrite andb_false_r. cbn [andb].
    by rewrite (Hframe1 _ (not_eq_sym Hcpp)), Hl3, Hl2, Hl1. }
  assert (∀ name, name ≠ c →
            m4 !! name
            = if is_mesh_name w name
                 || (results && is_result_name w name
                     || post && bool_decide (name = "postProcessing"))
                    && removable w name
              then None else m !! name) as Hall.
  { intros name Hne.
    rewrite Hlook4, Hpp, Hlook3, Hres_2, Hlook2', (Hframe1 name Hne), Hl2, Hl1.
    destruct (decide (name = "postProcessing")) as [->|Hnpp].
    - rewrite bool_decide_eq_true_2 by done. rewrite Hppm, Hppr.
      rewrite !andb_false_r, !andb_true_r. cbn [andb orb].
      by destruct (post && removable w "postProcessing").
    - rewrite bool_decide_eq_false_2 by done.
      rewrite !andb_false_r, orb_false_r. cbn [andb].
      destruct (is_result_name w name) eqn:Eres.
      + assert (os_path_isdir [name] w = true) as Hd.
        { unfold is_result_name in Eres.
          apply andb_true_iff in Eres as [E _]. by apply andb_true_iff in E as [_ E]. }
        unfold removable. rewrite Hd, !andb_true_r. cbn [andb].
        destruct (results && negb (bool_decide (name ∈ locked w))).
        * by rewrite orb_true_r.
        * by rewrite orb_false_r.
      + rewrite !andb_false_r. cbn [andb]. by rewrite orb_false_r. }
  exists w4, d1. split; [|split; [|split; [done|split]]].
  - unfold purge, bind at 1. rewrite Hrun1. unfold bind at 1. rewrite Hrun2.
    unfold bind at 1. by rewrite Hrun3.
  - unfold lookup_path. rewrite Hcp, Hr4. cbn [mbind option_bind]. rewrite <- Hres1.
    cbn [resolve].
    assert (m4 !! c = m1 !! c) as ->; [|done].
    rewrite Hlook4, (bool_decide_eq_false_2 (c = "postProcessing")) by done.
    rewrite andb_false_r. cbn [andb].
    rewrite Hlook3, Hres_2, (is_result_name_top w m c Hr), Hcd.
    rewrite !andb_false_r. cbn [andb].
    by rewrite Hlook2', (is_mesh_name_top w m c Hr), Hcd.
  - intros name Hne. rewrite Hcp in Hne. cbn in Hne.
    assert (lookup_path [name] w4
            = if is_mesh_name w name
                 || (results && is_result_name w name
                     || post && bool_decide (name = "postProcessing"))
                    && removable w name
              then None else lookup_path [name] w) as Hname
      by by rewrite (lookup_path_top w4 m4 name Hr4), (lookup_path_top w m name Hr),
                    (Hall name Hne).
    split; [|split].
    + intros Hm. by rewrite Hname, Hm.
    + intros Haim. split.
      * intros Hrem. by rewrite Hname, Haim, Hrem, orb_true_r.
      * intros Hd Hlock. unfold os_path_isdir at 1. rewrite Hname.
        assert (removable w name = false) as ->
          by (unfold removable; by rewrite (bool_decide_eq_true_2 _ Hlock), andb_false_r).
        rewrite andb_false_r, orb_false_r.
        assert (is_mesh_name w name = false) as ->; [|exact Hd].
        apply not_true_iff_false. intros Hm.
        apply (proj1 (Forall_forall _ _) Hfree name); [|done].
        apply elem_of_mesh_names. by apply andb_true_iff in Hm.
    + intros Hm Hout. rewrite Hname, Hm. cbn [orb]. destruct Hout as [->|Hd]; [done|].
      unfold removable. by rewrite Hd, andb_false_r.
  - apply (no_snapshots w4 m4 Hr4). intros name Hd.
    assert (name ≠ c) as Hne by (intros ->; congruence).
    rewrite (Hall name Hne), (is_mesh_name_top w m name Hr), Hd. cbn [andb].
    destruct (has_mesh (m !! name)) eqn:E; [done|].
    cbn [orb]. by destruct (_ && _).
Qed.

Lemma purge_clean_slate_witness :
  ∃ w' d',
    purge true true true true Samples2.meshed = (Ok tt, w') ∧
    lookup_path (polyMeshFolder Samples2.meshed) w' = Some (Dir d') ∧
    (∀ n, d' !! n = if bool_decide (n = "blockMeshDict")
                    then ({[ "blockMeshDict" := File "dict"; "points" := File "p";
                             "sets" := Dir {[ "s" := File "" ]} ]}
                          : gmap string entry) !! n
                    else None) ∧
    (∀ name, name ≠ hd "" (polyMeshFolder Samples2.meshed) →
       (is_mesh_name Samples2.meshed name = true → lookup_path [name] w' = None) ∧
       (true && is_result_name Samples2.meshed name
        || true && bool_decide (name = "postProcessing") = true →
        (removable Samples2.meshed name = true → lookup_path [name] w' = None) ∧
        (os_path_isdir [name] Samples2.meshed = true → name ∈ locked Samples2.meshed →
         os_path_isdir [name] w' = true)) ∧
       (is_mesh_name Samples2.meshed name = false →
        true && is_result_name Samples2.meshed name
        || true && bool_decide (name = "postProcessing") = false
        ∨ os_path_isdir [name] Samples2.meshed = false →
        lookup_path [name] w' = lookup_path [name] Samples2.meshed)) ∧
    getSnappyHexMeshFolders w' = (Ok [], w').
Proof.
  eapply (purge_clean_slate true true).
  - vm_compute. reflexivity.
  - apply (bool_decide_unpack _). vm_compute. exact I.
  - apply (bool_decide_unpack _). vm_compute. exact I.
  - apply (bool_decide_unpack _). vm_compute. exact I.
Defined.

End Purge.

(** ** [calculateMeshOrthogonality] *)

Section Orthogonality.
Import Case CaseRest Props Props2.
Context `{RunManager} `{ParseFloat}.

Lemma split_go_skip (sep x cur tail : list Ascii.ascii) :
  PySplit.split_go sep (length x) cur (x ++ tail) = PySplit.split_go sep 0 cur tail.
Proof. induction x as [|c x IH]; [done|]. exact IH. Qed.

Lemma split_go_find_none (sep cur l : list Ascii.ascii) :
  PySplit.find sep l = None →
  PySplit.split_go sep 0 cur l = [PyStr.of_chars (reverse cur ++ l)].
Proof.
  revert cur. induction l as [|c l IH]; intros cur; cbn [PySplit.find PySplit.split_go].
  - by rewrite app_nil_r.
  - destruct (PyStr.is_prefix sep (c :: l)); [done|].
    destruct (PySplit.find sep l); [done|]. intros _.
    rewrite IH by done. by rewrite reverse_cons, <- app_assoc.
Qed.

Lemma split_go_find_some (sep cur l : list Ascii.ascii) (i : nat) :
  sep ≠ [] →
  PySplit.find sep l = Some i →
  PySplit.split_go sep 0 cur l
  = PyStr.of_chars (reverse cur ++ take i l)
    :: PySplit.split_go sep 0 [] (drop (i + length sep) l).
Proof.
  intros Hsep. revert cur i. induction l as [|c l IH]; intros cur i.
  - cbn [PySplit.find]. destruct (PyStr.is_prefix sep []) eqn:E; [|done].
    apply is_prefix_spec in E as [k Hk]. by destruct sep.
  - cbn [PySplit.find PySplit.split_go].
    destruct (PyStr.is_prefix sep (c :: l)) eqn:E.
    + intros [= <-]. cbn [take]. rewrite app_nil_r. f_equal.
      apply is_prefix_spec in E as [k Hk].
      destruct sep as [|c' sep']; [done|]. cbn in Hk. injection Hk as <- ->.
      cbn [length pred Nat.add drop]. rewrite drop_app_length.
      apply split_go_skip.
    + destruct (PySplit.find sep l) as [i'|] eqn:Ef; [|done].
      intros [= <-]. rewrite (IH (c :: cur) i' eq_refl).
      cbn [take Nat.add drop]. by rewrite reverse_cons, <- app_assoc.
Qed.

Lemma split_go_head (sep l : list Ascii.ascii) :
  sep ≠ [] →
  ∃ rest, PySplit.split_go sep 0 [] l = PyStr.of_chars (PySplit.until sep l) :: rest.
Proof.
  intros Hsep. unfold PySplit.until. destruct (PySplit.find sep l) as [i|] eqn:E.
  - rewrite (split_go_find_some sep [] l i Hsep E). by eexists.
  - rewrite (split_go_find_none sep [] l E). by eexists.
Qed.

Lemma find_none_drop (sep l : list Ascii.ascii) (k : nat) :
  PySplit.find sep l = None → PySplit.find sep (drop k l) = None.
Proof.
  revert l. induction k as [|k IH]; intros l; [by rewrite drop_0|].
  destruct l as [|c l]; [done|]. cbn [PySplit.find drop].
  destruct (PyStr.is_prefix sep (c :: l)); [done|].
  destruct (PySplit.find sep l) eqn:E; [done|]. intros _. by apply IH.
Qed.

(** The last piece of a split is what follows some prefix of the text. *)
Lemma last_piece_drop (sep : list Ascii.ascii) (n : nat) (l : list Ascii.ascii) :
  sep ≠ [] → length l ≤ n →
  ∃ k, last (PySplit.split_go sep 0 [] l) = Some (PyStr.of_chars (drop k l)).
Proof.
  intros Hsep. revert l. induction n as [|n IH]; intros l Hlen.
  - destruct l; [|cbn in Hlen; lia]. by exists 0.
  - destruct (PySplit.find sep l) as [i|] eqn:E.
    + rewrite (split_go_find_some sep [] l i Hsep E).
      destruct (IH (drop (i + length sep) l)) as [k Hk].
      { rewrite length_drop. destruct sep; [done|]. cbn. lia. }
      exists (i + length sep + k). rewrite last_cons, Hk. by rewrite drop_drop.
    + rewrite (split_go_find_none sep [] l E). by exists 0.
Qed.

Lemma read_log (f : path) (c : string) (w : world) :
  lookup_path f w = Some (File c) →
  os_path_isfile f w = true ∧ read_file f w = (Ok c, log_call (Open f) w).
Proof. intros Hl. unfold os_path_isfile, read_file. by rewrite Hl. Qed.

(** With the current log, [calculateMeshOrthogonality] reads it from
    [bash\log\checkMesh.log]. Where the marker occurs once and [average:]
    occurs after it, the maximum is parsed from the text between the two
    and the average from the text after [average:] up to the end of the
    line (or to the next [average:], if that comes first); the maximum is
    parsed first, and a failure of the parser is the failure of the call. *)
Theorem orthogonality_read_from_log
    (dp : option decomposition) (w : world) (c : string) (i j : nat) :
  lookup_path (logFolder w ++ ["checkMesh.log"]) w = Some (File c) →
  PySplit.find (PyStr.chars marker) (PyStr.chars c) = Some i →
  PySplit.find (PyStr.chars marker)
    (drop (i + length (PyStr.chars marker)) (PyStr.chars c)) = None →
  PySplit.find (PyStr.chars "average:")
    (drop (i + length (PyStr.chars marker)) (PyStr.chars c)) = Some j →
  calculateMeshOrthogonality dp true w
  = (match parse_float
             (PyStr.of_chars
                (take j (drop (i + length (PyStr.chars marker)) (PyStr.chars c)))) with
     | Raised e => Raised e
     | Ok mx =>
         match parse_float
                 (PyStr.of_chars
                    (PySplit.until (PyStr.chars nl)
                       (PySplit.until (PyStr.chars "average:")
                          (drop (j + length (PyStr.chars "average:"))
                             (drop (i + length (PyStr.chars marker))
                                (PyStr.chars c)))))) with
         | Raised e => Raised e
         | Ok av => Ok (mx, av)
         end
     end, log_call (Open (logFolder w ++ ["checkMesh.log"])) w).
Proof.
  intros Hfile Hm Hone Havg.
  destruct (read_log _ c w Hfile) as [Hisfile Hread].
  set (tail := drop (i + length (PyStr.chars marker)) (PyStr.chars c)) in *.
  unfold calculateMeshOrthogonality. cbn [negb]. unfold bind at 1, ret at 1.
  unfold bind at 1, get_state. unfold bind at 1. rewrite Hisfile.
  unfold py_assert, ret at 1. unfold bind at 1. rewrite Hread.
  assert (PySplit.split c marker
          = [PyStr.of_chars (take i (PyStr.chars c)); PyStr.of_chars tail]) as ->.
  { unfold PySplit.split. rewrite (split_go_find_some _ [] _ i) by done.
    fold tail. by rewrite (split_go_find_none _ [] tail Hone). }
  cbn [last default from_option]. unfold id. unfold PySplit.split at 1. rewrite chars_of_chars.
  rewrite (split_go_find_some _ [] tail j) by done.
  destruct (split_go_head (PyStr.chars "average:")
              (drop (j + length (PyStr.chars "average:")) tail)) as [rest ->]; [done|].
  cbn [take]. unfold PySplit.split. rewrite chars_of_chars.
  destruct (split_go_head (PyStr.chars nl)
              (PySplit.until (PyStr.chars "average:")
                 (drop (j + length (PyStr.chars "average:")) tail))) as [rest' ->];
    [done|].
  cbn [head default from_option app reverse]. unfold id, raise, ret.
  destruct (parse_float _) as [mx|e]; [|done].
  by destruct (parse_float _) as [av|e].
Qed.

(** With the current log, [calculateMeshOrthogonality] fails the assertion,
    without opening anything, when there is no file [checkMesh.log] under
    [bash\log]; and a log in which [average:] does not occur makes it raise
    [ValueError], whatever the parser. *)
Theorem orthogonality_log_incomplete (dp : option decomposition) (w : world) :
  (os_path_isfile (logFolder w ++ ["checkMesh.log"]) w = false →
   calculateMeshOrthogonality dp true w = (Raised AssertionError, w)) ∧
  (∀ c, lookup_path (logFolder w ++ ["checkMesh.log"]) w = Some (File c) →
        PySplit.find (PyStr.chars "average:") (PyStr.chars c) = None →
        calculateMeshOrthogonality dp true w
        = (Raised ValueError, log_call (Open (logFolder w ++ ["checkMesh.log"])) w)).
Proof.
  split.
  - intros Hno. unfold calculateMeshOrthogonality. cbn [negb].
    unfold bind at 1, ret at 1. unfold bind at 1, get_state. unfold bind at 1.
    by rewrite Hno.
  - intros c Hfile Hnone.
    destruct (read_log _ c w Hfile) as [Hisfile Hread].
    unfold calculateMeshOrthogonality. cbn [negb]. unfold bind at 1, ret at 1.
    unfold bind at 1, get_state. unfold bind at 1. rewrite Hisfile.
    unfold py_assert, ret at 1. unfold bind at 1. rewrite Hread.
    destruct (last_piece_drop (PyStr.chars marker) (length (PyStr.chars c))
                (PyStr.chars c)) as [k Hk]; [done|done|].
    unfold PySplit.split at 2. rewrite Hk. cbn [default from_option]. unfold id.
    unfold PySplit.split. rewrite chars_of_chars.
    by rewrite (split_go_find_none _ [] _ (find_none_drop _ _ k Hnone)).
Qed.

End Orthogonality.

Lemma orthogonality_read_from_log_witness :
  @CaseRest.calculateMeshOrthogonality (SpecRunManager.manager Samples.behaviour)
    Samples2.two_numbers None true (Samples2.checked Samples2.full_log)
  = (Ok (S754_finite false 261 (-2), S754_finite false 51 (-2)),
     log_call (Open ["bash"; "log"; "checkMesh.log"])
       (Samples2.checked Samples2.full_log)).
Proof.
  rewrite (@orthogonality_read_from_log (SpecRunManager.manager Samples.behaviour)
             Samples2.two_numbers None (Samples2.checked Samples2.full_log)
             Samples2.full_log 25 7).
  - vm_compute. reflexivity.
  - vm_compute. reflexivity.
  - vm_compute. reflexivity.
  - vm_compute. reflexivity.
  - vm_compute. reflexivity.
Defined.
